(** * Apple Slicer: a model of [slicer.py] and the properties of its report pipeline

    The script reads a tab-separated table of exchange rates
    ([parse_currency_data]), sums the sales of every financial report of a
    directory by country and product ([parse_financial_reports]) and prints
    them grouped by Apple subsidiary ([print_sales_by_corporation]).

    Conventions of the model.
    - A Python exception is a value of [Exn]; a computation that may raise
      returns a [Result].  Code that prints or opens files runs in [Run],
      which also records the events that happened before the outcome.
    - [csv.reader(f, delimiter = '\t')] is taken at its result: a file is the
      list of its rows, a row is the list of its fields, and an empty line of
      the file is the empty row (the reader yields [[]] for it).
    - Python dictionaries with string keys are [gmap string _].
    - [int], [float], [Decimal], [strptime]/[strftime], the module [apple] and
      the iteration order of Python 2 dictionaries are not code of the script:
      they are the fields of the interface [PyLib]; [RefLib] is an instance
      that reads plain numerals, used to run the model on concrete inputs.
    - A [Decimal] is a number, an infinity or a NaN; [Decimal.__add__] and
      [Decimal.__mul__] work under the default context, which the script
      never changes: 28 significant digits, rounding half to even, exponents
      from [Emin] to [Emax], Overflow and InvalidOperation trapped, that is
      raised, and underflow silent.  The sign of a zero and the sign and
      payload of a NaN are not kept: the script reads neither.
    - An output line keeps the numbers it is printed from.  Of
      [locale.currency], under the locale "de_DE" the script sets, the model
      keeps what can raise before the text is shaped: the absolute value of
      the number, which the context rounds, and its comparison with zero.
    - The script is Python 2.7: [print] is a statement, [int] has no bound,
      [Decimal] accepts a float and converts it exactly. *)

From Stdlib Require Import Ascii String ZArith Floats Uint63.
From stdpp Require Import gmap strings list fin_maps.

Local Open Scope Z_scope.

(** ** Exceptions and results *)

Inductive Exn : Type :=
| IOError
| OSError
| IndexError
| ValueError
| InvalidOperation
| Overflow
| KeyError
| ZeroDivisionError
| TypeError
| SystemExit (code : Z).

Inductive Result (A : Type) : Type :=
| Ok (a : A)
| Raise (e : Exn).
Arguments Ok {A} a.
Arguments Raise {A} e.

#[global] Instance Exn_eq_dec : EqDecision Exn.
Proof. solve_decision. Defined.

#[global] Instance Result_eq_dec {A} `{EqDecision A} : EqDecision (Result A).
Proof. solve_decision. Defined.

#[global] Instance Result_ret : MRet Result := fun A a => Ok a.
#[global] Instance Result_bind : MBind Result :=
  fun A B f m => match m with Ok a => f a | Raise e => Raise e end.

Definition raises {A} (r : Result A) : Prop := exists e, r = Raise e.

(** [or_raise e o]: the value of a library call that raises [e] when it fails. *)
Definition or_raise {A} (e : Exn) (o : option A) : Result A :=
  match o with Some a => Ok a | None => Raise e end.

(** [line[i]] *)
Definition item (line : list string) (i : nat) : Result string :=
  or_raise IndexError (line !! i).

(** ** Strings *)

(** [sub in s] *)
Fixpoint py_in (sub s : string) : bool :=
  String.prefix sub s ||
  match s with
  | EmptyString => false
  | String _ s' => py_in sub s'
  end.

(** [s.endswith(suffix)] *)
Fixpoint endswith (s suffix : string) : bool :=
  String.eqb s suffix ||
  match s with
  | EmptyString => false
  | String _ s' => endswith s' suffix
  end.

(** [s.replace(',', '')] *)
Fixpoint replace_commas (s : string) : string :=
  match s with
  | EmptyString => EmptyString
  | String c s' =>
      if Ascii.eqb c ","%char then replace_commas s' else String c (replace_commas s')
  end.

(** ** Decimal

    The values of Python's [decimal] module and its arithmetic under the
    default context of Python 2.7. *)

(** A number [coef * 10 ^ exp], an infinity, or a NaN, quiet or signaling. *)
Inductive Decimal : Type :=
| mkDecimal (coef exp : Z)
| Infinity (negative : bool)
| NaN
| sNaN.

#[global] Instance Decimal_eq_dec : EqDecision Decimal.
Proof. solve_decision. Defined.

(** The coefficient and the exponent of a number. *)
Definition coef (d : Decimal) : Z :=
  match d with mkDecimal c _ => c | _ => 0 end.

Definition exp (d : Decimal) : Z :=
  match d with mkDecimal _ e => e | _ => 0 end.

(** [d.is_finite()] *)
Definition is_finite (d : Decimal) : bool :=
  match d with mkDecimal _ _ => true | _ => false end.

(** [getcontext().prec], [Emax] and [Emin] *)
Definition prec : Z := 28.
Definition Emax : Z := 999999999.
Definition Emin : Z := -999999999.

(** [Context.Etiny()] and [Context.Etop()] *)
Definition Etiny : Z := Emin - prec + 1.
Definition Etop : Z := Emax - prec + 1.

Fixpoint ndigits_fuel (fuel : nat) (n : Z) : Z :=
  match fuel with
  | O => 0
  | S fuel' => if n <=? 0 then 0 else 1 + ndigits_fuel fuel' (n / 10)
  end.

(** The number of decimal digits of [n > 0]. *)
Definition ndigits (n : Z) : Z := ndigits_fuel (S (Z.to_nat (Z.log2 n))) n.

(** [n] without its [k] last digits, rounded half to even. *)
Definition round_half_even (n k : Z) : Z :=
  let q := n / 10 ^ k in
  let r := n mod 10 ^ k in
  let half := 5 * 10 ^ (k - 1) in
  if (half <? r) || ((r =? half) && Z.odd q) then q + 1 else q.

(** [Decimal._fix]: a result is rounded to fit the context.  A zero has its
    exponent brought between [Etiny] and [Emax].  A number whose leading
    digit stands above [Emax] raises Overflow.  Any other number is cut to
    the exponent [exp_min], the greater of [Etiny] and of what leaves [prec]
    digits, when its own exponent is below that. *)
Definition dec_fix (d : Decimal) : Result Decimal :=
  match d with
  | mkDecimal c e =>
      if c =? 0 then Ok (mkDecimal 0 (Z.min (Z.max e Etiny) Emax))
      else
        let n := Z.abs c in
        let exp_min := ndigits n + e - prec in
        if Etop <? exp_min then Raise Overflow
        else
          let exp_min := Z.max exp_min Etiny in
          if e <? exp_min
          then
            let digits := ndigits n + e - exp_min in
            let n := if digits <? 0 then 1 else n in
            let e := if digits <? 0 then exp_min - 1 else e in
            let coeff := round_half_even n (exp_min - e) in
            let exp_min := if 10 ^ prec <=? coeff then exp_min + 1 else exp_min in
            let coeff := if 10 ^ prec <=? coeff then coeff / 10 else coeff in
            if Etop <? exp_min then Raise Overflow
            else Ok (mkDecimal (Z.sgn c * coeff) exp_min)
          else Ok d
  | _ => Ok d
  end.

(** The sum of two numbers before rounding: both at the smaller exponent. *)
Definition dec_add_exact (x y : Decimal) : Decimal :=
  let e := Z.min (exp x) (exp y) in
  mkDecimal (coef x * 10 ^ (exp x - e) + coef y * 10 ^ (exp y - e)) e.

(** [x + y]: a signaling NaN raises, a NaN gives a NaN, infinities of opposite
    signs raise, an infinity gives itself, and two numbers give their sum,
    rounded. *)
Definition dec_add (x y : Decimal) : Result Decimal :=
  match x, y with
  | sNaN, _ => Raise InvalidOperation
  | _, sNaN => Raise InvalidOperation
  | NaN, _ => Ok NaN
  | _, NaN => Ok NaN
  | Infinity s, Infinity s' =>
      if Bool.eqb s s' then Ok (Infinity s) else Raise InvalidOperation
  | Infinity s, mkDecimal _ _ => Ok (Infinity s)
  | mkDecimal _ _, Infinity s => Ok (Infinity s)
  | mkDecimal _ _, mkDecimal _ _ => dec_fix (dec_add_exact x y)
  end.

(** [x * y]: a signaling NaN raises, a NaN gives a NaN, an infinity times
    zero raises, an infinity times anything else is an infinity, and two
    numbers give their product, rounded. *)
Definition dec_mul (x y : Decimal) : Result Decimal :=
  match x, y with
  | sNaN, _ => Raise InvalidOperation
  | _, sNaN => Raise InvalidOperation
  | NaN, _ => Ok NaN
  | _, NaN => Ok NaN
  | Infinity s, Infinity s' => Ok (Infinity (xorb s s'))
  | Infinity s, mkDecimal c _ =>
      if c =? 0 then Raise InvalidOperation else Ok (Infinity (xorb s (c <? 0)))
  | mkDecimal c _, Infinity s =>
      if c =? 0 then Raise InvalidOperation else Ok (Infinity (xorb (c <? 0) s))
  | mkDecimal cx ex, mkDecimal cy ey => dec_fix (mkDecimal (cx * cy) (ex + ey))
  end.

(** [abs(x)]: a signaling NaN raises, a NaN gives itself, and the absolute
    value of a number is rounded. *)
Definition dec_abs (x : Decimal) : Result Decimal :=
  match x with
  | sNaN => Raise InvalidOperation
  | NaN => Ok NaN
  | Infinity _ => Ok (Infinity false)
  | mkDecimal c e => dec_fix (mkDecimal (Z.abs c) e)
  end.

(** [x < 0]: a NaN, signaling or not, raises. *)
Definition dec_negative (x : Decimal) : Result bool :=
  match x with
  | sNaN => Raise InvalidOperation
  | NaN => Raise InvalidOperation
  | Infinity negative => Ok negative
  | mkDecimal c _ => Ok (c <? 0)
  end.

(** [Decimal(0)] *)
Definition Decimal_0 : Decimal := mkDecimal 0 0.

(** [Decimal('1.00000')] *)
Definition Decimal_1_00000 : Decimal := mkDecimal 100000 (-5).

(** ** What the script takes from Python and from the module [apple] *)

Class PyLib : Type := {
  (** [int(s)]; [None] when it raises ValueError *)
  py_int : string -> option Z;
  (** [float(s)]; [None] when it raises ValueError *)
  py_float : string -> option float;
  (** [Decimal(s)]; [None] when it raises InvalidOperation *)
  py_Decimal : string -> option Decimal;
  (** [Decimal(x)] for a float [x]: its exact value, an infinity or a NaN *)
  Decimal_of_float : float -> Decimal;
  (** [datetime.strptime(s, "%m/%d/%Y").strftime('%x')]; [None] when it
      raises ValueError *)
  strptime_strftime : string -> option string;
  (** [apple.corporation], [apple.address], [apple.countryname] *)
  apple_corporation : string -> Result string;
  apple_address : string -> Result string;
  apple_countryname : string -> Result string;
  (** the order in which [for k in d] visits the keys of a dictionary *)
  dict_keys : gset string -> list string;
  dict_keys_perm : forall s, dict_keys s ≡ₚ elements s
}.

(** ** The file system, events and output *)

Record FileSystem : Type := {
  (** [os.listdir(d)]; [None] when it raises OSError *)
  fs_listdir : string -> option (list string);
  (** the rows [csv.reader] yields for [open(path, 'r')]; [None] when [open]
      raises IOError *)
  fs_open : string -> option (list (list string))
}.

(** The exchange rate shown on a product line: [Decimal('1.00000')] or the
    text of column 8 of the rates file. *)
Inductive Rate : Type :=
| RateDecimal (d : Decimal)
| RateText (s : string).

Inductive Output : Type :=
| OutRatesMissing (filename : string)
| OutBanner
| OutUsage (prog : string)
| OutSalesDate (date_range : string)
| OutAddress (address : string)
| OutCountry (name code : string)
| OutProduct (quantity : Z) (product country_currency : string) (amount : Decimal)
             (exchange_rate : Rate) (amount_in_local_currency : Decimal)
| OutTotal (corporation : string) (corporation_sum : Decimal).

Inductive Event : Type :=
| EvListdir (dir : string)
| EvOpen (path : string)
| EvPrint (o : Output).

(** A run: the events so far and how it ended. *)
Record Run (A : Type) : Type := mkRun { trace : list Event; outcome : Result A }.
Arguments mkRun {A} trace outcome.
Arguments trace {A} r.
Arguments outcome {A} r.

#[global] Instance Run_ret : MRet Run := fun A a => mkRun [] (Ok a).
#[global] Instance Run_bind : MBind Run :=
  fun A B f m =>
    match outcome m with
    | Ok a => mkRun (trace m ++ trace (f a)) (outcome (f a))
    | Raise e => mkRun (trace m) (Raise e)
    end.

Definition emit (ev : Event) : Run unit := mkRun [ev] (Ok tt).
Definition lift {A} (r : Result A) : Run A := mkRun [] r.
Definition print (o : Output) : Run unit := emit (EvPrint o).

(** [open(path, 'r')] followed by [csv.reader] *)
Definition open_csv (fs : FileSystem) (path : string) : Run (list (list string)) :=
  _ ← emit (EvOpen path); lift (or_raise IOError (fs_open fs path)).

(** [os.listdir(dir)] *)
Definition listdir (fs : FileSystem) (dir : string) : Run (list string) :=
  _ ← emit (EvListdir dir); lift (or_raise OSError (fs_listdir fs dir)).

(** A [for] loop whose body may raise. *)
Fixpoint for_each {A S} (body : S -> A -> Result S) (st : S) (l : list A) : Result S :=
  match l with
  | [] => Ok st
  | x :: l' => st' ← body st x; for_each body st' l'
  end.

Fixpoint for_each_run {A S} (body : S -> A -> Run S) (st : S) (l : list A) : Run S :=
  match l with
  | [] => mret st
  | x :: l' => st' ← body st x; for_each_run body st' l'
  end.

(** [workingdir + '/' + filename] *)
Definition path_in (workingdir filename : string) : string :=
  workingdir +:+ "/" +:+ filename.
Arguments path_in : simpl never.

(** ** Configuration *)

Definition local_currency : string := "EUR".
Definition currency_data_filename : string := "currency_data.txt".

Section Slicer.
Context {L : PyLib}.

(** [format_date] *)
Definition format_date (date_str : string) : Result string :=
  or_raise ValueError (strptime_strftime date_str).

(** [format_currency]: [locale.currency] formats [abs(number)] and looks
    whether [number < 0] to place the sign; the text is not kept. *)
Definition format_currency (number : Decimal) : Result unit :=
  _ ← dec_abs number;
  _ ← dec_negative number;
  Ok tt.

(** ** parse_currency_data *)

(** The body of the loop over the rows of the rates file. *)
Definition currency_row (d : gmap string (string * float)) (line : list string)
  : Result (gmap string (string * float)) :=
  if negb (10 <? Z.of_nat (length line)) then Ok d
  else
    currency ← item line 0;
    exchange_rate ← item line 8;
    c4 ← item line 4;
    a ← or_raise ValueError (py_float (replace_commas c4));
    c3 ← item line 3;
    b ← or_raise ValueError (py_float (replace_commas c3));
    if PrimFloat.eqb b 0%float then Raise ZeroDivisionError
    else
      let withholding_tax_factor := (1 - PrimFloat.abs (a / b))%float in
      Ok (<[currency := (exchange_rate, withholding_tax_factor)]> d).

Definition parse_currency_data (fs : FileSystem) (filename : string)
  : Run (gmap string (string * float)) :=
  _ ← emit (EvOpen filename);
  match fs_open fs filename with
  | None => _ ← print (OutRatesMissing filename); lift (Raise (SystemExit 1))
  | Some rows => lift (for_each currency_row ∅ rows)
  end.

(** ** parse_financial_reports *)

Record Sales : Type := mkSales {
  countries : gmap string (gmap string (Z * Decimal));
  currencies : gmap string string;
  date_range : option string
}.

(** [not date_range] is false for a non-empty string only. *)
Definition truthy (o : option string) : bool :=
  match o with
  | Some (String _ _) => true
  | _ => false
  end.

(** The body of the loop over the rows of the report [filename]. *)
Definition report_row (filename : string) (st : Sales) (line : list string) : Result Sales :=
  c0 ← item line 0;
  if negb (py_in "/" c0) then Ok st
  else
    dr ← (if negb (truthy (date_range st))
          then d0 ← format_date c0;
               c1 ← item line 1;
               d1 ← format_date c1;
               Ok (Some (d0 +:+ " - " +:+ d1))
          else Ok (date_range st));
    c5 ← item line 5;
    quantity ← or_raise ValueError (py_int c5);
    c7 ← item line 7;
    amount ← or_raise InvalidOperation (py_Decimal c7);
    currency ← item line 8;
    product ← item line 12;
    countrycode ← item line 17;
    let products := default ∅ (countries st !! countrycode) in
    let quantity_and_amount := default (0, Decimal_0) (products !! product) in
    total ← dec_add quantity_and_amount.2 amount;
    let products := <[product := (quantity_and_amount.1 + quantity, total)]> products in
    let countries' := <[countrycode := products]> (countries st) in
    let currencies' := <[countrycode := currency]> (currencies st) in
    let currencies' :=
      if py_in "_WW." filename then <[countrycode := "USD - RoW"]> currencies'
      else currencies' in
    Ok (mkSales countries' currencies' dr).

(** The test that skips the files that are not financial reports. *)
Definition skipped (filename : string) : bool :=
  negb (endswith filename "txt") || String.eqb filename currency_data_filename.

(** The body of the loop over the directory. *)
Definition report_file (fs : FileSystem) (workingdir : string) (st : Sales) (filename : string)
  : Run Sales :=
  if skipped filename then mret st
  else
    rows ← open_csv fs (path_in workingdir filename);
    lift (for_each (report_row filename) st rows).

Definition parse_financial_reports (fs : FileSystem) (workingdir : string) : Run Sales :=
  filenames ← listdir fs workingdir;
  for_each_run (report_file fs workingdir) (mkSales ∅ ∅ None) filenames.

(** ** print_sales_by_corporation *)

(** The body of the loop that groups the countries by corporation. *)
Definition group_country (sales : gmap string (gmap string (Z * Decimal)))
    (corporations : gmap string (gmap string (gmap string (Z * Decimal))))
    (country : string)
  : Result (gmap string (gmap string (gmap string (Z * Decimal)))) :=
  products ← or_raise KeyError (sales !! country);
  corporation ← apple_corporation country;
  Ok (<[corporation := <[country := products]> (default ∅ (corporations !! corporation))]>
        corporations).

(** Lines 152 to 158: the rate shown and the amount in local currency. *)
Definition convert (currency_data : gmap string (string * float))
    (country_currency : string) (amount : Decimal) : Result (Rate * Decimal) :=
  let exchange_rate := RateDecimal Decimal_1_00000 in
  let amount_in_local_currency := amount in
  if negb (String.eqb country_currency local_currency)
  then
    rate_and_factor ← or_raise KeyError (currency_data !! country_currency);
    rate ← or_raise InvalidOperation (py_Decimal rate_and_factor.1);
    amount_at_rate ← dec_mul amount rate;
    amount_in_local_currency ← dec_mul amount_at_rate (Decimal_of_float rate_and_factor.2);
    Ok (RateText rate_and_factor.1, amount_in_local_currency)
  else Ok (exchange_rate, amount_in_local_currency).

(** The body of the loop over the products of a country. *)
Definition product_line (currency_data : gmap string (string * float))
    (country_currency : string) (products_sold : gmap string (Z * Decimal))
    (corporation_sum : Decimal) (product : string) : Run Decimal :=
  quantity_and_amount ← lift (or_raise KeyError (products_sold !! product));
  converted ← lift (convert currency_data country_currency quantity_and_amount.2);
  _ ← lift (format_currency quantity_and_amount.2);
  _ ← lift (format_currency converted.2);
  _ ← print (OutProduct quantity_and_amount.1 product country_currency
               quantity_and_amount.2 converted.1 converted.2);
  lift (dec_add corporation_sum converted.2).

(** The body of the loop over the countries of a corporation. *)
Definition country_block (currency_data : gmap string (string * float))
    (currencies : gmap string string)
    (sold : gmap string (gmap string (Z * Decimal)))
    (corporation_sum : Decimal) (countrycode : string) : Run Decimal :=
  country_currency ← lift (or_raise KeyError (currencies !! countrycode));
  products_sold ← lift (or_raise KeyError (sold !! countrycode));
  name ← lift (apple_countryname countrycode);
  _ ← print (OutCountry name countrycode);
  for_each_run (product_line currency_data country_currency products_sold)
    corporation_sum (dict_keys (dom products_sold)).

(** The body of the loop over the corporations. *)
Definition corporation_block (currency_data : gmap string (string * float))
    (currencies : gmap string string)
    (corporations : gmap string (gmap string (gmap string (Z * Decimal))))
    (_ : unit) (corporation : string) : Run unit :=
  let corporation_sum := Decimal_0 in
  address ← lift (apple_address corporation);
  _ ← print (OutAddress address);
  sold ← lift (or_raise KeyError (corporations !! corporation));
  corporation_sum ←
    for_each_run (country_block currency_data currencies sold)
      corporation_sum (dict_keys (dom sold));
  _ ← lift (format_currency corporation_sum);
  print (OutTotal corporation corporation_sum).

Definition print_sales_by_corporation (currency_data : gmap string (string * float))
    (sales : gmap string (gmap string (Z * Decimal)))
    (currencies : gmap string string) : Run unit :=
  corporations ← lift (for_each (group_country sales) ∅ (dict_keys (dom sales)));
  for_each_run (corporation_block currency_data currencies corporations) tt
    (dict_keys (dom corporations)).

(** ** The script run as a program *)

Definition main (fs : FileSystem) (argv : list string) : Run unit :=
  if Z.of_nat (length argv) <? 2
  then
    _ ← print OutBanner;
    prog ← lift (item argv 0);
    _ ← print (OutUsage prog);
    lift (Raise (SystemExit 1))
  else
    workingdir ← lift (item argv 1);
    currency_data ←
      parse_currency_data fs (path_in workingdir currency_data_filename);
    s ← parse_financial_reports fs workingdir;
    date_range ← lift (or_raise TypeError (date_range s));
    _ ← print (OutSalesDate date_range);
    _ ← print_sales_by_corporation currency_data (countries s) (currencies s);
    lift (Raise (SystemExit 0)).

End Slicer.

(** The exit status of the process: that of [sys.exit], and 1 after an
    exception nobody caught. *)
Definition exit_status {A} (r : Run A) : Z :=
  match outcome r with
  | Ok _ => 0
  | Raise (SystemExit code) => code
  | Raise _ => 1
  end.

(** A printed product line shows what [convert] returned for its amount. *)
Definition converted_line `{L : PyLib} (currency_data : gmap string (string * float))
    (ev : Event) : Prop :=
  match ev with
  | EvPrint (OutProduct _ _ country_currency amount exchange_rate amount_in_local_currency) =>
      convert currency_data country_currency amount
      = Ok (exchange_rate, amount_in_local_currency)
  | _ => True
  end.

(** The files a run opened. *)
Definition opened (ev : Event) : option string :=
  match ev with EvOpen path => Some path | _ => None end.

(** ** A reference instance of the library

    It reads numerals, blanks around them dropped: [int] a signed run of
    digits; [Decimal] a signed numeral with an optional fraction and
    exponent, "Inf", "Infinity", "NaN" and "sNaN" with or without digits
    after it, in either case of the letters; [float] such a numeral, "inf",
    "infinity" and "nan"; dates as month/day/year, printed the German way.
    Numerals whose float needs more than one rounding are not read.  It is
    used to run the model on concrete files. *)

Module Ref.

Definition is_digit (c : ascii) : bool :=
  let n := nat_of_ascii c in ((48 <=? n) && (n <=? 57))%nat.

Definition digit_value (c : ascii) : Z := Z.of_nat (nat_of_ascii c) - 48.

(** The leading digits of [s]: their value after [acc], their number after
    [n], and the rest of [s]. *)
Fixpoint read_digits (s : string) (acc n : Z) : Z * Z * string :=
  match s with
  | String c s' =>
      if is_digit c then read_digits s' (10 * acc + digit_value c) (n + 1)
      else (acc, n, s)
  | EmptyString => (acc, n, s)
  end.

(** An optional sign: [true] for a minus. *)
Definition read_sign (s : string) : bool * string :=
  match s with
  | String "-" s' => (true, s')
  | String "+" s' => (false, s')
  | _ => (false, s)
  end.

Definition signed (negative : bool) (n : Z) : Z := if negative then - n else n.

Definition is_space (c : ascii) : bool :=
  let n := nat_of_ascii c in (((9 <=? n) && (n <=? 13)) || (n =? 32))%nat.

Fixpoint lstrip (s : string) : string :=
  match s with
  | String c s' => if is_space c then lstrip s' else s
  | EmptyString => s
  end.

Fixpoint rstrip (s : string) : string :=
  match s with
  | String c s' =>
      match rstrip s' with
      | EmptyString => if is_space c then EmptyString else String c EmptyString
      | r => String c r
      end
  | EmptyString => s
  end.

(** [s.strip()] *)
Definition strip (s : string) : string := rstrip (lstrip s).

Definition int (s : string) : option Z :=
  let (negative, s1) := read_sign (strip s) in
  let '(v, n, rest) := read_digits s1 0 0 in
  match rest with
  | EmptyString => if n =? 0 then None else Some (signed negative v)
  | _ => None
  end.

Definition lower (c : ascii) : ascii :=
  let n := nat_of_ascii c in
  if ((65 <=? n) && (n <=? 90))%nat then ascii_of_nat (n + 32) else c.

Fixpoint lowercase (s : string) : string :=
  match s with
  | String c s' => String (lower c) (lowercase s')
  | EmptyString => s
  end.

Definition all_digits (s : string) : bool :=
  match read_digits s 0 0 with
  | (_, _, EmptyString) => true
  | _ => false
  end.

(** What [Decimal] reads besides numbers, after the sign. *)
Definition special (negative : bool) (s : string) : option Decimal :=
  let w := lowercase s in
  if String.eqb w "inf" || String.eqb w "infinity" then Some (Infinity negative)
  else
    match w with
    | String "n" (String "a" (String "n" diag)) =>
        if all_digits diag then Some NaN else None
    | String "s" (String "n" (String "a" (String "n" diag))) =>
        if all_digits diag then Some sNaN else None
    | _ => None
    end.

Definition numeral (s : string) : option Decimal :=
  let (negative, s1) := read_sign (strip s) in
  let '(v, ni, s2) := read_digits s1 0 0 in
  let '(v, nf, s3) :=
    match s2 with
    | String "." s2' => read_digits s2' v 0
    | _ => (v, 0, s2)
    end in
  if ni + nf =? 0 then special negative s1
  else
    match s3 with
    | EmptyString => Some (mkDecimal (signed negative v) (- nf))
    | String c s4 =>
        if Ascii.eqb c "E" || Ascii.eqb c "e"
        then
          let (eneg, s5) := read_sign s4 in
          let '(ev, ne, s6) := read_digits s5 0 0 in
          match s6 with
          | EmptyString =>
              if ne =? 0 then None
              else Some (mkDecimal (signed negative v) (signed eneg ev - nf))
          | _ => None
          end
        else None
    end.

Definition float_of_Z (n : Z) : float := PrimFloat.of_uint63 (Uint63.of_Z n).

(** An infinity, a NaN, or a numeral whose digits and power of ten are both
    floats: one division or multiplication rounds it correctly.  Other
    numerals are not read. *)
Definition float_of_string (s : string) : option float :=
  let (negative, s1) := read_sign (strip s) in
  let w := lowercase s1 in
  if String.eqb w "inf" || String.eqb w "infinity"
  then Some (if negative then PrimFloat.neg_infinity else PrimFloat.infinity)
  else if String.eqb w "nan" then Some PrimFloat.nan
  else
    match numeral s with
    | Some (mkDecimal c e) =>
        let n := Z.abs c in
        if (n <? 2 ^ 53) && (-18 <=? e) && (e <=? 18)
        then
          let m := float_of_Z n in
          let p := float_of_Z (10 ^ Z.abs e) in
          let x := if e <? 0 then (m / p)%float else (m * p)%float in
          Some (if c <? 0 then (- x)%float else x)
        else None
    | _ => None
    end.

(** [m * 2 ^ e] in lowest terms. *)
Fixpoint lowest_terms (m : positive) (e : Z) : positive * Z :=
  match m with
  | xO m' => if e <? 0 then lowest_terms m' (e + 1) else (m, e)
  | _ => (m, e)
  end.

(** [Decimal.from_float]: the exact value of a float that is a number, an
    infinity for an infinity and a NaN for a NaN. *)
Definition decimal_of_float (x : float) : Decimal :=
  match Prim2SF x with
  | S754_finite negative m e =>
      let (m, e) := lowest_terms m e in
      if e <? 0 then mkDecimal (signed negative (Z.pos m * 5 ^ (- e))) e
      else mkDecimal (signed negative (Z.pos m * 2 ^ e)) 0
  | S754_zero _ => Decimal_0
  | S754_infinity negative => Infinity negative
  | S754_nan => NaN
  end.

Definition leap (y : Z) : bool :=
  (y mod 4 =? 0) && (negb (y mod 100 =? 0) || (y mod 400 =? 0)).

Definition days_in_month (y m : Z) : Z :=
  if m =? 2 then (if leap y then 29 else 28)
  else if (m =? 4) || (m =? 6) || (m =? 9) || (m =? 11) then 30
  else 31.

Definition digit_char (d : Z) : ascii := ascii_of_nat (Z.to_nat (48 + d mod 10)).

Definition two_digits (n : Z) : string :=
  String (digit_char (n / 10)) (String (digit_char n) EmptyString).

Definition date (s : string) : option string :=
  let '(m, nm, s1) := read_digits s 0 0 in
  match s1 with
  | String "/" s2 =>
      let '(d, nd, s3) := read_digits s2 0 0 in
      match s3 with
      | String "/" s4 =>
          let '(y, ny, s5) := read_digits s4 0 0 in
          match s5 with
          | EmptyString =>
              if (1 <=? nm) && (nm <=? 2) && (1 <=? nd) && (nd <=? 2) && (ny =? 4)
                 && (1 <=? m) && (m <=? 12) && (1 <=? d) && (d <=? days_in_month y m)
                 && (1900 <=? y)
              then Some (two_digits d +:+ "." +:+ two_digits m +:+ "."
                         +:+ two_digits (y / 100) +:+ two_digits y)
              else None
          | _ => None
          end
      | _ => None
      end
  | _ => None
  end.

(** A sample of the tables of [apple.py]. *)
Definition corporation (country : string) : Result string :=
  if String.eqb country "US" then Ok "Apple Inc."
  else if String.eqb country "JP" then Ok "iTunes K.K."
  else if String.eqb country "FR" || String.eqb country "DE"
  then Ok "Apple Distribution International"
  else Raise KeyError.

Definition address (corporation : string) : Result string :=
  Ok (corporation +:+ ", registered office").

Definition countryname (code : string) : Result string :=
  if String.eqb code "US" then Ok "United States"
  else if String.eqb code "JP" then Ok "Japan"
  else if String.eqb code "FR" then Ok "France"
  else if String.eqb code "DE" then Ok "Germany"
  else Raise KeyError.

End Ref.

Definition RefLib : PyLib := {|
  py_int := Ref.int;
  py_float := Ref.float_of_string;
  py_Decimal := Ref.numeral;
  Decimal_of_float := Ref.decimal_of_float;
  strptime_strftime := Ref.date;
  apple_corporation := Ref.corporation;
  apple_address := Ref.address;
  apple_countryname := Ref.countryname;
  dict_keys := elements;
  dict_keys_perm := fun s => reflexivity (elements s)
|}.

(** ** The words of the specification

    What the specification speaks of, written beside the code and compared
    with it below: the data rows of the reports, the sale each one records,
    and the straight sum of the sales of a country and product. *)

Record Sale : Type := mkSale {
  sale_quantity : Z;
  sale_amount : Decimal;
  sale_currency : string;
  sale_product : string;
  sale_country : string
}.

Section Words.
Context {L : PyLib}.

(** A data row: its first field holds a '/'. *)
Definition data_row (line : list string) : bool :=
  match line with
  | c0 :: _ => py_in "/" c0
  | [] => false
  end.

(** The fields of interest of a data row: columns 5, 7, 8, 12 and 17. *)
Definition read_sale (line : list string) : option Sale :=
  c5 ← line !! 5%nat;
  quantity ← py_int c5;
  c7 ← line !! 7%nat;
  amount ← py_Decimal c7;
  currency ← line !! 8%nat;
  product ← line !! 12%nat;
  countrycode ← line !! 17%nat;
  Some (mkSale quantity amount currency product countrycode).

(** The rows of the reports of a directory, each with the name of its file,
    in the order the files are listed. *)
Definition report_rows (fs : FileSystem) (workingdir : string) (filenames : list string)
  : list (string * list string) :=
  filenames ≫= (fun filename =>
    if skipped filename then []
    else (fun line => (filename, line)) <$>
           default [] (fs_open fs (path_in workingdir filename))).

(** The sales of the data rows among [rows]. *)
Definition sales_of (rows : list (string * list string)) : list Sale :=
  omap (fun row => if data_row row.2 then read_sale row.2 else None) rows.

(** The sales of the reports of a directory. *)
Definition report_sales (fs : FileSystem) (workingdir : string) (filenames : list string)
  : list Sale :=
  sales_of (report_rows fs workingdir filenames).

End Words.

(** The sum of numbers, without rounding. *)
Definition dec_sum (l : list Decimal) : Decimal := foldr dec_add_exact Decimal_0 l.

Definition sold (countrycode product : string) (s : Sale) : Prop :=
  sale_country s = countrycode /\ sale_product s = product.

#[global] Instance sold_dec (countrycode product : string) (s : Sale) :
  Decision (sold countrycode product s).
Proof. unfold sold. apply _. Defined.

(** The total of the sales of [product] in [countrycode]: nothing when there
    is no such sale, else the sum of the quantities and of the amounts. *)
Definition tally (countrycode product : string) (sales : list Sale) : option (Z * Decimal) :=
  match filter (sold countrycode product) sales with
  | [] => None
  | l => Some (foldr Z.add 0 (sale_quantity <$> l), dec_sum (sale_amount <$> l))
  end.

(** The entry of the ledger for a country and product. *)
Definition entry (ledger : gmap string (gmap string (Z * Decimal)))
    (countrycode product : string) : option (Z * Decimal) :=
  ledger !! countrycode ≫= (fun products => products !! product).

(** The least exponent of the decimals of [l], and 0. *)
Definition floor_exp (l : list Decimal) : Z := foldr (fun d e => Z.min (exp d) e) 0 l.

(** The sum of the absolute values of [l] in units of [10 ^ e]. *)
Definition abs_total_at (e : Z) (l : list Decimal) : Z :=
  foldr (fun d t => Z.abs (coef d) * 10 ^ (exp d - e) + t) 0 l.

(** A test that makes sure no sum of decimals of [l] is rounded: they are
    numbers, none has an exponent below [Etiny], and their absolute values,
    written at their least exponent, add up to less than [10 ^ prec]. *)
Definition within_precision (l : list Decimal) : Prop :=
  Forall (fun d => is_finite d = true) l /\
  Etiny <= floor_exp l /\
  abs_total_at (floor_exp l) l < 10 ^ prec.

#[global] Instance within_precision_dec (l : list Decimal) : Decision (within_precision l).
Proof. unfold within_precision. apply _. Defined.

(** The decimals of [l] are numbers, none has an exponent below [Etiny], and
    no sum of some of them, taken from [Decimal(0)], has more than [prec]
    digits: adding them up in any order never rounds. *)
Definition sums_exact (l : list Decimal) : Prop :=
  Forall (fun d => is_finite d = true) l /\
  Etiny <= floor_exp l /\
  forall l', l' ⊆+ l -> Z.abs (coef (dec_sum l')) < 10 ^ prec.

(** Lines 114 to 126: the state after a sale read in [filename], when the
    amounts of its country and product add up to [total]. *)
Definition record_sale (filename : string) (st : Sales) (dr : option string) (s : Sale)
    (total : Decimal) : Sales :=
  let products := default ∅ (countries st !! sale_country s) in
  let quantity_and_amount := default (0, Decimal_0) (products !! sale_product s) in
  let products :=
    <[sale_product s := (quantity_and_amount.1 + sale_quantity s, total)]> products in
  let currencies' := <[sale_country s := sale_currency s]> (currencies st) in
  mkSales (<[sale_country s := products]> (countries st))
          (if py_in "_WW." filename
           then <[sale_country s := "USD - RoW"]> currencies'
           else currencies')
          dr.

(** ** Sample directories

    Small directories in the shape of the files the script is run on: the
    rows of a financial report have the 22 columns of an iTunes Connect
    report, a row of the rates file the 11 columns of the payments page. *)

Module Example.

Definition header : list string :=
  ["Start Date"; "End Date"; "UPC"; "ISRC/ISBN"; "Vendor Identifier"; "Quantity";
   "Partner Share"; "Extended Partner Share"; "Partner Share Currency";
   "Sales or Return"; "Apple Identifier"; "Artist/Show/Developer/Author"; "Title";
   "Label/Studio/Network/Developer/Publisher"; "Grid"; "Product Type Identifier";
   "ISAN/Other Identifier"; "Country Of Sale"; "Pre-order Flag"; "Promo Code";
   "Customer Price"; "Customer Currency"].

(** A sale of [quantity] copies of [title] in [country] for [amount] in all. *)
Definition sale (start_date quantity amount currency title country : string)
  : list string :=
  [start_date; "01/31/2015"; ""; ""; "SKU1"; quantity; amount; amount; currency;
   "S"; "123456789"; "fedoco"; title; ""; ""; "1F"; ""; country; ""; ""; amount;
   currency].

Definition footer : list (list string) :=
  [["Total_Rows"; "1"]; ["Total_Amount"; "1"]; ["Total_Units"; "1"]].

(** A row of the rates file: currency, pre-tax subtotal (column 3), tax
    (column 4) and exchange rate (column 8). *)
Definition rates_row (currency subtotal tax rate : string) : list string :=
  [currency; "0.00"; subtotal; subtotal; tax; "0.00"; "0.00"; subtotal; rate;
   "0.00"; "EUR"].

Fixpoint find_file (dir : string) (files : list (string * list (list string)))
    (path : string) : option (list (list string)) :=
  match files with
  | [] => None
  | (name, rows) :: files' =>
      if String.eqb (path_in dir name) path then Some rows
      else find_file dir files' path
  end.

(** The directory [dir] holding [files], and the names [listed] that cannot
    be opened as files. *)
Definition directory (dir : string) (files : list (string * list (list string)))
    (listed : list string) : FileSystem :=
  {| fs_listdir := fun d => if String.eqb d dir then Some (files.*1 ++ listed) else None;
     fs_open := find_file dir files |}.

Definition FR_txt : list (list string) :=
  header :: sale "01/01/2015" "10" "9.99" "EUR" "Slicer" "FR" :: footer.

Definition JP_txt : list (list string) :=
  header :: sale "01/01/2015" "5" "500" "JPY" "Slicer" "JP" :: footer.

Definition rates : list (list string) :=
  [["Earned"; "Paid on"]; rates_row "JPY" "500.00" "-50.00" "0.00750"].

(** Two reports, the rates file and a file that is no report. *)
Definition shop : FileSystem :=
  directory "reports"
    [("currency_data.txt", rates); ("FR.txt", FR_txt); ("JP.txt", JP_txt);
     ("notes.md", [["to do"]])] [].


(** The reports without the rates file. *)
Definition shop_without_rates : FileSystem :=
  directory "reports" [("FR.txt", FR_txt); ("JP.txt", JP_txt)] [].

(** A rates file with a currency that earned nothing in the period. *)
Definition rates_with_idle_currency : list (list string) :=
  [rates_row "JPY" "500.00" "-50.00" "0.00750"; rates_row "USD" "0.00" "0.00" "0.89000"].

Definition shop_with_idle_currency : FileSystem :=
  directory "reports" [("currency_data.txt", rates_with_idle_currency); ("FR.txt", FR_txt)] [].


(** A report of the "rest of world" group. *)
Definition shop_rest_of_world : FileSystem :=
  directory "reports"
    [("FR.txt", FR_txt);
     ("report_WW.txt",
      header :: sale "01/01/2015" "3" "2.10" "USD" "Slicer" "ZA" :: footer)] [].

(** A report with an empty line between the sales and the totals. *)
Definition shop_with_empty_line : FileSystem :=
  directory "reports"
    [("FR.txt",
      header :: sale "01/01/2015" "10" "9.99" "EUR" "Slicer" "FR" :: [] :: footer)] [].

(** A copy of a report kept under a name that ends in "txt" without being a
    "*.txt" file. *)
Definition shop_with_backup : FileSystem :=
  directory "reports" [("FR.txt", FR_txt); ("FR_backup_txt", FR_txt)] [].

(** An amount of 29 digits. *)
Definition shop_with_long_amount : FileSystem :=
  directory "reports"
    [("FR.txt",
      header
      :: sale "01/01/2015" "1" "1.0000000000000000000000000001" "EUR" "Slicer" "FR"
      :: footer)] [].


Definition B_txt : list (list string) :=
  [sale "01/01/2015" "1" "1" "EUR" "Slicer" "FR"].



(** A row whose first field holds a '/' and is no date: its dates are read
    only when it is the first data row of the run. *)
Definition C_txt : list (list string) :=
  [sale "n/a" "1" "1" "EUR" "Slicer" "FR"].

Definition shop_BC : FileSystem :=
  directory "reports" [("B.txt", B_txt); ("C.txt", C_txt)] [].

Definition shop_CB : FileSystem :=
  directory "reports" [("C.txt", C_txt); ("B.txt", B_txt)] [].

(** A report that cannot be opened is listed beside a good one. *)
Definition shop_with_unreadable : FileSystem :=
  directory "reports" [("FR.txt", FR_txt)] ["old.txt"].

(** A report cut short in the middle of a data row. *)
Definition shop_with_short_row : FileSystem :=
  directory "reports"
    [("FR.txt", [header; ["01/01/2015"; "01/31/2015"; ""; ""; "SKU1"; "10"]])] [].

(** A month without sales: the report holds its header and totals only. *)
Definition shop_without_sales : FileSystem :=
  directory "reports" [("currency_data.txt", rates); ("FR.txt", header :: footer)] [].

(** South Africa first in a report of the rest of the world, then in a
    report of its own in rand. *)
Definition shop_two_currencies : FileSystem :=
  directory "reports"
    [("A_WW.txt", [sale "01/01/2015" "3" "2.10" "USD" "Slicer" "ZA"]);
     ("ZA.txt", [sale "01/01/2015" "1" "9.00" "ZAR" "Slicer" "ZA"])] [].

(** The yen twice in the rates file. *)
Definition shop_with_two_rates : FileSystem :=
  directory "reports"
    [("currency_data.txt",
      [rates_row "JPY" "500.00" "-50.00" "0.00750";
       rates_row "JPY" "800.00" "0.00" "0.00760"])] [].




(** A ledger of French sales and its currency map. *)
Definition french_sales : gmap string (gmap string (Z * Decimal)) :=
  {["FR" := {["Slicer" := (10, mkDecimal 999 (-2))]}]}.

Definition french_currencies : gmap string string := {["FR" := "EUR"]}.

(** A ledger of French and Japanese sales, its currency map, and a rates
    table with the yen: 0.9 is left of a yen after the tax withheld. *)
Definition two_sales : gmap string (gmap string (Z * Decimal)) :=
  <["JP" := {["Slicer" := (5, mkDecimal 500 0)]}]> french_sales.

Definition two_currencies : gmap string string := <["JP" := "JPY"]> french_currencies.

Definition yen_table : gmap string (string * float) :=
  {["JPY" := ("0.00750", 0x1.ccccccccccccdp-1%float)]}.

(** The table a run of [parse_currency_data] returns, or the empty table
    when it raises. *)
Definition returned_table (r : Run (gmap string (string * float)))
  : gmap string (string * float) :=
  match outcome r with
  | Ok d => d
  | Raise _ => ∅
  end.

(** The state a run of [parse_financial_reports] returns, or the empty
    state when it raises. *)
Definition returned (r : Run Sales) : Sales :=
  match outcome r with
  | Ok st => st
  | Raise _ => mkSales ∅ ∅ None
  end.

End Example.

(** ** Readings of the printed report *)

(** A printed product line is an entry of the ledger, shown with the
    currency of its country. *)
Definition from_ledger (sales : gmap string (gmap string (Z * Decimal)))
    (currencies : gmap string string) (ev : Event) : Prop :=
  match ev with
  | EvPrint (OutProduct quantity product country_currency amount _ _) =>
      exists countrycode products,
        sales !! countrycode = Some products /\
        products !! product = Some (quantity, amount) /\
        currencies !! countrycode = Some country_currency
  | _ => True
  end.

(** The sum a reader keeps while reading the report: back to [Decimal(0)] at
    the address of a corporation, increased by the amount in local currency
    of every product line, compared with every total; [None] when a total
    differs from the sum, or when something is printed after a line whose
    amount cannot be added. *)
Fixpoint running_total (sum : Decimal) (evs : list Event) : option Decimal :=
  match evs with
  | [] => Some sum
  | EvPrint (OutAddress _) :: evs' => running_total Decimal_0 evs'
  | EvPrint (OutProduct _ _ _ _ _ amount_in_local_currency) :: evs' =>
      match dec_add sum amount_in_local_currency with
      | Ok sum' => running_total sum' evs'
      | Raise _ => match evs' with [] => Some sum | _ => None end
      end
  | EvPrint (OutTotal _ corporation_sum) :: evs' =>
      if decide (corporation_sum = sum) then running_total sum evs' else None
  | _ :: evs' => running_total sum evs'
  end.

(** A run that keeps the sum: read from [sum], the events of a run that
    returns lead to the sum it returns, whatever is printed next; those of a
    run that raises can be read to their end. *)
Definition keeps_sum (sum : Decimal) (m : Run Decimal) : Prop :=
  match outcome m with
  | Ok sum' => forall evs, running_total sum (trace m ++ evs) = running_total sum' evs
  | Raise _ => is_Some (running_total sum (trace m))
  end.

(** What grouping keeps: every country filed under a corporation is a
    country of the ledger with its products, filed under the corporation
    [apple.corporation] names, and no corporation is without a country. *)
Definition grouped `{L : PyLib} (sales : gmap string (gmap string (Z * Decimal)))
    (corporations : gmap string (gmap string (gmap string (Z * Decimal)))) : Prop :=
  forall corporation sold,
    corporations !! corporation = Some sold ->
    sold <> ∅ /\
    forall countrycode products,
      sold !! countrycode = Some products ->
      sales !! countrycode = Some products /\ apple_corporation countrycode = Ok corporation.

(** The number of product lines among the events of a run. *)
Definition product_lines (evs : list Event) : nat :=
  sum_list_with (fun ev => match ev with
                           | EvPrint (OutProduct _ _ _ _ _ _) => 1
                           | _ => 0
                           end)%nat evs.

(** The sum of [f] over the values of a dictionary. *)
Definition map_sum {V} (f : V -> nat) (m : gmap string V) : nat :=
  sum_list_with (fun kv => f kv.2) (map_to_list m).

(** The number of entries of a ledger. *)
Definition entries (sales : gmap string (gmap string (Z * Decimal))) : nat :=
  map_sum size sales.

(** A number whose exponent is at least [lo] and that is less than
    [10 ^ hi]: its digits end at or above [10 ^ lo] and start below
    [10 ^ hi]. *)
Definition in_range (lo hi : Z) (d : Decimal) : Prop :=
  is_finite d = true /\ lo <= exp d /\ ndigits (Z.abs (coef d)) + exp d <= hi.

(** A number of moderate size: no digit below [10 ^ -100000000], none at or
    above [10 ^ 100000000]. *)
Definition moderate (d : Decimal) : Prop := in_range (-100000000) 100000000 d.

(** What makes the report of a ledger printable: the ledger has at most
    100000000 entries, all of moderate amounts; every country has a
    corporation with an address, a name and a currency; and every currency
    but the local one has in the table a rate that [Decimal] reads and a
    factor, both numbers of moderate size.  Moderate numbers keep the
    products and the sums of the report far from the exponents at which
    [Decimal] arithmetic raises Overflow, and infinities and NaN, for which
    it can raise InvalidOperation, are not moderate. *)
Definition printable `{L : PyLib} (currency_data : gmap string (string * float))
    (sales : gmap string (gmap string (Z * Decimal)))
    (currencies : gmap string string) : Prop :=
  Z.of_nat (entries sales) <= 100000000 /\
  forall countrycode products,
    sales !! countrycode = Some products ->
    (forall product quantity amount,
       products !! product = Some (quantity, amount) -> moderate amount) /\
    exists corporation address name country_currency,
      apple_corporation countrycode = Ok corporation /\
      apple_address corporation = Ok address /\
      apple_countryname countrycode = Ok name /\
      currencies !! countrycode = Some country_currency /\
      (country_currency = local_currency \/
       exists rate factor r,
         currency_data !! country_currency = Some (rate, factor) /\
         py_Decimal rate = Some r /\
         moderate r /\
         moderate (Decimal_of_float factor)).

(** * Properties *)

(** ** Loops and runs *)

Lemma raises_Raise {A} (e : Exn) : raises (A := A) (Raise e).
Proof. by exists e. Qed.

Lemma raises_not_Ok {A} (r : Result A) (a : A) : raises r -> r <> Ok a.
Proof. intros [e ->]. discriminate. Qed.

Lemma raises_bind {A B} (m : Result A) (f : A -> Result B) :
  (forall a, m = Ok a -> raises (f a)) -> raises (m ≫= f).
Proof.
  intros H. destruct m as [a|e]; simpl.
  - by apply H.
  - apply raises_Raise.
Qed.

Lemma outcome_bind {A B} (m : Run A) (f : A -> Run B) :
  outcome (m ≫= f) = outcome m ≫= (fun a => outcome (f a)).
Proof. unfold mbind, Run_bind, Result_bind. by destruct (outcome m). Qed.

Lemma trace_bind_Ok {A B} (m : Run A) (f : A -> Run B) (a : A) :
  outcome m = Ok a -> trace (m ≫= f) = trace m ++ trace (f a).
Proof. intros H. unfold mbind, Run_bind. by rewrite H. Qed.

Lemma trace_bind_Raise {A B} (m : Run A) (f : A -> Run B) (e : Exn) :
  outcome m = Raise e -> trace (m ≫= f) = trace m.
Proof. intros H. unfold mbind, Run_bind. by rewrite H. Qed.

Lemma run_bind_lift_Ok {A B} (a : A) (f : A -> Run B) : lift (Ok a) ≫= f = f a.
Proof. unfold mbind, Run_bind, lift. simpl. by destruct (f a). Qed.

Lemma run_bind_Raise {A B} (m : Run A) (f : A -> Run B) (e : Exn) :
  outcome m = Raise e -> m ≫= f = mkRun (trace m) (Raise e).
Proof. intros H. unfold mbind, Run_bind. by rewrite H. Qed.

(** What holds of every event of [m] and of every continuation holds of
    every event of the sequence. *)
Lemma trace_bind_Forall {A B} (P : Event -> Prop) (m : Run A) (f : A -> Run B) :
  Forall P (trace m) ->
  (forall a, outcome m = Ok a -> Forall P (trace (f a))) ->
  Forall P (trace (m ≫= f)).
Proof.
  intros Hm Hf. destruct (outcome m) as [a|e] eqn:E.
  - rewrite (trace_bind_Ok _ _ a E). apply Forall_app. split; [done | by apply Hf].
  - by rewrite (trace_bind_Raise _ _ e E).
Qed.

Lemma for_each_app {A S} (body : S -> A -> Result S) (st : S) (l1 l2 : list A) :
  for_each body st (l1 ++ l2) = for_each body st l1 ≫= (fun st' => for_each body st' l2).
Proof.
  revert st. induction l1 as [|x l1 IH]; intros st; simpl; [done|].
  destruct (body st x) as [st'|e]; simpl; [apply IH | done].
Qed.

(** A loop raises when the body raises at one of the elements, whatever the
    state it is reached in. *)
Lemma for_each_raises {A S} (body : S -> A -> Result S) (l : list A) (x : A) :
  x ∈ l -> (forall st, raises (body st x)) -> forall st, raises (for_each body st l).
Proof.
  intros Hx Hbody. induction l as [|y l IH]; intros st.
  - by apply elem_of_nil in Hx.
  - simpl. apply elem_of_cons in Hx as [<- | Hx].
    + destruct (Hbody st) as [e ->]. apply raises_Raise.
    + apply raises_bind. intros st' _. by apply IH.
Qed.

Lemma for_each_run_raises {A S} (body : S -> A -> Run S) (l : list A) (x : A) :
  x ∈ l -> (forall st, raises (outcome (body st x))) ->
  forall st, raises (outcome (for_each_run body st l)).
Proof.
  intros Hx Hbody. induction l as [|y l IH]; intros st.
  - by apply elem_of_nil in Hx.
  - simpl. rewrite outcome_bind. apply elem_of_cons in Hx as [<- | Hx].
    + destruct (Hbody st) as [e ->]. apply raises_Raise.
    + apply raises_bind. intros st' _. by apply IH.
Qed.

Lemma for_each_run_trace_Forall {A S} (P : Event -> Prop) (body : S -> A -> Run S)
    (l : list A) :
  (forall st x, x ∈ l -> Forall P (trace (body st x))) ->
  forall st, Forall P (trace (for_each_run body st l)).
Proof.
  induction l as [|y l IH]; intros Hbody st; simpl.
  - constructor.
  - apply trace_bind_Forall.
    + apply Hbody. by left.
    + intros st' _. apply IH. intros st'' x Hx. apply Hbody. by right.
Qed.

Lemma item_Some (line : list string) (i : nat) (x : string) :
  line !! i = Some x -> item line i = Ok x.
Proof. unfold item. by intros ->. Qed.

Lemma item_lt (line : list string) (i : nat) :
  (i < length line)%nat -> exists x, line !! i = Some x /\ item line i = Ok x.
Proof.
  intros H. destruct (lookup_lt_is_Some_2 line i H) as [x Hx].
  exists x. split; [done | by apply item_Some].
Qed.

(** ** The rates file *)

Section Rates.
Context {L : PyLib}.

Lemma currency_row_short (d : gmap string (string * float)) (line : list string) :
  (length line <= 10)%nat -> currency_row d line = Ok d.
Proof.
  intros H. unfold currency_row.
  destruct (10 <? Z.of_nat (length line)) eqn:E; [|done].
  apply Z.ltb_lt in E. lia.
Qed.

Lemma currency_row_long (d : gmap string (string * float)) (line : list string) :
  (10 < length line)%nat ->
  exists c0 c3 c4 c8,
    line !! 0%nat = Some c0 /\ line !! 3%nat = Some c3 /\
    line !! 4%nat = Some c4 /\ line !! 8%nat = Some c8 /\
    currency_row d line =
      (a ← or_raise ValueError (py_float (replace_commas c4));
       b ← or_raise ValueError (py_float (replace_commas c3));
       if PrimFloat.eqb b 0%float then Raise ZeroDivisionError
       else Ok (<[c0 := (c8, (1 - PrimFloat.abs (a / b))%float)]> d)).
Proof.
  intros H. unfold currency_row.
  destruct (10 <? Z.of_nat (length line)) eqn:E; [|apply Z.ltb_ge in E; lia].
  destruct (item_lt line 0) as (c0 & H0 & ->); [lia|].
  destruct (item_lt line 8) as (c8 & H8 & ->); [lia|].
  destruct (item_lt line 4) as (c4 & H4 & ->); [lia|].
  destruct (item_lt line 3) as (c3 & H3 & ->); [lia|].
  exists c0, c3, c4, c8. simpl. repeat split; done.
Qed.

Lemma currency_row_raises (d : gmap string (string * float)) (line : list string) :
  raises (currency_row d line) ->
  currency_row d line = Raise ValueError \/ currency_row d line = Raise ZeroDivisionError.
Proof.
  destruct (decide (10 < length line)%nat) as [Hlen|Hlen].
  - destruct (currency_row_long d line Hlen) as (c0 & c3 & c4 & c8 & _ & _ & _ & _ & ->).
    destruct (py_float (replace_commas c4)) as [a|]; simpl; [|by left].
    destruct (py_float (replace_commas c3)) as [b|]; simpl; [|by left].
    destruct (PrimFloat.eqb b 0); [by right|]. by intros [e ?].
  - rewrite currency_row_short by lia. by intros [e ?].
Qed.

Lemma currency_row_bad (d : gmap string (string * float)) (line : list string)
    (c3 c4 : string) :
  (10 < length line)%nat ->
  line !! 3%nat = Some c3 -> line !! 4%nat = Some c4 ->
  py_float (replace_commas c4) = None \/
  py_float (replace_commas c3) = None \/
  (exists b, py_float (replace_commas c3) = Some b /\ PrimFloat.eqb b 0 = true) ->
  raises (currency_row d line).
Proof.
  intros Hlen H3 H4 Hbad.
  destruct (currency_row_long d line Hlen) as (c0 & c3' & c4' & c8 & _ & H3' & H4' & _ & ->).
  rewrite H3 in H3'. rewrite H4 in H4'. injection H3' as <-. injection H4' as <-.
  destruct Hbad as [Ha | [Hb | (b & Hb & Hz)]].
  - rewrite Ha. apply raises_Raise.
  - rewrite Hb. destruct (py_float (replace_commas c4)); apply raises_Raise.
  - rewrite Hb. destruct (py_float (replace_commas c4)); simpl; [|apply raises_Raise].
    rewrite Hz. apply raises_Raise.
Qed.

(** C4, as the code has it: a row of at most 10 columns leaves the table as
    it is; a row of more than 10 columns whose columns 4 and 3 (commas
    removed) are floats [a] and [b], [b] not zero, maps column 0 to column 8
    and the factor [1 - |a / b|]; a longer row whose column 3 or 4 is no
    number, or whose column 3 is zero, raises and adds no entry. *)
Theorem C4_currency_row (d : gmap string (string * float)) (line : list string) :
  ((length line <= 10)%nat -> currency_row d line = Ok d) /\
  ((10 < length line)%nat ->
   exists c0 c3 c4 c8,
     line !! 0%nat = Some c0 /\ line !! 3%nat = Some c3 /\
     line !! 4%nat = Some c4 /\ line !! 8%nat = Some c8 /\
     (forall a b,
        py_float (replace_commas c4) = Some a ->
        py_float (replace_commas c3) = Some b ->
        PrimFloat.eqb b 0 = false ->
        currency_row d line = Ok (<[c0 := (c8, (1 - PrimFloat.abs (a / b))%float)]> d)) /\
     (py_float (replace_commas c4) = None \/
      py_float (replace_commas c3) = None \/
      (exists b, py_float (replace_commas c3) = Some b /\ PrimFloat.eqb b 0 = true) ->
      raises (currency_row d line))).
Proof.
  split; [apply currency_row_short|].
  intros Hlen.
  destruct (currency_row_long d line Hlen) as (c0 & c3 & c4 & c8 & H0 & H3 & H4 & H8 & E).
  rewrite E.
  exists c0, c3, c4, c8. repeat split; try done.
  - intros a b -> -> Hb. simpl. by rewrite Hb.
  - intros Hbad. rewrite <- E. by apply (currency_row_bad d line c3 c4).
Qed.

(** C10: a row of the rates file with more than 10 columns whose column 3 is
    zero or is no number makes [parse_currency_data] raise ZeroDivisionError
    or ValueError: the row is not skipped and no table is returned. *)
Theorem C10_division_unguarded (fs : FileSystem) (filename : string)
    (before after : list (list string)) (line : list string) (c3 : string) :
  fs_open fs filename = Some (before ++ line :: after) ->
  (10 < length line)%nat ->
  line !! 3%nat = Some c3 ->
  match py_float (replace_commas c3) with
  | Some b => PrimFloat.eqb b 0 = true
  | None => True
  end ->
  (forall d, currency_row d line = Raise ValueError \/
             currency_row d line = Raise ZeroDivisionError) /\
  (outcome (parse_currency_data fs filename) = Raise ValueError \/
   outcome (parse_currency_data fs filename) = Raise ZeroDivisionError).
Proof.
  intros Hopen Hlen H3 Hbad.
  assert (Hrow : forall d, raises (currency_row d line)).
  { intros d. destruct (lookup_lt_is_Some_2 line 4) as [c4 H4]; [lia|].
    apply (currency_row_bad d line c3 c4); try done. right.
    destruct (py_float (replace_commas c3)) as [b|]; [right; by exists b | by left]. }
  split.
  - intros d. by apply currency_row_raises.
  - unfold parse_currency_data. rewrite outcome_bind. simpl. rewrite Hopen. simpl.
    assert (Hall : forall (l : list (list string)) d,
               raises (for_each currency_row d l) ->
               for_each currency_row d l = Raise ValueError \/
               for_each currency_row d l = Raise ZeroDivisionError).
    { induction l as [|x l IH]; intros d; simpl; [by intros [e ?]|].
      destruct (currency_row d x) as [d'|e] eqn:E; simpl.
      - apply IH.
      - intros _. rewrite <- E. apply currency_row_raises. rewrite E. apply raises_Raise. }
    apply Hall. apply for_each_raises with (x := line); [|done].
    apply elem_of_app. right. by left.
Qed.

End Rates.

(** ** The program *)

Section Program.
Context {L : PyLib}.

(** C7: when the rates file cannot be opened, the run opens nothing else,
    prints the guidance and nothing else, and exits with status 1, whatever
    the directory holds. *)
Theorem C7_rates_file_missing (fs : FileSystem) (argv : list string) (workingdir : string) :
  argv !! 1%nat = Some workingdir ->
  fs_open fs (path_in workingdir currency_data_filename) = None ->
  main fs argv =
    mkRun [EvOpen (path_in workingdir currency_data_filename);
           EvPrint (OutRatesMissing (path_in workingdir currency_data_filename))]
          (Raise (SystemExit 1)) /\
  exit_status (main fs argv) = 1.
Proof.
  intros Hargv Hopen.
  assert (Hmain : main fs argv =
    mkRun [EvOpen (path_in workingdir currency_data_filename);
           EvPrint (OutRatesMissing (path_in workingdir currency_data_filename))]
          (Raise (SystemExit 1))).
  { unfold main.
    pose proof (lookup_lt_Some _ _ _ Hargv) as Hlen.
    destruct (Z.of_nat (length argv) <? 2) eqn:E; [apply Z.ltb_lt in E; lia|].
    rewrite (item_Some _ _ _ Hargv), run_bind_lift_Ok.
    assert (Hrates : parse_currency_data fs (path_in workingdir currency_data_filename) =
      mkRun [EvOpen (path_in workingdir currency_data_filename);
             EvPrint (OutRatesMissing (path_in workingdir currency_data_filename))]
            (Raise (SystemExit 1))).
    { unfold parse_currency_data. by rewrite Hopen. }
    rewrite (run_bind_Raise _ _ (SystemExit 1)); by rewrite Hrates. }
  split; [done|]. by rewrite Hmain.
Qed.

End Program.

(** ** The reports *)

Section Reports.
Context {L : PyLib}.

Lemma report_row_empty (filename : string) (st : Sales) :
  report_row filename st [] = Raise IndexError.
Proof. reflexivity. Qed.

Lemma report_row_skip (filename : string) (st : Sales) (line : list string) :
  line <> [] -> data_row line = false -> report_row filename st line = Ok st.
Proof.
  destruct line as [|c0 line]; [done|]. intros _ H. simpl in H.
  unfold report_row. simpl. by rewrite H.
Qed.

(** The amount the ledger holds for a country and product, [Decimal(0)] when
    it has none. *)
Lemma entry_default (ledger : gmap string (gmap string (Z * Decimal)))
    (countrycode product : string) :
  default (0, Decimal_0) (default ∅ (ledger !! countrycode) !! product)
  = default (0, Decimal_0) (entry ledger countrycode product).
Proof. unfold entry. by destruct (ledger !! countrycode). Qed.

(** A data row that is read records its sale: the amount is added to that
    of its country and product, and the addition returns. *)
Lemma report_row_data (filename : string) (st st' : Sales) (line : list string) :
  data_row line = true ->
  report_row filename st line = Ok st' ->
  exists s dr total,
    read_sale line = Some s /\
    dec_add (default (0, Decimal_0)
               (entry (countries st) (sale_country s) (sale_product s))).2
      (sale_amount s) = Ok total /\
    st' = record_sale filename st dr s total.
Proof.
  destruct line as [|c0 line]; [done|]. intros H. simpl in H.
  unfold report_row, read_sale, item. simpl. rewrite H. simpl.
  match goal with |- (?m ≫= _) = _ -> _ => destruct m as [dr|e]; [|done] end.
  simpl.
  destruct (line !! 4%nat) as [c5|]; [|done]. simpl.
  destruct (py_int c5) as [quantity|]; [|done]. simpl.
  destruct (line !! 6%nat) as [c7|]; [|done]. simpl.
  destruct (py_Decimal c7) as [amount|]; [|done]. simpl.
  destruct (line !! 7%nat) as [currency|]; [|done]. simpl.
  destruct (line !! 11%nat) as [product|]; [|done]. simpl.
  destruct (line !! 16%nat) as [countrycode|]; [|done]. simpl.
  rewrite entry_default.
  destruct (dec_add _ amount) as [total|e] eqn:Htotal; [|done]. simpl.
  intros [= <-].
  exists (mkSale quantity amount currency product countrycode), dr, total.
  repeat split; try done. unfold record_sale. simpl. by rewrite entry_default.
Qed.



Lemma for_each_fmap {A B S} (body : S -> B -> Result S) (g : A -> B) (st : S) (l : list A) :
  for_each body st (g <$> l) = for_each (fun st x => body st (g x)) st l.
Proof.
  revert st. induction l as [|x l IH]; intros st; simpl; [done|].
  destruct (body st (g x)); simpl; [apply IH | done].
Qed.

Lemma report_file_skipped (fs : FileSystem) (workingdir : string) (st : Sales)
    (filename : string) :
  skipped filename = true -> report_file fs workingdir st filename = mret st.
Proof. unfold report_file. by intros ->. Qed.

Lemma report_file_outcome (fs : FileSystem) (workingdir : string) (st : Sales)
    (filename : string) :
  skipped filename = false ->
  outcome (report_file fs workingdir st filename) =
    rows ← or_raise IOError (fs_open fs (path_in workingdir filename));
    for_each (report_row filename) st rows.
Proof.
  unfold report_file, open_csv. intros ->.
  rewrite !outcome_bind. simpl. by destruct (fs_open fs (path_in workingdir filename)).
Qed.

Lemma parse_financial_reports_outcome (fs : FileSystem) (workingdir : string)
    (filenames : list string) :
  fs_listdir fs workingdir = Some filenames ->
  outcome (parse_financial_reports fs workingdir) =
    outcome (for_each_run (report_file fs workingdir) (mkSales ∅ ∅ None) filenames).
Proof.
  intros H. unfold parse_financial_reports, listdir.
  rewrite !outcome_bind. simpl. by rewrite H.
Qed.

(** A run that returns has read every row of every report, in order. *)
Lemma for_each_run_report_rows (fs : FileSystem) (workingdir : string)
    (filenames : list string) (st st' : Sales) :
  outcome (for_each_run (report_file fs workingdir) st filenames) = Ok st' ->
  for_each (fun st row => report_row row.1 st row.2) st
    (report_rows fs workingdir filenames) = Ok st'.
Proof.
  revert st. induction filenames as [|filename filenames IH]; intros st; simpl; [done|].
  rewrite outcome_bind. unfold report_rows. simpl. fold (report_rows fs workingdir filenames).
  rewrite for_each_app.
  destruct (skipped filename) eqn:Hs.
  - rewrite report_file_skipped by done. simpl. apply IH.
  - rewrite report_file_outcome by done.
    destruct (fs_open fs (path_in workingdir filename)) as [rows|]; simpl; [|done].
    rewrite for_each_fmap. simpl.
    change (for_each (fun st x => report_row filename st x) st rows)
      with (for_each (report_row filename) st rows).
    destruct (for_each (report_row filename) st rows) as [st1|e]; simpl; [apply IH | done].
Qed.

Lemma report_rows_elem (fs : FileSystem) (workingdir : string) (filenames : list string)
    (filename : string) (line : list string) :
  (filename, line) ∈ report_rows fs workingdir filenames <->
  filename ∈ filenames /\ skipped filename = false /\
  exists rows, fs_open fs (path_in workingdir filename) = Some rows /\ line ∈ rows.
Proof.
  unfold report_rows. rewrite list_elem_of_bind. split.
  - intros (f & Hin & Hf). destruct (skipped f) eqn:Hs; [by apply elem_of_nil in Hin|].
    apply list_elem_of_fmap in Hin as (l & [= <- <-] & Hl).
    destruct (fs_open fs (path_in workingdir filename)) as [rows|];
      [|by apply elem_of_nil in Hl].
    repeat split; try done. by exists rows.
  - intros (Hf & Hs & rows & Hopen & Hl). exists filename. split; [|done].
    rewrite Hs, Hopen. simpl. apply list_elem_of_fmap. by exists line.
Qed.

Lemma report_file_opened (fs : FileSystem) (workingdir : string) (st st' : Sales)
    (filename : string) :
  outcome (report_file fs workingdir st filename) = Ok st' ->
  omap opened (trace (report_file fs workingdir st filename))
  = if skipped filename then [] else [path_in workingdir filename].
Proof.
  unfold report_file, open_csv. destruct (skipped filename); [done|].
  destruct (fs_open fs (path_in workingdir filename)) as [rows|] eqn:Hopen.
  - intros _. reflexivity.
  - rewrite !outcome_bind. simpl. done.
Qed.

(** A run that returns has opened the files of the directory whose names
    end in "txt", the rates file apart, in the order of the listing. *)
Lemma for_each_run_opened (fs : FileSystem) (workingdir : string)
    (filenames : list string) (st st' : Sales) :
  outcome (for_each_run (report_file fs workingdir) st filenames) = Ok st' ->
  omap opened (trace (for_each_run (report_file fs workingdir) st filenames))
  = path_in workingdir <$> filter (fun filename => skipped filename = false) filenames.
Proof.
  revert st. induction filenames as [|filename filenames IH]; intros st Hrun; [done|].
  simpl in *. rewrite outcome_bind in Hrun.
  destruct (outcome (report_file fs workingdir st filename)) as [st1|e] eqn:Hfile; [|done].
  simpl in Hrun. rewrite (trace_bind_Ok _ _ st1 Hfile), omap_app, (IH _ Hrun).
  rewrite (report_file_opened _ _ _ _ _ Hfile), filter_cons.
  destruct (skipped filename).
  - by rewrite decide_False.
  - by rewrite decide_True.
Qed.

Lemma parse_financial_reports_opened (fs : FileSystem) (workingdir : string)
    (filenames : list string) (st : Sales) :
  fs_listdir fs workingdir = Some filenames ->
  outcome (parse_financial_reports fs workingdir) = Ok st ->
  omap opened (trace (parse_financial_reports fs workingdir))
  = path_in workingdir <$> filter (fun filename => skipped filename = false) filenames.
Proof.
  intros Hdir Hrun.
  rewrite (parse_financial_reports_outcome _ _ _ Hdir) in Hrun.
  unfold parse_financial_reports, listdir.
  rewrite (trace_bind_Ok _ _ filenames).
  - rewrite omap_app. simpl. by apply (for_each_run_opened _ _ _ _ st).
  - rewrite outcome_bind. simpl. by rewrite Hdir.
Qed.

End Reports.

(** ** Decimal sums *)

Lemma pow10_pos (a : Z) : 0 <= a -> 0 < 10 ^ a.
Proof. intros H. by apply Z.pow_pos_nonneg. Qed.

Lemma pow10_split (a b c : Z) :
  c <= b -> b <= a -> 10 ^ (a - b) * 10 ^ (b - c) = 10 ^ (a - c).
Proof.
  intros H1 H2. rewrite <- Z.pow_add_r by lia. f_equal. lia.
Qed.



Lemma ndigits_fuel_le (fuel : nat) (n k : Z) :
  0 <= k -> n < 10 ^ k -> ndigits_fuel fuel n <= k.
Proof.
  revert n k. induction fuel as [|fuel IH]; intros n k Hk Hn; simpl; [done|].
  destruct (Z.leb_spec n 0) as [|Hpos]; [done|].
  assert (0 < k) by (destruct (decide (k = 0)) as [->|]; [simpl in Hn|]; lia).
  assert (ndigits_fuel fuel (n / 10) <= k - 1); [|lia].
  apply IH; [lia|]. apply Z.div_lt_upper_bound; [lia|].
  rewrite <- Z.pow_succ_r by lia. by replace (Z.succ (k - 1)) with k by lia.
Qed.

(** A number below [10 ^ k] has at most [k] digits. *)
Lemma ndigits_le (n k : Z) : 0 <= k -> n < 10 ^ k -> ndigits n <= k.
Proof. apply ndigits_fuel_le. Qed.

Lemma ndigits_fuel_nonneg (fuel : nat) (n : Z) : 0 <= ndigits_fuel fuel n.
Proof.
  revert n. induction fuel as [|fuel IH]; intros n; simpl; [done|].
  destruct (n <=? 0); [done|]. specialize (IH (n / 10)). lia.
Qed.

Lemma ndigits_nonneg (n : Z) : 0 <= ndigits n.
Proof. apply ndigits_fuel_nonneg. Qed.

Lemma ndigits_fuel_lt (fuel : nat) (n : Z) :
  0 <= n < 2 ^ Z.of_nat fuel -> n < 10 ^ ndigits_fuel fuel n.
Proof.
  revert n. induction fuel as [|fuel IH]; intros n Hn.
  - simpl in *. lia.
  - simpl ndigits_fuel. destruct (Z.leb_spec n 0) as [|Hpos]; [simpl; lia|].
    rewrite Nat2Z.inj_succ, Z.pow_succ_r in Hn by lia.
    assert (H : n / 10 < 10 ^ ndigits_fuel fuel (n / 10)).
    { apply IH. split; [apply Z.div_pos; lia|].
      apply Z.div_lt_upper_bound; lia. }
    pose proof (ndigits_fuel_nonneg fuel (n / 10)).
    replace (1 + ndigits_fuel fuel (n / 10)) with (Z.succ (ndigits_fuel fuel (n / 10)))
      by lia.
    rewrite Z.pow_succ_r by done.
    pose proof (Z.div_mod n 10 ltac:(lia)). pose proof (Z.mod_pos_bound n 10 ltac:(lia)).
    lia.
Qed.

(** A number is below the power of ten of the number of its digits. *)
Lemma ndigits_lt (n : Z) : 0 <= n -> n < 10 ^ ndigits n.
Proof.
  intros Hn. apply ndigits_fuel_lt. split; [done|].
  destruct (decide (n = 0)) as [->|]; [done|].
  rewrite Nat2Z.inj_succ, Z2Nat.id by apply Z.log2_nonneg.
  apply Z.log2_spec. lia.
Qed.








Lemma abs_total_at_nonneg (e : Z) (l : list Decimal) : 0 <= abs_total_at e l.
Proof.
  unfold abs_total_at. induction l as [|x l IH]; simpl; [done|].
  pose proof (Z.pow_nonneg 10 (exp x - e)). nia.
Qed.












(** ** The sizes of sums and products

    Numbers whose digits stand between [10 ^ lo] and [10 ^ hi], well inside
    the exponents of the context, have sums and products that do not raise,
    and whose digits stand hardly higher. *)

Lemma in_range_weaken (lo lo' hi hi' : Z) (d : Decimal) :
  lo' <= lo -> hi <= hi' -> in_range lo hi d -> in_range lo' hi' d.
Proof. unfold in_range. intros ?? (? & ? & ?). repeat split; [done|lia..]. Qed.

Lemma in_range_Decimal_0 (lo hi : Z) : lo <= 0 -> 0 <= hi -> in_range lo hi Decimal_0.
Proof. intros ??. unfold in_range. by repeat split. Qed.

Lemma round_half_even_bound (n k p : Z) :
  0 <= n -> 0 <= k -> 0 <= p -> n < 10 ^ (k + p) ->
  0 <= round_half_even n k <= 10 ^ p.
Proof.
  intros Hn Hk Hp Hlt. unfold round_half_even.
  pose proof (pow10_pos k Hk) as Hpk.
  assert (0 <= n / 10 ^ k) by (apply Z.div_pos; lia).
  assert (n / 10 ^ k < 10 ^ p).
  { apply Z.div_lt_upper_bound; [done|]. by rewrite <- Z.pow_add_r. }
  destruct (_ || _); lia.
Qed.

Lemma abs_sgn_mul (c x : Z) : c <> 0 -> 0 <= x -> Z.abs (Z.sgn c * x) = x.
Proof. intros Hc Hx. destruct c; simpl; lia. Qed.

(** Rounding a number in a range raises nothing and lifts its digits by at
    most one place. *)
Lemma dec_fix_in_range (lo hi : Z) (d : Decimal) :
  Etiny <= lo -> hi <= Emax -> in_range lo hi d ->
  exists d', dec_fix d = Ok d' /\ in_range lo (hi + 1) d'.
Proof.
  intros Hlo Hhi (Hnum & He & Hd). destruct d as [c e| | |]; try done.
  simpl in He, Hd. unfold dec_fix.
  pose proof (ndigits_nonneg (Z.abs c)) as Hnd0.
  destruct (Z.eqb_spec c 0) as [->|Hc].
  - exists (mkDecimal 0 e). split.
    + do 2 f_equal. lia.
    + unfold in_range. simpl. repeat split; [done|]. change (ndigits 0) with 0. lia.
  - cbv zeta. set (nd := ndigits (Z.abs c)) in *.
    destruct (Z.ltb_spec Etop (nd + e - prec)) as [|_]; [unfold Etop in *; lia|].
    destruct (Z.ltb_spec e (Z.max (nd + e - prec) Etiny)) as [Hcut|_].
    + replace (Z.max (nd + e - prec) Etiny) with (nd + e - prec) in * by lia.
      replace (nd + e - (nd + e - prec)) with prec by lia.
      change (prec <? 0) with false. cbv iota.
      replace (nd + e - prec - e) with (nd - prec) by lia.
      destruct (round_half_even_bound (Z.abs c) (nd - prec) prec) as [Hr0 Hr];
        [lia | lia | done | |].
      { replace (nd - prec + prec) with nd by lia. apply ndigits_lt. lia. }
      set (coeff := round_half_even (Z.abs c) (nd - prec)) in *.
      destruct (Z.leb_spec (10 ^ prec) coeff) as [Hup|Hup].
      * destruct (Z.ltb_spec Etop (nd + e - prec + 1)) as [|_]; [unfold Etop in *; lia|].
        eexists. split; [done|]. unfold in_range. simpl. repeat split; [lia|].
        assert (0 <= coeff / 10) by (apply Z.div_pos; lia).
        assert (coeff / 10 < 10 ^ prec).
        { apply Z.div_lt_upper_bound; [lia|]. change (10 ^ prec) with (10 ^ 28) in *. lia. }
        rewrite abs_sgn_mul by done.
        pose proof (ndigits_le (coeff / 10) prec ltac:(done) ltac:(done)). lia.
      * destruct (Z.ltb_spec Etop (nd + e - prec)) as [|_]; [unfold Etop in *; lia|].
        eexists. split; [done|]. unfold in_range. simpl. repeat split; [lia|].
        rewrite abs_sgn_mul by done.
        pose proof (ndigits_le coeff prec ltac:(done) Hup). lia.
    + exists (mkDecimal c e). split; [done|]. unfold in_range. simpl.
      repeat split; [done|]. fold nd. lia.
Qed.

Lemma abs_below_pow (c e hi : Z) :
  ndigits (Z.abs c) + e <= hi -> Z.abs c < 10 ^ (hi - e).
Proof.
  intros H. pose proof (ndigits_nonneg (Z.abs c)).
  apply Z.lt_le_trans with (10 ^ ndigits (Z.abs c)); [apply ndigits_lt; lia|].
  apply Z.pow_le_mono_r; lia.
Qed.

(** The sum of two numbers in a range raises nothing and lifts the digits
    by at most two places. *)
Lemma dec_add_in_range (lo hi : Z) (x y : Decimal) :
  Etiny <= lo -> hi + 1 <= Emax -> in_range lo hi x -> in_range lo hi y ->
  exists z, dec_add x y = Ok z /\ in_range lo (hi + 2) z.
Proof.
  intros Hlo Hhi (Hx & Hxe & Hxd) (Hy & Hye & Hyd).
  destruct x as [cx ex| | |]; try done. destruct y as [cy ey| | |]; try done.
  simpl in *. unfold dec_add.
  destruct (dec_fix_in_range lo (hi + 1) (dec_add_exact (mkDecimal cx ex) (mkDecimal cy ey)))
    as (z & Hz & Hrange); [done | lia | |].
  - unfold in_range, dec_add_exact. simpl. set (e := Z.min ex ey).
    repeat split; [lia|].
    pose proof (abs_below_pow cx ex hi Hxd) as Hcx.
    pose proof (abs_below_pow cy ey hi Hyd) as Hcy.
    pose proof (ndigits_nonneg (Z.abs cx)). pose proof (ndigits_nonneg (Z.abs cy)).
    assert (Z.abs (cx * 10 ^ (ex - e)) < 10 ^ (hi - e)).
    { rewrite Z.abs_mul, (Z.abs_eq (10 ^ (ex - e))) by (apply Z.pow_nonneg; lia).
      rewrite <- (pow10_split hi ex e) by lia.
      apply Z.mul_lt_mono_pos_r; [apply pow10_pos; lia | done]. }
    assert (Z.abs (cy * 10 ^ (ey - e)) < 10 ^ (hi - e)).
    { rewrite Z.abs_mul, (Z.abs_eq (10 ^ (ey - e))) by (apply Z.pow_nonneg; lia).
      rewrite <- (pow10_split hi ey e) by lia.
      apply Z.mul_lt_mono_pos_r; [apply pow10_pos; lia | done]. }
    assert (ndigits (Z.abs (cx * 10 ^ (ex - e) + cy * 10 ^ (ey - e))) <= hi - e + 1);
      [|lia].
    apply ndigits_le; [lia|]. rewrite Z.pow_add_r, Z.pow_1_r by lia. lia.
  - exists z. split; [done|]. by replace (hi + 2) with (hi + 1 + 1) by lia.
Qed.

(** The product of two numbers in ranges raises nothing and has its digits
    at most one place above the sum of the ranges. *)
Lemma dec_mul_in_range (lo1 hi1 lo2 hi2 : Z) (x y : Decimal) :
  Etiny <= lo1 + lo2 -> hi1 + hi2 <= Emax ->
  in_range lo1 hi1 x -> in_range lo2 hi2 y ->
  exists z, dec_mul x y = Ok z /\ in_range (lo1 + lo2) (hi1 + hi2 + 1) z.
Proof.
  intros Hlo Hhi (Hx & Hxe & Hxd) (Hy & Hye & Hyd).
  destruct x as [cx ex| | |]; try done. destruct y as [cy ey| | |]; try done.
  simpl in *.
  apply (dec_fix_in_range (lo1 + lo2) (hi1 + hi2) (mkDecimal (cx * cy) (ex + ey)));
    [done..|].
  unfold in_range. simpl. repeat split; [lia|].
  pose proof (ndigits_nonneg (Z.abs cx)). pose proof (ndigits_nonneg (Z.abs cy)).
  assert (ndigits (Z.abs (cx * cy)) <= ndigits (Z.abs cx) + ndigits (Z.abs cy)); [|lia].
  apply ndigits_le; [lia|]. rewrite Z.abs_mul, Z.pow_add_r by done.
  pose proof (ndigits_lt (Z.abs cx) ltac:(lia)).
  pose proof (ndigits_lt (Z.abs cy) ltac:(lia)).
  apply Z.mul_lt_mono_nonneg; lia.
Qed.

(** ** The ledger *)

Lemma sum_snoc (l : list Z) (q : Z) : foldr Z.add 0 (l ++ [q]) = foldr Z.add 0 l + q.
Proof. induction l as [|x l IH]; simpl; lia. Qed.

Lemma tally_default (countrycode product : string) (sales : list Sale) :
  default (0, Decimal_0) (tally countrycode product sales) =
    (foldr Z.add 0 (sale_quantity <$> filter (sold countrycode product) sales),
     dec_sum (sale_amount <$> filter (sold countrycode product) sales)).
Proof. unfold tally. by destruct (filter (sold countrycode product) sales). Qed.

Lemma tally_snoc_sold (countrycode product : string) (sales : list Sale) (s : Sale) :
  sold countrycode product s ->
  tally countrycode product (sales ++ [s]) =
    Some (foldr Z.add 0 (sale_quantity <$> filter (sold countrycode product) sales)
            + sale_quantity s,
          dec_sum ((sale_amount <$> filter (sold countrycode product) sales)
                     ++ [sale_amount s])).
Proof.
  intros Hs. unfold tally. rewrite filter_app, (filter_cons_True _ _ _ Hs), filter_nil.
  destruct (filter (sold countrycode product) sales ++ [s]) as [|x l] eqn:E.
  - by destruct (filter (sold countrycode product) sales).
  - rewrite <- E, !fmap_app. simpl. by rewrite sum_snoc.
Qed.

Lemma tally_snoc_other (countrycode product : string) (sales : list Sale) (s : Sale) :
  ~ sold countrycode product s ->
  tally countrycode product (sales ++ [s]) = tally countrycode product sales.
Proof.
  intros Hs. unfold tally.
  by rewrite filter_app, (filter_cons_False _ _ _ Hs), filter_nil, app_nil_r.
Qed.


Lemma entry_record_sale (filename : string) (st : Sales) (dr : option string) (s : Sale)
    (total : Decimal) (countrycode product : string) :
  entry (countries (record_sale filename st dr s total)) countrycode product =
    if decide (sold countrycode product s)
    then Some ((default (0, Decimal_0) (entry (countries st) countrycode product)).1
                 + sale_quantity s,
               total)
    else entry (countries st) countrycode product.
Proof.
  unfold entry, record_sale, sold. simpl.
  destruct (decide (sale_country s = countrycode)) as [<-|Hc].
  - rewrite lookup_insert_eq. simpl.
    destruct (decide (sale_product s = product)) as [<-|Hp].
    + rewrite lookup_insert_eq. rewrite decide_True by done.
      by destruct (countries st !! sale_country s).
    + rewrite lookup_insert_ne by done. rewrite decide_False by tauto.
      by destruct (countries st !! sale_country s).
  - rewrite lookup_insert_ne by done. rewrite decide_False by tauto. done.
Qed.

Section Ledger.
Context {L : PyLib}.

Lemma sales_of_snoc_data (done : list (string * list string)) (filename : string)
    (line : list string) (s : Sale) :
  data_row line = true -> read_sale line = Some s ->
  sales_of (done ++ [(filename, line)]) = sales_of done ++ [s].
Proof.
  intros Hd Hr. unfold sales_of. rewrite omap_app. simpl. by rewrite Hd, Hr.
Qed.

Lemma sales_of_snoc_skip (done : list (string * list string)) (filename : string)
    (line : list string) :
  data_row line = false ->
  sales_of (done ++ [(filename, line)]) = sales_of done.
Proof.
  intros Hd. unfold sales_of. rewrite omap_app. simpl. by rewrite Hd, app_nil_r.
Qed.

(** What holds before the rows are read, and is kept by every row that is
    skipped and by every sale that is recorded, holds of the state a run
    returns. *)
Lemma report_rows_invariant (Inv : list (string * list string) -> Sales -> Prop)
    (rows : list (string * list string)) :
  (forall done filename line rest st,
     rows = done ++ (filename, line) :: rest -> data_row line = false ->
     Inv done st -> Inv (done ++ [(filename, line)]) st) ->
  (forall done filename line rest st s dr total,
     rows = done ++ (filename, line) :: rest ->
     data_row line = true -> read_sale line = Some s ->
     dec_add (default (0, Decimal_0)
                (entry (countries st) (sale_country s) (sale_product s))).2
       (sale_amount s) = Ok total ->
     Inv done st -> Inv (done ++ [(filename, line)]) (record_sale filename st dr s total)) ->
  forall st st',
    Inv [] st ->
    for_each (fun st row => report_row row.1 st row.2) st rows = Ok st' ->
    Inv rows st'.
Proof.
  intros Hskip Hdata.
  assert (H : forall todo done st st',
             rows = done ++ todo -> Inv done st ->
             for_each (fun st row => report_row row.1 st row.2) st todo = Ok st' ->
             Inv rows st').
  { induction todo as [|[filename line] todo IH]; intros done st st' Hrows HInv Hrun.
    - simpl in Hrun. injection Hrun as <-. by rewrite Hrows, app_nil_r.
    - simpl in Hrun.
      destruct (report_row filename st line) as [st1|e] eqn:Hrow; [|done].
      simpl in Hrun.
      apply (IH (done ++ [(filename, line)]) st1); [by rewrite <- app_assoc| |done].
      destruct (data_row line) eqn:Hd.
      + destruct (report_row_data _ _ _ _ Hd Hrow) as (s & dr & total & Hr & Htotal & ->).
        by apply (Hdata done filename line todo).
      + destruct line as [|c0 line]; [done|].
        rewrite report_row_skip in Hrow by done. injection Hrow as <-.
        by apply (Hskip done filename (c0 :: line) todo). }
  intros st st' HInv Hrun. by apply (H rows [] st st').
Qed.


Lemma read_sale_country (line : list string) (s : Sale) :
  read_sale line = Some s -> line !! 17%nat = Some (sale_country s).
Proof.
  unfold read_sale. intros H.
  destruct (line !! 5%nat) as [c5|]; [|done]. simpl in H.
  destruct (py_int c5); [|done]. simpl in H.
  destruct (line !! 7%nat) as [c7|]; [|done]. simpl in H.
  destruct (py_Decimal c7); [|done]. simpl in H.
  destruct (line !! 8%nat); [|done]. simpl in H.
  destruct (line !! 12%nat); [|done]. simpl in H.
  destruct (line !! 17%nat); [|done]. simpl in H.
  by injection H as <-.
Qed.


(** Every country of the ledger has sold a product. *)
Lemma ledger_nonempty (rows : list (string * list string)) (st : Sales)
    (countrycode : string) (products : gmap string (Z * Decimal)) :
  for_each (fun st row => report_row row.1 st row.2) (mkSales ∅ ∅ None) rows = Ok st ->
  countries st !! countrycode = Some products -> products <> ∅.
Proof.
  intros Hrun. revert countrycode products.
  apply (report_rows_invariant
    (fun _ st => forall c pm, countries st !! c = Some pm -> pm <> ∅)
    rows) with (st := mkSales ∅ ∅ None); try done.
  intros done filename line rest st0 s dr total _ _ _ _ HInv c pm. unfold record_sale. simpl.
  destruct (decide (sale_country s = c)) as [<-|Hc].
  - rewrite lookup_insert_eq. intros [= <-]. apply insert_non_empty.
  - rewrite lookup_insert_ne by done. apply HInv.
Qed.


Lemma ledger_row_currency (rows : list (string * list string)) (st : Sales)
    (countrycode : string) :
  (forall filename line,
     (filename, line) ∈ rows -> data_row line = true ->
     line !! 17%nat = Some countrycode -> py_in "_WW." filename = true) ->
  for_each (fun st row => report_row row.1 st row.2) (mkSales ∅ ∅ None) rows = Ok st ->
  (exists filename line,
     (filename, line) ∈ rows /\ data_row line = true /\
     line !! 17%nat = Some countrycode) ->
  currencies st !! countrycode = Some "USD - RoW".
Proof.
  intros Hww Hrun.
  apply (report_rows_invariant
    (fun done st =>
       (exists filename line,
          (filename, line) ∈ done /\ data_row line = true /\
          line !! 17%nat = Some countrycode) ->
       currencies st !! countrycode = Some "USD - RoW")
    rows) with (st := mkSales ∅ ∅ None); try done.
  - intros done filename line rest st0 _ Hd HInv (f & l & Hin & Hdl & Hc).
    apply elem_of_app in Hin as [Hin|Hin].
    + apply HInv. by exists f, l.
    + apply list_elem_of_singleton in Hin. injection Hin as -> ->. congruence.
  - intros done filename line rest st0 s dr total Hrows Hd Hr _ HInv (f & l & Hin & Hdl & Hc).
    pose proof (read_sale_country _ _ Hr) as Hs.
    unfold record_sale. simpl.
    destruct (decide (sale_country s = countrycode)) as [Heq|Hne].
    + rewrite (Hww filename line).
      * rewrite Heq. apply lookup_insert_eq.
      * rewrite Hrows. apply elem_of_app. right. by left.
      * done.
      * by rewrite Hs, Heq.
    + assert (Hkeep : forall m : gmap string string,
                (if py_in "_WW." filename
                 then <[sale_country s := "USD - RoW"]> (<[sale_country s := sale_currency s]> m)
                 else <[sale_country s := sale_currency s]> m) !! countrycode
                = m !! countrycode).
      { intros m. destruct (py_in "_WW." filename); by rewrite !lookup_insert_ne. }
      rewrite Hkeep. apply HInv.
      apply elem_of_app in Hin as [Hin|Hin]; [by exists f, l|].
      apply list_elem_of_singleton in Hin. injection Hin as -> ->. congruence.
  - intros (f & l & Hin & _). by apply elem_of_nil in Hin.
Qed.

(** C5: a country whose data rows all stand in reports named with "_WW."
    has the currency "USD - RoW" in the currency map a run returns. *)
Theorem C5_rest_of_world_currency (fs : FileSystem) (workingdir : string)
    (filenames : list string) (st : Sales) (countrycode : string) :
  fs_listdir fs workingdir = Some filenames ->
  outcome (parse_financial_reports fs workingdir) = Ok st ->
  (exists filename line,
     (filename, line) ∈ report_rows fs workingdir filenames /\
     data_row line = true /\ line !! 17%nat = Some countrycode) ->
  (forall filename line,
     (filename, line) ∈ report_rows fs workingdir filenames ->
     data_row line = true -> line !! 17%nat = Some countrycode ->
     py_in "_WW." filename = true) ->
  currencies st !! countrycode = Some "USD - RoW".
Proof.
  intros Hdir Hrun Hsold Hww.
  rewrite (parse_financial_reports_outcome _ _ _ Hdir) in Hrun.
  apply for_each_run_report_rows in Hrun.
  by apply (ledger_row_currency (report_rows fs workingdir filenames)).
Qed.









End Ledger.

(** ** The printed report *)

Section Report.
Context {L : PyLib}.

Lemma raises_outcome_bind {A B} (m : Run A) (f : A -> Run B) :
  (forall a, outcome m = Ok a -> raises (outcome (f a))) -> raises (outcome (m ≫= f)).
Proof. intros H. rewrite outcome_bind. by apply raises_bind. Qed.

Lemma dict_keys_elem (s : gset string) (k : string) : k ∈ dict_keys s <-> k ∈ s.
Proof. by rewrite (dict_keys_perm s), elem_of_elements. Qed.

Lemma convert_local (currency_data : gmap string (string * float)) (amount : Decimal) :
  convert currency_data local_currency amount = Ok (RateDecimal Decimal_1_00000, amount).
Proof. reflexivity. Qed.

Lemma convert_missing (currency_data : gmap string (string * float))
    (country_currency : string) (amount : Decimal) :
  country_currency <> local_currency ->
  currency_data !! country_currency = None ->
  convert currency_data country_currency amount = Raise KeyError.
Proof.
  intros Hne Hcd. unfold convert.
  destruct (String.eqb country_currency local_currency) eqn:E.
  - by apply String.eqb_eq in E.
  - simpl. by rewrite Hcd.
Qed.

Lemma product_line_trace (currency_data : gmap string (string * float))
    (country_currency : string) (products_sold : gmap string (Z * Decimal))
    (corporation_sum : Decimal) (product : string) :
  Forall (converted_line currency_data)
    (trace (product_line currency_data country_currency products_sold
              corporation_sum product)).
Proof.
  unfold product_line.
  apply trace_bind_Forall; [constructor|]. intros [quantity amount] _.
  apply trace_bind_Forall; [constructor|]. intros [rate local] Hc. simpl in Hc.
  apply trace_bind_Forall; [constructor|]. intros _ _.
  apply trace_bind_Forall; [constructor|]. intros _ _.
  apply trace_bind_Forall; [|constructor].
  constructor; [|constructor]. done.
Qed.

Lemma country_block_trace (currency_data : gmap string (string * float))
    (currencies : gmap string string) (sold : gmap string (gmap string (Z * Decimal)))
    (corporation_sum : Decimal) (countrycode : string) :
  Forall (converted_line currency_data)
    (trace (country_block currency_data currencies sold corporation_sum countrycode)).
Proof.
  unfold country_block.
  apply trace_bind_Forall; [constructor|]. intros country_currency _.
  apply trace_bind_Forall; [constructor|]. intros products_sold _.
  apply trace_bind_Forall; [constructor|]. intros name _.
  apply trace_bind_Forall; [by repeat constructor|]. intros _ _.
  apply for_each_run_trace_Forall. intros. apply product_line_trace.
Qed.

Lemma corporation_block_trace (currency_data : gmap string (string * float))
    (currencies : gmap string string)
    (corporations : gmap string (gmap string (gmap string (Z * Decimal))))
    (u : unit) (corporation : string) :
  Forall (converted_line currency_data)
    (trace (corporation_block currency_data currencies corporations u corporation)).
Proof.
  unfold corporation_block.
  apply trace_bind_Forall; [constructor|]. intros address _.
  apply trace_bind_Forall; [by repeat constructor|]. intros _ _.
  apply trace_bind_Forall; [constructor|]. intros sold _.
  apply trace_bind_Forall.
  { apply for_each_run_trace_Forall. intros. apply country_block_trace. }
  intros corporation_sum _.
  apply trace_bind_Forall; [constructor | by repeat constructor].
Qed.

(** Every product line of the report shows what [convert] returned. *)
Lemma print_sales_by_corporation_trace (currency_data : gmap string (string * float))
    (sales : gmap string (gmap string (Z * Decimal))) (currencies : gmap string string) :
  Forall (converted_line currency_data)
    (trace (print_sales_by_corporation currency_data sales currencies)).
Proof.
  unfold print_sales_by_corporation.
  apply trace_bind_Forall; [constructor|]. intros corporations _.
  apply for_each_run_trace_Forall. intros. apply corporation_block_trace.
Qed.

(** Grouping keeps the products of every country it has reached. *)
Lemma group_country_present (sales : gmap string (gmap string (Z * Decimal)))
    (countrycode : string) (products : gmap string (Z * Decimal)) (l : list string)
    (corporations corporations' : gmap string (gmap string (gmap string (Z * Decimal)))) :
  sales !! countrycode = Some products ->
  for_each (group_country sales) corporations l = Ok corporations' ->
  countrycode ∈ l \/
  (exists corporation sold,
     corporations !! corporation = Some sold /\ sold !! countrycode = Some products) ->
  exists corporation sold,
    corporations' !! corporation = Some sold /\ sold !! countrycode = Some products.
Proof.
  intros Hsales. revert corporations.
  induction l as [|k l IH]; intros corporations Hrun Hin; simpl in Hrun.
  - injection Hrun as <-. destruct Hin as [Hin|Hin]; [by apply elem_of_nil in Hin | done].
  - destruct (group_country sales corporations k) as [corporations1|e] eqn:Hstep; [|done].
    simpl in Hrun. apply (IH _ Hrun). clear IH Hrun.
    unfold group_country in Hstep.
    destruct (sales !! k) as [pm|] eqn:Hk; [|done]. simpl in Hstep.
    destruct (apple_corporation k) as [corp|e]; [|done]. simpl in Hstep.
    injection Hstep as <-.
    destruct (decide (k = countrycode)) as [->|Hne].
    + right. exists corp. eexists. rewrite lookup_insert_eq. split; [done|].
      rewrite lookup_insert_eq. congruence.
    + destruct Hin as [Hin|(corporation & sold & Hc & Hs)].
      * left. apply elem_of_cons in Hin as [Hin|Hin]; [congruence | done].
      * right. destruct (decide (corp = corporation)) as [->|Hcorp].
        -- exists corporation. eexists. rewrite lookup_insert_eq. split; [done|].
           rewrite Hc. simpl. by rewrite lookup_insert_ne.
        -- exists corporation, sold. by rewrite lookup_insert_ne.
Qed.

Lemma product_line_raises (currency_data : gmap string (string * float))
    (country_currency : string) (products_sold : gmap string (Z * Decimal))
    (corporation_sum : Decimal) (product : string) :
  country_currency <> local_currency ->
  currency_data !! country_currency = None ->
  raises (outcome (product_line currency_data country_currency products_sold
                     corporation_sum product)).
Proof.
  intros Hne Hcd. unfold product_line.
  apply raises_outcome_bind. intros quantity_and_amount _.
  apply raises_outcome_bind. intros converted Hc. simpl in Hc.
  by rewrite convert_missing in Hc.
Qed.

Lemma country_block_raises (currency_data : gmap string (string * float))
    (currencies : gmap string string) (sold : gmap string (gmap string (Z * Decimal)))
    (corporation_sum : Decimal) (countrycode country_currency : string)
    (products : gmap string (Z * Decimal)) :
  currencies !! countrycode = Some country_currency ->
  sold !! countrycode = Some products ->
  products <> ∅ ->
  country_currency <> local_currency ->
  currency_data !! country_currency = None ->
  raises (outcome (country_block currency_data currencies sold corporation_sum countrycode)).
Proof.
  intros Hcur Hsold Hne Hloc Hcd. unfold country_block.
  apply raises_outcome_bind. intros cur' Hcur'. simpl in Hcur'.
  rewrite Hcur in Hcur'. injection Hcur' as <-.
  apply raises_outcome_bind. intros products' Hsold'. simpl in Hsold'.
  rewrite Hsold in Hsold'. injection Hsold' as <-.
  apply raises_outcome_bind. intros name _.
  apply raises_outcome_bind. intros _ _.
  destruct (map_choose products Hne) as (product & v & Hp).
  apply for_each_run_raises with (x := product).
  - apply dict_keys_elem, elem_of_dom. by exists v.
  - intros st. by apply product_line_raises.
Qed.

Lemma print_sales_by_corporation_raises (currency_data : gmap string (string * float))
    (sales : gmap string (gmap string (Z * Decimal))) (currencies : gmap string string)
    (countrycode country_currency : string) (products : gmap string (Z * Decimal)) :
  sales !! countrycode = Some products ->
  products <> ∅ ->
  currencies !! countrycode = Some country_currency ->
  country_currency <> local_currency ->
  currency_data !! country_currency = None ->
  raises (outcome (print_sales_by_corporation currency_data sales currencies)).
Proof.
  intros Hsales Hne Hcur Hloc Hcd. unfold print_sales_by_corporation.
  apply raises_outcome_bind. intros corporations Hgroup. simpl in Hgroup.
  destruct (group_country_present sales countrycode products _ _ _ Hsales Hgroup)
    as (corporation & sold & Hcorp & Hsold).
  { left. apply dict_keys_elem, elem_of_dom. by exists products. }
  apply for_each_run_raises with (x := corporation).
  { apply dict_keys_elem, elem_of_dom. by exists sold. }
  intros u. unfold corporation_block.
  apply raises_outcome_bind. intros address _.
  apply raises_outcome_bind. intros _ _.
  apply raises_outcome_bind. intros sold' Hcorp'. simpl in Hcorp'.
  rewrite Hcorp in Hcorp'. injection Hcorp' as <-.
  apply raises_outcome_bind. intros corporation_sum Hloop.
  apply raises_not_Ok with (a := corporation_sum) in Hloop; [done|].
  apply for_each_run_raises with (x := countrycode).
  - apply dict_keys_elem, elem_of_dom. by exists products.
  - intros st. by apply (country_block_raises _ _ _ _ _ country_currency products).
Qed.

(** C2: when the ledger a run returned holds a country whose currency is
    not the local currency and is missing from the rates table, printing
    the report raises, and no product line in that currency is printed. *)
Theorem C2_missing_rate_is_fatal (fs : FileSystem) (workingdir : string) (st : Sales)
    (currency_data : gmap string (string * float))
    (countrycode country_currency : string) (products : gmap string (Z * Decimal)) :
  outcome (parse_financial_reports fs workingdir) = Ok st ->
  countries st !! countrycode = Some products ->
  currencies st !! countrycode = Some country_currency ->
  country_currency <> local_currency ->
  currency_data !! country_currency = None ->
  raises (outcome (print_sales_by_corporation currency_data (countries st) (currencies st)))
  /\
  forall quantity product amount exchange_rate amount_in_local_currency,
    EvPrint (OutProduct quantity product country_currency amount exchange_rate
               amount_in_local_currency)
    ∉ trace (print_sales_by_corporation currency_data (countries st) (currencies st)).
Proof.
  intros Hrun Hsales Hcur Hloc Hcd. split.
  - apply (print_sales_by_corporation_raises _ _ _ countrycode country_currency products);
      try done.
    destruct (fs_listdir fs workingdir) as [filenames|] eqn:Hdir.
    + rewrite (parse_financial_reports_outcome _ _ _ Hdir) in Hrun.
      apply for_each_run_report_rows in Hrun.
      by apply (ledger_nonempty _ _ _ _ Hrun Hsales).
    + unfold parse_financial_reports, listdir in Hrun.
      rewrite !outcome_bind in Hrun. simpl in Hrun. by rewrite Hdir in Hrun.
  - intros quantity product amount exchange_rate amount_in_local_currency Hin.
    pose proof (print_sales_by_corporation_trace currency_data (countries st) (currencies st))
      as Hall.
    rewrite Forall_forall in Hall. specialize (Hall _ Hin). simpl in Hall.
    by rewrite convert_missing in Hall.
Qed.

(** C3: a product line printed for a country whose currency is the local
    currency shows the rate [Decimal('1.00000')], which is the number 1, and
    the amount itself as the amount in local currency; the rates table is
    not looked at: any table, even one without the currency, gives the same
    line. *)
Theorem C3_local_currency_identity (currency_data : gmap string (string * float))
    (sales : gmap string (gmap string (Z * Decimal))) (currencies : gmap string string)
    (quantity : Z) (product : string) (amount : Decimal) (exchange_rate : Rate)
    (amount_in_local_currency : Decimal) :
  EvPrint (OutProduct quantity product local_currency amount exchange_rate
             amount_in_local_currency)
  ∈ trace (print_sales_by_corporation currency_data sales currencies) ->
  exchange_rate = RateDecimal Decimal_1_00000 /\
  coef Decimal_1_00000 = 1 * 10 ^ (- exp Decimal_1_00000) /\
  amount_in_local_currency = amount /\
  forall other_data : gmap string (string * float),
    convert other_data local_currency amount = Ok (exchange_rate, amount_in_local_currency).
Proof.
  intros Hin.
  pose proof (print_sales_by_corporation_trace currency_data sales currencies) as Hall.
  rewrite Forall_forall in Hall. specialize (Hall _ Hin). simpl in Hall.
  rewrite convert_local in Hall. injection Hall as <- <-.
  repeat split; try done.
Qed.

End Report.

(** ** The model run on the sample directories *)



(** Whether a run returns can depend on the order of the files: the dates
    of a row are read only while no date range is known. *)
Lemma order_decides_return :
  outcome (parse_financial_reports (L := RefLib) Example.shop_CB "reports")
  = Raise ValueError /\
  outcome (parse_financial_reports (L := RefLib) Example.shop_BC "reports")
  = Ok (Example.returned (parse_financial_reports (L := RefLib) Example.shop_BC "reports")) /\
  entry (countries
           (Example.returned (parse_financial_reports (L := RefLib) Example.shop_BC "reports")))
    "FR" "Slicer"
  = Some (2, mkDecimal 2 0).
Proof. repeat split; vm_compute; reflexivity. Qed.


(** Outside the proviso of C1: an amount below the least exponent of the
    context is rounded to zero when it is added to [Decimal(0)]. *)
Lemma tiny_amount_underflows :
  dec_add Decimal_0 (mkDecimal 1 (-1000000027)) = Ok (mkDecimal 0 (-1000000026)) /\
  ~ sums_exact [mkDecimal 1 (-1000000027)].
Proof.
  split.
  - unfold dec_add, Decimal_0, dec_add_exact. cbn [coef exp].
    change (Z.min 0 (-1000000027)) with (-1000000027).
    rewrite Z.mul_0_l, Z.sub_diag. change (0 + 1 * 10 ^ 0) with 1.
    vm_compute. reflexivity.
  - intros (_ & H & _). vm_compute in H. by apply H.
Qed.

(** C2 on the reports of [shop] and an empty rates table: Japan's yen have
    no rate, printing raises and no line in yen is printed. *)
Lemma C2_missing_rate_is_fatal_witness :
  let st := Example.returned (parse_financial_reports (L := RefLib) Example.shop "reports") in
  raises (outcome (print_sales_by_corporation (L := RefLib) ∅ (countries st) (currencies st)))
  /\
  forall quantity product amount exchange_rate amount_in_local_currency,
    EvPrint (OutProduct quantity product "JPY" amount exchange_rate amount_in_local_currency)
    ∉ trace (print_sales_by_corporation (L := RefLib) ∅ (countries st) (currencies st)).
Proof.
  apply (C2_missing_rate_is_fatal (L := RefLib) Example.shop "reports"
           (Example.returned (parse_financial_reports (L := RefLib) Example.shop "reports"))
           ∅ "JP" "JPY" {["Slicer" := (5, mkDecimal 500 0)]}).
  - vm_compute. reflexivity.
  - vm_compute. reflexivity.
  - vm_compute. reflexivity.
  - discriminate.
  - reflexivity.
Defined.

(** C3 on a ledger of French sales in euros, printed with an empty rates
    table. *)
Lemma C3_local_currency_identity_witness :
  let st := Example.returned
              (parse_financial_reports (L := RefLib) Example.shop_with_idle_currency
                 "reports") in
  trace (print_sales_by_corporation (L := RefLib) ∅ (countries st) (currencies st)) !! 2%nat
  = Some (EvPrint (OutProduct 10 "Slicer" "EUR" (mkDecimal 999 (-2))
                     (RateDecimal Decimal_1_00000) (mkDecimal 999 (-2)))) /\
  forall other_data : gmap string (string * float),
    convert (L := RefLib) other_data local_currency (mkDecimal 999 (-2))
    = Ok (RateDecimal Decimal_1_00000, mkDecimal 999 (-2)).
Proof.
  split; [vm_compute; reflexivity|].
  apply (C3_local_currency_identity (L := RefLib) ∅
           (countries (Example.returned
              (parse_financial_reports (L := RefLib) Example.shop_with_idle_currency
                 "reports")))
           (currencies (Example.returned
              (parse_financial_reports (L := RefLib) Example.shop_with_idle_currency
                 "reports")))
           10 "Slicer" (mkDecimal 999 (-2)) (RateDecimal Decimal_1_00000) (mkDecimal 999 (-2))).
  apply (list_elem_of_lookup_2 _ 2%nat). vm_compute. reflexivity.
Defined.

(** C4, counterexample: the row of a currency that earned nothing has 11
    columns and gives no entry, the division by its subtotal raises. *)
Lemma C4_counterexample :
  length (Example.rates_row "USD" "0.00" "0.00" "0.89000") = 11%nat /\
  currency_row (L := RefLib) ∅ (Example.rates_row "USD" "0.00" "0.00" "0.89000")
  = Raise ZeroDivisionError /\
  outcome (parse_currency_data (L := RefLib) Example.shop_with_idle_currency
             "reports/currency_data.txt")
  = Raise ZeroDivisionError.
Proof. repeat split; vm_compute; reflexivity. Qed.

(** C4 on the row of the yen: 50 withheld of 500 leave the factor 0.9. *)
Lemma C4_currency_row_witness :
  currency_row (L := RefLib) ∅ (Example.rates_row "JPY" "500.00" "-50.00" "0.00750")
  = Ok {["JPY" := ("0.00750", (1 - PrimFloat.abs (-50 / 500))%float)]} /\
  (1 - PrimFloat.abs (-50 / 500))%float = 0x1.ccccccccccccdp-1%float.
Proof.
  split; [|reflexivity].
  destruct (C4_currency_row (L := RefLib) ∅
              (Example.rates_row "JPY" "500.00" "-50.00" "0.00750")) as [_ Hlong].
  destruct Hlong as (c0 & c3 & c4 & c8 & H0 & H3 & H4 & H8 & Hentry & _);
    [simpl; lia|].
  injection H0 as <-. injection H3 as <-. injection H4 as <-. injection H8 as <-.
  apply Hentry; vm_compute; reflexivity.
Defined.

(** C5 on a report of the rest of the world: South Africa, sold in "USD",
    is recorded with the currency "USD - RoW". *)
Lemma C5_rest_of_world_currency_witness :
  currencies
    (Example.returned
       (parse_financial_reports (L := RefLib) Example.shop_rest_of_world "reports"))
  !! "ZA" = Some "USD - RoW".
Proof.
  apply (C5_rest_of_world_currency (L := RefLib) Example.shop_rest_of_world "reports"
           ["FR.txt"; "report_WW.txt"]).
  - reflexivity.
  - vm_compute. reflexivity.
  - exists "report_WW.txt", (Example.sale "01/01/2015" "3" "2.10" "USD" "Slicer" "ZA").
    split; [|split; reflexivity].
    apply report_rows_elem. split; [set_solver|]. split; [reflexivity|].
    eexists. split; [reflexivity|]. set_solver.
  - intros filename line Hin Hdata Hcountry.
    apply report_rows_elem in Hin as (Hname & _ & rows & Hopen & Hline).
    apply elem_of_cons in Hname as [->|Hname].
    + injection Hopen as <-.
      repeat (apply elem_of_cons in Hline as [->|Hline]; [discriminate|]).
      by apply elem_of_nil in Hline.
    + apply list_elem_of_singleton in Hname as ->. reflexivity.
Defined.



(** C7 on a directory without the rates file. *)
Lemma C7_rates_file_missing_witness :
  main (L := RefLib) Example.shop_without_rates ["slicer.py"; "reports"]
  = mkRun [EvOpen "reports/currency_data.txt";
           EvPrint (OutRatesMissing "reports/currency_data.txt")]
          (Raise (SystemExit 1)) /\
  exit_status (main (L := RefLib) Example.shop_without_rates ["slicer.py"; "reports"]) = 1.
Proof.
  apply (C7_rates_file_missing (L := RefLib) Example.shop_without_rates
           ["slicer.py"; "reports"] "reports"); reflexivity.
Defined.

(** C8, on a name that ends in "txt" without the dot: "FR_backup_txt" is no
    "*.txt" file, yet it is not skipped: the run opens it, and its sales are
    counted with those of "FR.txt". *)
Theorem C8_name_ending_in_txt_is_read :
  endswith "FR_backup_txt" ".txt" = false /\
  skipped "FR_backup_txt" = false /\
  trace (parse_financial_reports (L := RefLib) Example.shop_with_backup "reports")
  = [EvListdir "reports"; EvOpen "reports/FR.txt"; EvOpen "reports/FR_backup_txt"] /\
  entry (countries
           (Example.returned
              (parse_financial_reports (L := RefLib) Example.shop_with_backup "reports")))
    "FR" "Slicer"
  = Some (20, mkDecimal 1998 (-2)).
Proof. repeat split; vm_compute; reflexivity. Qed.

(** C9, on an empty line: its row has no first field, so the test for a
    date raises IndexError; a report with an empty line between its sales
    and its totals makes the run raise. *)
Theorem C9_empty_line_raises :
  (forall (L : PyLib) (filename : string) (st : Sales),
     report_row filename st [] = Raise IndexError) /\
  outcome (parse_financial_reports (L := RefLib) Example.shop_with_empty_line "reports")
  = Raise IndexError.
Proof.
  split; [intros; reflexivity|]. vm_compute. reflexivity.
Qed.

(** C10 on the rates file with a currency that earned nothing: the
    subtotal "0.00" in column 3 makes the division raise. *)
Lemma C10_division_unguarded_witness :
  (forall d,
     currency_row (L := RefLib) d (Example.rates_row "USD" "0.00" "0.00" "0.89000")
     = Raise ValueError \/
     currency_row (L := RefLib) d (Example.rates_row "USD" "0.00" "0.00" "0.89000")
     = Raise ZeroDivisionError) /\
  (outcome (parse_currency_data (L := RefLib) Example.shop_with_idle_currency
              "reports/currency_data.txt") = Raise ValueError \/
   outcome (parse_currency_data (L := RefLib) Example.shop_with_idle_currency
              "reports/currency_data.txt") = Raise ZeroDivisionError).
Proof.
  apply (C10_division_unguarded (L := RefLib) Example.shop_with_idle_currency
           "reports/currency_data.txt"
           [Example.rates_row "JPY" "500.00" "-50.00" "0.00750"] []
           (Example.rates_row "USD" "0.00" "0.00" "0.89000") "0.00").
  - reflexivity.
  - simpl. lia.
  - reflexivity.
  - vm_compute. reflexivity.
Defined.

(** * Further properties of the script *)

(** ** The program as a whole *)

Section Whole.
Context {L : PyLib}.

Lemma run_bind_Ok {A B} (m : Run A) (f : A -> Run B) (a : A) :
  outcome m = Ok a -> m ≫= f = mkRun (trace m ++ trace (f a)) (outcome (f a)).
Proof. intros H. unfold mbind, Run_bind. by rewrite H. Qed.

Lemma parse_currency_data_trace (fs : FileSystem) (filename : string) :
  trace (parse_currency_data fs filename) = [EvOpen filename] \/
  trace (parse_currency_data fs filename)
  = [EvOpen filename; EvPrint (OutRatesMissing filename)].
Proof.
  unfold parse_currency_data. destruct (fs_open fs filename); [by left | by right].
Qed.

(** X1: without a directory on the command line the program prints its
    banner and its usage and exits with status 1 by [sys.exit(1)]; with no
    name of its own in [sys.argv] either, it prints the banner and raises
    IndexError.  In both cases it neither lists a directory nor opens a
    file. *)
Theorem X1_usage (fs : FileSystem) (argv : list string) :
  (length argv < 2)%nat ->
  exit_status (main fs argv) = 1 /\
  main fs argv =
    match argv with
    | prog :: _ =>
        mkRun [EvPrint OutBanner; EvPrint (OutUsage prog)] (Raise (SystemExit 1))
    | [] => mkRun [EvPrint OutBanner] (Raise IndexError)
    end.
Proof.
  intros Hlen. destruct argv as [|prog [|? argv]]; [| |simpl in Hlen; lia].
  - split; reflexivity.
  - split; reflexivity.
Qed.

(** X2: whatever makes [parse_currency_data] raise, a missing file or a row
    it cannot read, ends the run there: the directory is not listed, no
    report is opened, and nothing but the guidance for a missing file is
    printed. *)
Theorem X2_rates_failure_stops_run (fs : FileSystem) (argv : list string)
    (workingdir : string) (e : Exn) :
  argv !! 1%nat = Some workingdir ->
  outcome (parse_currency_data fs (path_in workingdir currency_data_filename)) = Raise e ->
  outcome (main fs argv) = Raise e /\
  (trace (main fs argv) = [EvOpen (path_in workingdir currency_data_filename)] \/
   trace (main fs argv)
   = [EvOpen (path_in workingdir currency_data_filename);
      EvPrint (OutRatesMissing (path_in workingdir currency_data_filename))]).
Proof.
  intros Hargv Hrates. unfold main.
  pose proof (lookup_lt_Some _ _ _ Hargv) as Hlen.
  destruct (Z.of_nat (length argv) <? 2) eqn:E; [apply Z.ltb_lt in E; lia|].
  rewrite (item_Some _ _ _ Hargv), run_bind_lift_Ok.
  rewrite (run_bind_Raise _ _ e Hrates). simpl.
  split; [done | apply parse_currency_data_trace].
Qed.

(** X3: when the rates file, the reports and the printing all return and a
    date range was found, the run is their events in that order, with the
    line of the sales date before the report, and it exits with status 0. *)
Theorem X3_run_in_order (fs : FileSystem) (argv : list string) (workingdir : string)
    (currency_data : gmap string (string * float)) (s : Sales) (dr : string) :
  argv !! 1%nat = Some workingdir ->
  outcome (parse_currency_data fs (path_in workingdir currency_data_filename))
  = Ok currency_data ->
  outcome (parse_financial_reports fs workingdir) = Ok s ->
  date_range s = Some dr ->
  outcome (print_sales_by_corporation currency_data (countries s) (currencies s)) = Ok tt ->
  main fs argv =
    mkRun (trace (parse_currency_data fs (path_in workingdir currency_data_filename))
           ++ trace (parse_financial_reports fs workingdir)
           ++ [EvPrint (OutSalesDate dr)]
           ++ trace (print_sales_by_corporation currency_data (countries s) (currencies s)))
          (Raise (SystemExit 0)) /\
  exit_status (main fs argv) = 0.
Proof.
  intros Hargv Hrates Hparse Hdr Hprint.
  assert (Hmain : main fs argv =
    mkRun (trace (parse_currency_data fs (path_in workingdir currency_data_filename))
           ++ trace (parse_financial_reports fs workingdir)
           ++ [EvPrint (OutSalesDate dr)]
           ++ trace (print_sales_by_corporation currency_data (countries s) (currencies s)))
          (Raise (SystemExit 0))).
  { unfold main.
    pose proof (lookup_lt_Some _ _ _ Hargv) as Hlen.
    destruct (Z.of_nat (length argv) <? 2) eqn:E; [apply Z.ltb_lt in E; lia|].
    rewrite (item_Some _ _ _ Hargv), run_bind_lift_Ok.
    rewrite (run_bind_Ok _ _ _ Hrates). rewrite (run_bind_Ok _ _ _ Hparse).
    rewrite Hdr. simpl or_raise. rewrite run_bind_lift_Ok.
    rewrite (run_bind_Ok (print (OutSalesDate dr)) _ tt eq_refl).
    rewrite (run_bind_Ok _ _ _ Hprint). simpl. by rewrite app_nil_r. }
  split; [done|]. by rewrite Hmain.
Qed.

End Whole.

(** ** More on the reports *)

Section MoreReports.
Context {L : PyLib}.

Lemma for_each_run_unchanged {A S} (body : S -> A -> Run S) (l : list A) (st : S) :
  (forall x, x ∈ l -> outcome (body st x) = Ok st) ->
  outcome (for_each_run body st l) = Ok st.
Proof.
  induction l as [|x l IH]; intros Hbody; [done|].
  simpl. rewrite outcome_bind, Hbody by (by left). simpl.
  apply IH. intros y Hy. apply Hbody. by right.
Qed.

Lemma for_each_unchanged {A S} (body : S -> A -> Result S) (l : list A) (st : S) :
  (forall x, x ∈ l -> body st x = Ok st) -> for_each body st l = Ok st.
Proof.
  induction l as [|x l IH]; intros Hbody; [done|].
  simpl. rewrite Hbody by (by left). simpl.
  apply IH. intros y Hy. apply Hbody. by right.
Qed.

Lemma for_each_split {A S} (body : S -> A -> Result S) (st st' : S) (l1 l2 : list A)
    (x : A) :
  for_each body st (l1 ++ x :: l2) = Ok st' ->
  exists st0 st1,
    for_each body st l1 = Ok st0 /\ body st0 x = Ok st1 /\ for_each body st1 l2 = Ok st'.
Proof.
  rewrite for_each_app. intros H.
  destruct (for_each body st l1) as [st0|e]; [|done]. simpl in H.
  destruct (body st0 x) as [st1|e] eqn:Hx; [|done]. simpl in H.
  by exists st0, st1.
Qed.

(** [parse_financial_reports] prints nothing. *)
Lemma parse_financial_reports_silent (fs : FileSystem) (workingdir : string) :
  Forall (fun ev => forall o, ev <> EvPrint o)
    (trace (parse_financial_reports fs workingdir)).
Proof.
  unfold parse_financial_reports, listdir.
  apply trace_bind_Forall.
  { apply trace_bind_Forall; [by repeat constructor | intros; constructor]. }
  intros filenames _. apply for_each_run_trace_Forall. intros st filename _.
  unfold report_file, open_csv. destruct (skipped filename); [constructor|].
  apply trace_bind_Forall; [|intros; constructor].
  apply trace_bind_Forall; [by repeat constructor | intros; constructor].
Qed.

Lemma parse_financial_reports_raises_at (fs : FileSystem) (workingdir : string)
    (filenames : list string) (filename : string) (rows : list (list string))
    (line : list string) :
  fs_listdir fs workingdir = Some filenames ->
  filename ∈ filenames ->
  skipped filename = false ->
  fs_open fs (path_in workingdir filename) = Some rows ->
  line ∈ rows ->
  (forall st, raises (report_row filename st line)) ->
  raises (outcome (parse_financial_reports fs workingdir)).
Proof.
  intros Hdir Hf Hs Hopen Hline Hrow.
  rewrite (parse_financial_reports_outcome _ _ _ Hdir).
  apply for_each_run_raises with (x := filename); [done|].
  intros st. rewrite report_file_outcome by done. rewrite Hopen. simpl.
  by apply for_each_raises with (x := line).
Qed.

(** X4: a name of the directory that ends in "txt", is not the rates file
    and cannot be opened (a directory, a file without read permission)
    makes the run raise: reports are not skipped when they cannot be
    read. *)
Theorem X4_unreadable_report_aborts (fs : FileSystem) (workingdir : string)
    (filenames : list string) (filename : string) :
  fs_listdir fs workingdir = Some filenames ->
  filename ∈ filenames ->
  skipped filename = false ->
  fs_open fs (path_in workingdir filename) = None ->
  raises (outcome (parse_financial_reports fs workingdir)).
Proof.
  intros Hdir Hf Hs Hopen.
  rewrite (parse_financial_reports_outcome _ _ _ Hdir).
  apply for_each_run_raises with (x := filename); [done|].
  intros st. rewrite report_file_outcome by done. rewrite Hopen. apply raises_Raise.
Qed.

Lemma report_row_short (filename : string) (st : Sales) (line : list string) :
  data_row line = true -> (length line < 18)%nat -> raises (report_row filename st line).
Proof.
  destruct line as [|c0 line]; [done|]. intros H Hlen. simpl in H, Hlen.
  assert (H16 : line !! 16%nat = None) by (apply lookup_ge_None; lia).
  unfold report_row, item. simpl. rewrite H. simpl.
  apply raises_bind. intros dr _.
  apply raises_bind. intros c5 _. apply raises_bind. intros quantity _.
  apply raises_bind. intros c7 _. apply raises_bind. intros amount _.
  apply raises_bind. intros currency _. apply raises_bind. intros product _.
  rewrite H16. apply raises_Raise.
Qed.

(** X5: a data row with fewer than 18 fields makes the run raise: the
    country code in column 17 is read from every data row, and nothing
    checks the length of a row first. *)
Theorem X5_short_data_row_aborts (fs : FileSystem) (workingdir : string)
    (filenames : list string) (filename : string) (rows : list (list string))
    (line : list string) :
  fs_listdir fs workingdir = Some filenames ->
  filename ∈ filenames ->
  skipped filename = false ->
  fs_open fs (path_in workingdir filename) = Some rows ->
  line ∈ rows ->
  data_row line = true ->
  (length line < 18)%nat ->
  raises (outcome (parse_financial_reports fs workingdir)).
Proof.
  intros Hdir Hf Hs Hopen Hline Hdata Hlen.
  apply (parse_financial_reports_raises_at fs workingdir filenames filename rows line);
    try done.
  intros st. by apply report_row_short.
Qed.

Lemma parse_financial_reports_no_data (fs : FileSystem) (workingdir : string)
    (filenames : list string) :
  fs_listdir fs workingdir = Some filenames ->
  (forall filename,
     filename ∈ filenames -> skipped filename = false ->
     exists rows,
       fs_open fs (path_in workingdir filename) = Some rows /\
       Forall (fun line => line <> [] /\ data_row line = false) rows) ->
  outcome (parse_financial_reports fs workingdir) = Ok (mkSales ∅ ∅ None).
Proof.
  intros Hdir Hfiles.
  rewrite (parse_financial_reports_outcome _ _ _ Hdir).
  apply for_each_run_unchanged. intros filename Hf.
  destruct (skipped filename) eqn:Hs.
  - by rewrite report_file_skipped.
  - rewrite report_file_outcome by done.
    destruct (Hfiles filename Hf Hs) as (rows & -> & Hrows). simpl.
    apply for_each_unchanged. intros line Hline.
    rewrite Forall_forall in Hrows. destruct (Hrows line Hline) as [Hne Hd].
    by apply report_row_skip.
Qed.

(** X6: when no report of the directory holds a data row (no report at
    all, or only headers and totals), [parse_financial_reports] returns an
    empty ledger and no date range, and the program then raises TypeError
    on the line of the sales date: it prints nothing and exits with
    status 1. *)
Theorem X6_no_sales_no_report (fs : FileSystem) (argv : list string)
    (workingdir : string) (filenames : list string)
    (currency_data : gmap string (string * float)) :
  argv !! 1%nat = Some workingdir ->
  outcome (parse_currency_data fs (path_in workingdir currency_data_filename))
  = Ok currency_data ->
  fs_listdir fs workingdir = Some filenames ->
  (forall filename,
     filename ∈ filenames -> skipped filename = false ->
     exists rows,
       fs_open fs (path_in workingdir filename) = Some rows /\
       Forall (fun line => line <> [] /\ data_row line = false) rows) ->
  outcome (parse_financial_reports fs workingdir) = Ok (mkSales ∅ ∅ None) /\
  outcome (main fs argv) = Raise TypeError /\
  exit_status (main fs argv) = 1 /\
  Forall (fun ev => forall o, ev <> EvPrint o) (trace (main fs argv)).
Proof.
  intros Hargv Hrates Hdir Hfiles.
  pose proof (parse_financial_reports_no_data _ _ _ Hdir Hfiles) as Hparse.
  assert (Hmain : main fs argv =
    mkRun (trace (parse_currency_data fs (path_in workingdir currency_data_filename))
           ++ trace (parse_financial_reports fs workingdir) ++ [])
          (Raise TypeError)).
  { unfold main.
    pose proof (lookup_lt_Some _ _ _ Hargv) as Hlen.
    destruct (Z.of_nat (length argv) <? 2) eqn:E; [apply Z.ltb_lt in E; lia|].
    rewrite (item_Some _ _ _ Hargv), run_bind_lift_Ok.
    rewrite (run_bind_Ok _ _ _ Hrates), (run_bind_Ok _ _ _ Hparse). reflexivity. }
  assert (Htrace : Forall (fun ev => forall o, ev <> EvPrint o)
            (trace (parse_currency_data fs (path_in workingdir currency_data_filename))
             ++ trace (parse_financial_reports fs workingdir) ++ [])).
  { rewrite app_nil_r. apply Forall_app. split; [|apply parse_financial_reports_silent].
    unfold parse_currency_data in *.
    destruct (fs_open fs (path_in workingdir currency_data_filename)); [|done].
    by repeat constructor. }
  split; [done|]. rewrite Hmain. repeat split. exact Htrace.
Qed.

End MoreReports.

(** ** More on the ledger, the currency map and the date range *)

Section MoreLedger.
Context {L : PyLib}.

Lemma default_fst (o1 o2 : option (Z * Decimal)) :
  fst <$> o1 = fst <$> o2 ->
  (default (0, Decimal_0) o1).1 = (default (0, Decimal_0) o2).1.
Proof. destruct o1 as [[??]|], o2 as [[??]|]; simpl; congruence. Qed.

(** X7: the quantity of every entry of the ledger a run returns is the sum
    of the quantities of the data rows of its country and product, whatever
    the amounts are: integers are added without bound or rounding; and a
    country and product has an entry exactly when a data row bears it. *)
Theorem X7_quantities_are_sums (fs : FileSystem) (workingdir : string)
    (filenames : list string) (st : Sales) (countrycode product : string) :
  fs_listdir fs workingdir = Some filenames ->
  outcome (parse_financial_reports fs workingdir) = Ok st ->
  fst <$> entry (countries st) countrycode product
  = fst <$> tally countrycode product (report_sales fs workingdir filenames).
Proof.
  intros Hdir Hrun.
  rewrite (parse_financial_reports_outcome _ _ _ Hdir) in Hrun.
  apply for_each_run_report_rows in Hrun.
  apply (report_rows_invariant
    (fun done st => fst <$> entry (countries st) countrycode product
                    = fst <$> tally countrycode product (sales_of done))
    (report_rows fs workingdir filenames)) with (st := mkSales ∅ ∅ None); try done.
  - intros done filename line rest st0 _ Hd HInv. by rewrite sales_of_snoc_skip.
  - intros done filename line rest st0 s dr total _ Hd Hr _ HInv.
    rewrite (sales_of_snoc_data _ _ _ s), entry_record_sale by done.
    destruct (decide (sold countrycode product s)) as [Hs|Hs].
    + rewrite tally_snoc_sold by done. simpl. do 2 f_equal.
      rewrite (default_fst _ _ HInv). by rewrite tally_default.
    + by rewrite tally_snoc_other.
Qed.

Lemma record_sale_dom (filename : string) (st : Sales) (dr : option string) (s : Sale)
    (total : Decimal) :
  dom (countries (record_sale filename st dr s total))
  = {[sale_country s]} ∪ dom (countries st) /\
  dom (currencies (record_sale filename st dr s total))
  = {[sale_country s]} ∪ dom (currencies st).
Proof.
  unfold record_sale. simpl. split; [apply dom_insert_L|].
  destruct (py_in "_WW." filename); rewrite ?dom_insert_L; set_solver.
Qed.

(** X8: in the state a run returns, the ledger and the currency map have
    the same countries, the countries of the data rows, and every country
    of the ledger has sold at least one product: the report never looks up
    the currency of a country in vain. *)
Theorem X8_ledger_and_currencies_agree (fs : FileSystem) (workingdir : string)
    (filenames : list string) (st : Sales) :
  fs_listdir fs workingdir = Some filenames ->
  outcome (parse_financial_reports fs workingdir) = Ok st ->
  dom (countries st) = dom (currencies st) /\
  dom (countries st)
  = list_to_set (sale_country <$> report_sales fs workingdir filenames) /\
  forall countrycode products,
    countries st !! countrycode = Some products -> products <> ∅.
Proof.
  intros Hdir Hrun.
  rewrite (parse_financial_reports_outcome _ _ _ Hdir) in Hrun.
  apply for_each_run_report_rows in Hrun.
  assert (H : dom (countries st) = dom (currencies st) /\
              dom (countries st)
              = list_to_set (sale_country <$> sales_of (report_rows fs workingdir filenames))).
  { apply (report_rows_invariant
      (fun done st => dom (countries st) = dom (currencies st) /\
                      dom (countries st) = list_to_set (sale_country <$> sales_of done))
      (report_rows fs workingdir filenames)) with (st := mkSales ∅ ∅ None); try done.
    - intros done filename line rest st0 _ Hd HInv. by rewrite sales_of_snoc_skip.
    - intros done filename line rest st0 s dr total _ Hd Hr _ [HInv1 HInv2].
      destruct (record_sale_dom filename st0 dr s total) as [-> ->].
      rewrite (sales_of_snoc_data _ _ _ s), fmap_app, list_to_set_app_L by done.
      rewrite <- HInv1, <- HInv2. simpl. split; [done | set_solver]. }
  destruct H as [H1 H2]. repeat split; try done.
  intros countrycode products. by apply (ledger_nonempty _ _ _ _ Hrun).
Qed.

Lemma currency_kept (rows : list (string * list string)) (st st' : Sales)
    (countrycode : string) :
  (forall filename line,
     (filename, line) ∈ rows -> data_row line = true ->
     line !! 17%nat <> Some countrycode) ->
  for_each (fun st row => report_row row.1 st row.2) st rows = Ok st' ->
  currencies st' !! countrycode = currencies st !! countrycode.
Proof.
  intros Hother Hrun.
  apply (report_rows_invariant
    (fun _ st0 => currencies st0 !! countrycode = currencies st !! countrycode)
    rows) with (st := st); try done.
  intros done filename line rest st0 s dr total Hrows Hd Hr _ HInv.
  pose proof (read_sale_country _ _ Hr) as Hs.
  assert (Hne : sale_country s <> countrycode).
  { intros <-. apply (Hother filename line); try done.
    rewrite Hrows. apply elem_of_app. right. by left. }
  unfold record_sale. simpl.
  destruct (py_in "_WW." filename); by rewrite !lookup_insert_ne.
Qed.

(** X9: the currency of a country is that of its last data row, in the
    order the rows are read: a row in a report named with "_WW." records
    "USD - RoW", any other row records its own currency field, and either
    replaces what earlier rows of the country recorded. *)
Theorem X9_last_row_sets_currency (fs : FileSystem) (workingdir : string)
    (filenames : list string) (st : Sales)
    (before after : list (string * list string)) (filename : string)
    (line : list string) (countrycode : string) :
  fs_listdir fs workingdir = Some filenames ->
  outcome (parse_financial_reports fs workingdir) = Ok st ->
  report_rows fs workingdir filenames = before ++ (filename, line) :: after ->
  data_row line = true ->
  line !! 17%nat = Some countrycode ->
  (forall filename' line',
     (filename', line') ∈ after -> data_row line' = true ->
     line' !! 17%nat <> Some countrycode) ->
  exists currency,
    line !! 8%nat = Some currency /\
    currencies st !! countrycode
    = Some (if py_in "_WW." filename then "USD - RoW" else currency).
Proof.
  intros Hdir Hrun Hrows Hd Hc Hafter.
  rewrite (parse_financial_reports_outcome _ _ _ Hdir) in Hrun.
  apply for_each_run_report_rows in Hrun. rewrite Hrows in Hrun.
  apply for_each_split in Hrun as (st0 & st1 & _ & Hrow & Hrest). simpl in Hrow.
  destruct (report_row_data _ _ _ _ Hd Hrow) as (s & dr & total & Hr & _ & ->).
  pose proof (read_sale_country _ _ Hr) as Hs. rewrite Hc in Hs. injection Hs as ->.
  exists (sale_currency s). split.
  - unfold read_sale in Hr.
    destruct (line !! 5%nat) as [c5|]; [|done]. simpl in Hr.
    destruct (py_int c5); [|done]. simpl in Hr.
    destruct (line !! 7%nat) as [c7|]; [|done]. simpl in Hr.
    destruct (py_Decimal c7); [|done]. simpl in Hr.
    destruct (line !! 8%nat); [|done]. simpl in Hr.
    destruct (line !! 12%nat); [|done]. simpl in Hr.
    destruct (line !! 17%nat); [|done]. simpl in Hr.
    by injection Hr as <-.
  - rewrite (currency_kept _ _ _ _ Hafter Hrest). unfold record_sale. simpl.
    destruct (py_in "_WW." filename); by rewrite lookup_insert_eq.
Qed.





End MoreLedger.

(** ** More on the rates file *)

Section MoreRates.
Context {L : PyLib}.

Lemma currency_row_dom (d d' : gmap string (string * float)) (line : list string) :
  currency_row d line = Ok d' ->
  ((length line <= 10)%nat /\ d' = d) \/
  ((10 < length line)%nat /\ exists c0 entry, line !! 0%nat = Some c0 /\ d' = <[c0 := entry]> d).
Proof.
  destruct (decide (10 < length line)%nat) as [Hlen|Hlen].
  - destruct (currency_row_long d line Hlen) as (c0 & c3 & c4 & c8 & H0 & _ & _ & _ & ->).
    destruct (py_float (replace_commas c4)) as [a|]; [|done]. simpl.
    destruct (py_float (replace_commas c3)) as [b|]; [|done]. simpl.
    destruct (PrimFloat.eqb b 0); [done|]. intros [= <-]. right. split; [done|]. eauto.
  - rewrite currency_row_short by lia. intros [= <-]. left. split; [lia | done].
Qed.

Lemma rate_kept (rows : list (list string)) (d d' : gmap string (string * float))
    (currency : string) :
  (forall line, line ∈ rows -> (10 < length line)%nat -> line !! 0%nat <> Some currency) ->
  for_each currency_row d rows = Ok d' ->
  d' !! currency = d !! currency.
Proof.
  revert d. induction rows as [|line rows IH]; intros d Hother Hrun; simpl in Hrun.
  - by injection Hrun as <-.
  - destruct (currency_row d line) as [d1|e] eqn:Hrow; [|done]. simpl in Hrun.
    rewrite (IH d1); [|intros l Hl; apply Hother; by right | done].
    destruct (currency_row_dom _ _ _ Hrow) as [[_ ->]|(Hlen & c0 & entry & H0 & ->)]; [done|].
    apply lookup_insert_ne. intros ->. by apply (Hother line); [left | | ].
Qed.

(** X11: when a currency stands in several rows of the rates file, the
    table [parse_currency_data] returns holds the rate and the factor of the
    last one: a later row replaces the entry of an earlier one. *)
Theorem X11_last_row_sets_rate (fs : FileSystem) (filename : string)
    (before after : list (list string)) (line : list string) (currency : string)
    (d : gmap string (string * float)) :
  fs_open fs filename = Some (before ++ line :: after) ->
  outcome (parse_currency_data fs filename) = Ok d ->
  (10 < length line)%nat ->
  line !! 0%nat = Some currency ->
  (forall l, l ∈ after -> (10 < length l)%nat -> l !! 0%nat <> Some currency) ->
  exists c3 c4 c8 a b,
    line !! 3%nat = Some c3 /\ line !! 4%nat = Some c4 /\ line !! 8%nat = Some c8 /\
    py_float (replace_commas c4) = Some a /\ py_float (replace_commas c3) = Some b /\
    d !! currency = Some (c8, (1 - PrimFloat.abs (a / b))%float).
Proof.
  intros Hopen Hrun Hlen H0 Hafter.
  unfold parse_currency_data in Hrun. rewrite outcome_bind in Hrun. simpl in Hrun.
  rewrite Hopen in Hrun. simpl in Hrun.
  apply for_each_split in Hrun as (d0 & d1 & _ & Hrow & Hrest).
  rewrite (rate_kept _ _ _ _ Hafter Hrest).
  destruct (currency_row_long d0 line Hlen) as (c0 & c3 & c4 & c8 & H0' & H3 & H4 & H8 & E).
  rewrite H0 in H0'. injection H0' as <-. rewrite E in Hrow.
  destruct (py_float (replace_commas c4)) as [a|] eqn:Ha; [|done]. simpl in Hrow.
  destruct (py_float (replace_commas c3)) as [b|] eqn:Hb; [|done]. simpl in Hrow.
  destruct (PrimFloat.eqb b 0); [done|]. injection Hrow as <-.
  exists c3, c4, c8, a, b. repeat split; try done. apply lookup_insert_eq.
Qed.

Lemma for_each_currency_row_dom (rows : list (list string))
    (d d' : gmap string (string * float)) (currency : string) :
  for_each currency_row d rows = Ok d' ->
  currency ∈ dom d' <->
  currency ∈ dom d \/
  exists line, line ∈ rows /\ (10 < length line)%nat /\ line !! 0%nat = Some currency.
Proof.
  revert d. induction rows as [|line rows IH]; intros d Hrun; simpl in Hrun.
  - injection Hrun as <-. split; [by left|]. intros [H|(l & Hl & _)]; [done|].
    by apply elem_of_nil in Hl.
  - destruct (currency_row d line) as [d1|e] eqn:Hrow; [|done]. simpl in Hrun.
    rewrite (IH d1 Hrun).
    destruct (currency_row_dom _ _ _ Hrow) as [[Hlen ->]|(Hlen & c0 & entry & H0 & ->)].
    + split.
      * intros [H|(l & Hl & H)]; [by left|]. right. exists l. split; [by right | done].
      * intros [H|(l & Hl & Hlong & H)]; [by left|]. right.
        apply elem_of_cons in Hl as [->|Hl]; [lia|]. by exists l.
    + rewrite dom_insert_L. split.
      * intros [H|(l & Hl & H)].
        -- apply elem_of_union in H as [H|H]; [|by left].
           apply elem_of_singleton in H as ->. right. exists line. split; [by left | done].
        -- right. exists l. split; [by right | done].
      * intros [H|(l & Hl & Hlong & H)].
        -- left. apply elem_of_union. by right.
        -- apply elem_of_cons in Hl as [->|Hl].
           ++ left. apply elem_of_union. left. apply elem_of_singleton. congruence.
           ++ right. by exists l.
Qed.

(** X12: the table [parse_currency_data] returns has an entry for a
    currency exactly when it stands in column 0 of a row of more than 10
    columns: shorter rows add nothing, and no currency is left out. *)
Theorem X12_rates_table_keys (fs : FileSystem) (filename : string)
    (rows : list (list string)) (d : gmap string (string * float)) (currency : string) :
  fs_open fs filename = Some rows ->
  outcome (parse_currency_data fs filename) = Ok d ->
  currency ∈ dom d <->
  exists line, line ∈ rows /\ (10 < length line)%nat /\ line !! 0%nat = Some currency.
Proof.
  intros Hopen Hrun.
  unfold parse_currency_data in Hrun. rewrite outcome_bind in Hrun. simpl in Hrun.
  rewrite Hopen in Hrun. simpl in Hrun.
  rewrite (for_each_currency_row_dom _ _ _ currency Hrun). rewrite dom_empty_L.
  split; [intros [H|H]; [by apply elem_of_empty in H | done] | by right].
Qed.

End MoreRates.

(** ** More on the printed report *)

Section MoreReport.
Context {L : PyLib}.

Lemma keeps_sum_lift_bind {A} (sum : Decimal) (r : Result A) (f : A -> Run Decimal) :
  (forall a, keeps_sum sum (f a)) -> keeps_sum sum (lift r ≫= f).
Proof.
  intros Hf. destruct r as [a|e].
  - rewrite run_bind_lift_Ok. apply Hf.
  - rewrite (run_bind_Raise _ _ e) by done. unfold keeps_sum. simpl. eauto.
Qed.

(** A product line adds its amount to the sum; when the addition raises,
    the line is the last thing printed. *)
Lemma product_line_keeps_sum (currency_data : gmap string (string * float))
    (country_currency : string) (products_sold : gmap string (Z * Decimal))
    (corporation_sum : Decimal) (product : string) :
  keeps_sum corporation_sum
    (product_line currency_data country_currency products_sold corporation_sum product).
Proof.
  unfold product_line.
  apply keeps_sum_lift_bind. intros quantity_and_amount.
  apply keeps_sum_lift_bind. intros converted.
  apply keeps_sum_lift_bind. intros _.
  apply keeps_sum_lift_bind. intros _.
  rewrite (run_bind_Ok (print _) _ tt eq_refl).
  unfold keeps_sum. cbn [trace outcome print emit lift app].
  destruct (dec_add corporation_sum converted.2) as [sum'|e] eqn:E.
  - intros evs. simpl. by rewrite E.
  - simpl. rewrite E. eauto.
Qed.

Lemma for_each_run_keeps_sum {A} (body : Decimal -> A -> Run Decimal) (l : list A) :
  (forall sum x, keeps_sum sum (body sum x)) ->
  forall sum, keeps_sum sum (for_each_run body sum l).
Proof.
  intros Hbody. induction l as [|x l IH]; intros sum; simpl.
  - unfold keeps_sum. simpl. done.
  - pose proof (Hbody sum x) as Hx. unfold keeps_sum in Hx.
    destruct (outcome (body sum x)) as [r|e] eqn:E.
    + rewrite (run_bind_Ok _ _ r E). specialize (IH r). unfold keeps_sum in *.
      cbn [trace outcome].
      destruct (outcome (for_each_run body r l)) as [sum'|e].
      * intros evs. by rewrite <- app_assoc, Hx, IH.
      * by rewrite Hx.
    + rewrite (run_bind_Raise _ _ e E). unfold keeps_sum. done.
Qed.

Lemma country_block_keeps_sum (currency_data : gmap string (string * float))
    (currencies : gmap string string) (sold : gmap string (gmap string (Z * Decimal)))
    (corporation_sum : Decimal) (countrycode : string) :
  keeps_sum corporation_sum
    (country_block currency_data currencies sold corporation_sum countrycode).
Proof.
  unfold country_block.
  apply keeps_sum_lift_bind. intros country_currency.
  apply keeps_sum_lift_bind. intros products_sold.
  apply keeps_sum_lift_bind. intros name.
  rewrite (run_bind_Ok (print (OutCountry name countrycode)) _ tt eq_refl).
  pose proof (for_each_run_keeps_sum
                (product_line currency_data country_currency products_sold)
                (dict_keys (dom products_sold))
                (product_line_keeps_sum currency_data country_currency products_sold)
                corporation_sum) as Hloop.
  unfold keeps_sum in *. cbn [trace outcome print emit].
  destruct (outcome (for_each_run _ corporation_sum _)); exact Hloop.
Qed.

(** The block of a corporation can be read to its end from any sum, its
    total agrees with the sum of its lines, and what is printed after a
    block that returned is read from some sum. *)
Lemma corporation_block_total (currency_data : gmap string (string * float))
    (currencies : gmap string string)
    (corporations : gmap string (gmap string (gmap string (Z * Decimal))))
    (u : unit) (corporation : string) (sum : Decimal) :
  match outcome (corporation_block currency_data currencies corporations u corporation) with
  | Ok _ =>
      exists sum', forall evs,
        running_total sum
          (trace (corporation_block currency_data currencies corporations u corporation)
           ++ evs)
        = running_total sum' evs
  | Raise _ =>
      is_Some (running_total sum
                 (trace (corporation_block currency_data currencies corporations u
                           corporation)))
  end.
Proof.
  unfold corporation_block.
  destruct (apple_address corporation) as [address|e];
    [|rewrite (run_bind_Raise _ _ e) by done; simpl; eauto].
  rewrite run_bind_lift_Ok.
  rewrite (run_bind_Ok (print (OutAddress address)) _ tt eq_refl).
  destruct (corporations !! corporation) as [sold|];
    [|rewrite (run_bind_Raise _ _ KeyError) by done; simpl; eauto].
  simpl or_raise. rewrite run_bind_lift_Ok.
  pose proof (for_each_run_keeps_sum
                (country_block currency_data currencies sold)
                (dict_keys (dom sold))
                (country_block_keeps_sum currency_data currencies sold)
                Decimal_0) as Hloop.
  unfold keeps_sum in Hloop.
  destruct (outcome (for_each_run (country_block currency_data currencies sold)
                       Decimal_0 (dict_keys (dom sold)))) as [r|e] eqn:E.
  - rewrite (run_bind_Ok _ _ r E).
    destruct (format_currency r) as [[]|e].
    + rewrite run_bind_lift_Ok. cbn [trace outcome print emit app].
      exists r. intros evs. cbn [running_total]. rewrite <- app_assoc, Hloop. simpl.
      by rewrite decide_True.
    + rewrite (run_bind_Raise (lift _) _ e) by done.
      cbn [trace outcome lift print emit app running_total]. rewrite Hloop. simpl. eauto.
  - rewrite (run_bind_Raise _ _ e E). cbn [trace outcome print emit app running_total].
    exact Hloop.
Qed.

(** X13: every total the report prints is the sum of the amounts in local
    currency of the product lines printed since the address of its
    corporation, added in the order printed from [Decimal(0)]; this holds of
    whatever was printed, also when the run raises later. *)
Theorem X13_totals_are_sums_of_lines (currency_data : gmap string (string * float))
    (sales : gmap string (gmap string (Z * Decimal))) (currencies : gmap string string) :
  is_Some (running_total Decimal_0
             (trace (print_sales_by_corporation currency_data sales currencies))).
Proof.
  unfold print_sales_by_corporation.
  destruct (for_each (group_country sales) ∅ (dict_keys (dom sales))) as [corporations|e];
    [|by rewrite (run_bind_Raise _ _ e)].
  rewrite run_bind_lift_Ok.
  generalize Decimal_0 at 1. generalize tt.
  induction (dict_keys (dom corporations)) as [|corporation l IH]; intros u sum; simpl.
  - eauto.
  - pose proof (corporation_block_total currency_data currencies corporations u corporation
                  sum) as Hblock.
    destruct (outcome (corporation_block currency_data currencies corporations u corporation))
      as [u'|e] eqn:E.
    + rewrite (run_bind_Ok _ _ u' E). cbn [trace].
      destruct Hblock as [sum1 Ht]. rewrite Ht. apply IH.
    + by rewrite (run_bind_Raise _ _ e E).
Qed.

Lemma or_raise_Ok {A} (e : Exn) (o : option A) (a : A) :
  or_raise e o = Ok a -> o = Some a.
Proof. destruct o; simpl; congruence. Qed.

Lemma outcome_bind_Ok {A B} (m : Run A) (f : A -> Run B) (b : B) :
  outcome (m ≫= f) = Ok b -> exists a, outcome m = Ok a /\ outcome (f a) = Ok b.
Proof.
  rewrite outcome_bind. destruct (outcome m) as [a|e]; [|done]. simpl. eauto.
Qed.

Lemma elem_trace_bind_l {A B} (m : Run A) (f : A -> Run B) (ev : Event) :
  ev ∈ trace m -> ev ∈ trace (m ≫= f).
Proof.
  intros H. destruct (outcome m) as [a|e] eqn:E.
  - rewrite (trace_bind_Ok _ _ a E). apply elem_of_app. by left.
  - by rewrite (trace_bind_Raise _ _ e E).
Qed.

Lemma elem_trace_bind_r {A B} (m : Run A) (f : A -> Run B) (a : A) (ev : Event) :
  outcome m = Ok a -> ev ∈ trace (f a) -> ev ∈ trace (m ≫= f).
Proof.
  intros E H. rewrite (trace_bind_Ok _ _ a E). apply elem_of_app. by right.
Qed.

(** In a loop that returns, the body has returned at every element, and its
    events are events of the loop. *)
Lemma for_each_run_elem {A S} (body : S -> A -> Run S) (l : list A) (x : A) (st st' : S) :
  outcome (for_each_run body st l) = Ok st' ->
  x ∈ l ->
  exists st0 st1,
    outcome (body st0 x) = Ok st1 /\
    forall ev, ev ∈ trace (body st0 x) -> ev ∈ trace (for_each_run body st l).
Proof.
  revert st. induction l as [|y l IH]; intros st Hrun Hx; [by apply elem_of_nil in Hx|].
  simpl in *. apply outcome_bind_Ok in Hrun as (st1 & Hy & Hrest).
  apply elem_of_cons in Hx as [->|Hx].
  - exists st, st1. split; [done|]. intros ev. apply elem_trace_bind_l.
  - destruct (IH st1 Hrest Hx) as (st0 & st2 & Hbody & Hev).
    exists st0, st2. split; [done|]. intros ev Hin.
    apply (elem_trace_bind_r _ _ st1); [done | by apply Hev].
Qed.

Lemma for_each_Ok {A S} (body : S -> A -> Result S) (l : list A) :
  (forall x st, x ∈ l -> exists st', body st x = Ok st') ->
  forall st, exists st', for_each body st l = Ok st'.
Proof.
  induction l as [|x l IH]; intros Hbody st; simpl; [eauto|].
  destruct (Hbody x st) as [st1 ->]; [by left|]. simpl.
  apply IH. intros y st0 Hy. apply Hbody. by right.
Qed.

Lemma for_each_run_Ok {A S} (body : S -> A -> Run S) (l : list A) :
  (forall x st, x ∈ l -> exists st', outcome (body st x) = Ok st') ->
  forall st, exists st', outcome (for_each_run body st l) = Ok st'.
Proof.
  induction l as [|x l IH]; intros Hbody st; simpl; [eauto|].
  rewrite outcome_bind. destruct (Hbody x st) as [st1 ->]; [by left|]. simpl.
  apply IH. intros y st0 Hy. apply Hbody. by right.
Qed.

Lemma group_country_grouped (sales : gmap string (gmap string (Z * Decimal)))
    (l : list string)
    (corporations corporations' : gmap string (gmap string (gmap string (Z * Decimal)))) :
  grouped sales corporations ->
  for_each (group_country sales) corporations l = Ok corporations' ->
  grouped sales corporations'.
Proof.
  revert corporations. induction l as [|k l IH]; intros corporations Hg Hrun; simpl in Hrun.
  - by injection Hrun as <-.
  - destruct (group_country sales corporations k) as [corporations1|e] eqn:Hstep; [|done].
    simpl in Hrun. apply (IH corporations1); [|done]. clear IH Hrun.
    unfold group_country in Hstep.
    destruct (sales !! k) as [pm|] eqn:Hk; [|done]. simpl in Hstep.
    destruct (apple_corporation k) as [corp|e] eqn:Hcorp; [|done]. simpl in Hstep.
    injection Hstep as <-.
    intros corporation sold Hsold.
    destruct (decide (corp = corporation)) as [->|Hne].
    + rewrite lookup_insert_eq in Hsold. injection Hsold as <-.
      split; [apply insert_non_empty|]. intros c products Hc.
      destruct (decide (k = c)) as [->|Hkc].
      * rewrite lookup_insert_eq in Hc. injection Hc as <-. done.
      * rewrite lookup_insert_ne in Hc by done.
        destruct (corporations !! corporation) as [sold0|] eqn:E; [|done].
        by apply (Hg corporation sold0).
    + rewrite lookup_insert_ne in Hsold by done. by apply Hg.
Qed.

Lemma grouped_empty (sales : gmap string (gmap string (Z * Decimal))) : grouped sales ∅.
Proof. intros corporation sold H. by rewrite lookup_empty in H. Qed.

(** X14: every product line of the report is an entry of the ledger: its
    quantity and amount are those of a product of some country, and the
    currency shown is the one the currency map holds for that country.
    This holds of whatever was printed, also when the run raises later. *)
Theorem X14_lines_come_from_ledger (currency_data : gmap string (string * float))
    (sales : gmap string (gmap string (Z * Decimal))) (currencies : gmap string string) :
  Forall (from_ledger sales currencies)
    (trace (print_sales_by_corporation currency_data sales currencies)).
Proof.
  unfold print_sales_by_corporation.
  apply trace_bind_Forall; [constructor|]. intros corporations Hgroup. simpl in Hgroup.
  pose proof (group_country_grouped _ _ _ _ (grouped_empty sales) Hgroup) as Hg.
  apply for_each_run_trace_Forall. intros u corporation _. unfold corporation_block.
  apply trace_bind_Forall; [constructor|]. intros address _.
  apply trace_bind_Forall; [by repeat constructor|]. intros _ _.
  apply trace_bind_Forall; [constructor|]. intros sold Hsold. simpl in Hsold.
  apply or_raise_Ok in Hsold.
  apply trace_bind_Forall;
    [|intros; apply trace_bind_Forall; [constructor | by repeat constructor]].
  apply for_each_run_trace_Forall. intros corporation_sum countrycode _.
  unfold country_block.
  apply trace_bind_Forall; [constructor|]. intros country_currency Hcur. simpl in Hcur.
  apply or_raise_Ok in Hcur.
  apply trace_bind_Forall; [constructor|]. intros products_sold Hproducts.
  simpl in Hproducts. apply or_raise_Ok in Hproducts.
  apply trace_bind_Forall; [constructor|]. intros name _.
  apply trace_bind_Forall; [by repeat constructor|]. intros _ _.
  apply for_each_run_trace_Forall. intros sum product _. unfold product_line.
  apply trace_bind_Forall; [constructor|]. intros [quantity amount] Hentry.
  simpl in Hentry. apply or_raise_Ok in Hentry.
  apply trace_bind_Forall; [constructor|]. intros converted _.
  apply trace_bind_Forall; [constructor|]. intros _ _.
  apply trace_bind_Forall; [constructor|]. intros _ _.
  apply trace_bind_Forall; [|constructor].
  constructor; [|constructor]. simpl.
  exists countrycode, products_sold. repeat split; try done.
  by apply (Hg corporation sold Hsold).
Qed.

(** X16: a report printed to the end shows every entry of the ledger: for
    every product of every country there is a product line with its
    quantity and amount, the currency of the country, and the rate and
    amount in local currency [convert] gives. *)
Theorem X16_report_shows_every_entry (currency_data : gmap string (string * float))
    (sales : gmap string (gmap string (Z * Decimal))) (currencies : gmap string string)
    (countrycode product : string) (products : gmap string (Z * Decimal))
    (quantity : Z) (amount : Decimal) :
  outcome (print_sales_by_corporation currency_data sales currencies) = Ok tt ->
  sales !! countrycode = Some products ->
  products !! product = Some (quantity, amount) ->
  exists country_currency exchange_rate amount_in_local_currency,
    currencies !! countrycode = Some country_currency /\
    convert currency_data country_currency amount
    = Ok (exchange_rate, amount_in_local_currency) /\
    EvPrint (OutProduct quantity product country_currency amount exchange_rate
               amount_in_local_currency)
    ∈ trace (print_sales_by_corporation currency_data sales currencies).
Proof.
  intros Hrun Hsales Hproduct. unfold print_sales_by_corporation in *.
  apply outcome_bind_Ok in Hrun as (corporations & Hgroup & Hrun). simpl in Hgroup.
  rewrite Hgroup, run_bind_lift_Ok.
  destruct (group_country_present sales countrycode products _ _ _ Hsales Hgroup)
    as (corporation & sold & Hcorp & Hsold).
  { left. apply dict_keys_elem, elem_of_dom. by exists products. }
  destruct (for_each_run_elem _ _ corporation _ _ Hrun) as (u0 & u1 & Hblock & Hev).
  { apply dict_keys_elem, elem_of_dom. by exists sold. }
  assert (H : exists country_currency exchange_rate amount_in_local_currency,
    currencies !! countrycode = Some country_currency /\
    convert currency_data country_currency amount
    = Ok (exchange_rate, amount_in_local_currency) /\
    EvPrint (OutProduct quantity product country_currency amount exchange_rate
               amount_in_local_currency)
    ∈ trace (corporation_block currency_data currencies corporations u0 corporation)).
  { clear Hev Hrun. unfold corporation_block in *.
    apply outcome_bind_Ok in Hblock as (address & Haddress & Hblock).
    apply outcome_bind_Ok in Hblock as ([] & _ & Hblock).
    apply outcome_bind_Ok in Hblock as (sold' & Hsold' & Hblock).
    simpl in Hsold'. rewrite Hcorp in Hsold'. injection Hsold' as <-.
    apply outcome_bind_Ok in Hblock as (sum & Hloop & _).
    destruct (for_each_run_elem _ _ countrycode _ _ Hloop) as (s0 & s1 & Hcountry & Hev).
    { apply dict_keys_elem, elem_of_dom. by exists products. }
    assert (H : exists country_currency exchange_rate amount_in_local_currency,
      currencies !! countrycode = Some country_currency /\
      convert currency_data country_currency amount
      = Ok (exchange_rate, amount_in_local_currency) /\
      EvPrint (OutProduct quantity product country_currency amount exchange_rate
                 amount_in_local_currency)
      ∈ trace (country_block currency_data currencies sold s0 countrycode)).
    { clear Hev Hloop. unfold country_block in *.
      apply outcome_bind_Ok in Hcountry as (cur & Hcur & Hcountry).
      simpl in Hcur. apply or_raise_Ok in Hcur.
      apply outcome_bind_Ok in Hcountry as (products' & Hproducts' & Hcountry).
      simpl in Hproducts'. rewrite Hsold in Hproducts'. injection Hproducts' as <-.
      apply outcome_bind_Ok in Hcountry as (name & Hname & Hcountry).
      apply outcome_bind_Ok in Hcountry as ([] & _ & Hlines).
      destruct (for_each_run_elem _ _ product _ _ Hlines) as (t0 & t1 & Hline & Hev).
      { apply dict_keys_elem, elem_of_dom. by exists (quantity, amount). }
      unfold product_line in Hline, Hev.
      apply outcome_bind_Ok in Hline as (qa & Hqa & Hline).
      simpl in Hqa. rewrite Hproduct in Hqa. injection Hqa as <-.
      apply outcome_bind_Ok in Hline as ([rate local] & Hconv & Hline). simpl in Hconv.
      apply outcome_bind_Ok in Hline as ([] & Hamount & Hline).
      apply outcome_bind_Ok in Hline as ([] & Hlocal & _).
      cbn [outcome lift fst snd] in Hamount, Hlocal.
      exists cur, rate, local. repeat split; try done.
      rewrite Hcur, Hsold. simpl or_raise. rewrite !run_bind_lift_Ok.
      simpl in Hname. rewrite Hname, run_bind_lift_Ok.
      apply (elem_trace_bind_r _ _ tt); [done|]. apply Hev.
      rewrite Hproduct. simpl or_raise. rewrite run_bind_lift_Ok. cbn [fst snd].
      rewrite Hconv, run_bind_lift_Ok. cbn [fst snd].
      rewrite Hamount, run_bind_lift_Ok, Hlocal, run_bind_lift_Ok.
      apply elem_trace_bind_l. simpl. by left. }
    destruct H as (cur & rate & local & Hcur & Hconv & Hin).
    exists cur, rate, local. repeat split; try done.
    simpl in Haddress. rewrite Haddress, run_bind_lift_Ok.
    apply (elem_trace_bind_r _ _ tt); [done|].
    rewrite Hcorp. simpl or_raise. rewrite run_bind_lift_Ok.
    apply elem_trace_bind_l. by apply Hev. }
  destruct H as (cur & rate & local & Hcur & Hconv & Hin).
  exists cur, rate, local. repeat split; try done. by apply Hev.
Qed.

End MoreReport.

(** ** The files a run reads *)

Section Opened.
Context {L : PyLib}.

(** X17: [parse_financial_reports] opens no file but those of the listing
    whose names end in "txt" and are not the rates file, also in a run that
    raises; a run that returns has opened every one of them, once, in the
    order of the listing. *)
Theorem X17_reports_opened (fs : FileSystem) (workingdir : string)
    (filenames : list string) :
  fs_listdir fs workingdir = Some filenames ->
  Forall (fun ev => forall path,
            opened ev = Some path ->
            exists filename,
              filename ∈ filenames /\ skipped filename = false /\
              path = path_in workingdir filename)
    (trace (parse_financial_reports fs workingdir)) /\
  forall st,
    outcome (parse_financial_reports fs workingdir) = Ok st ->
    omap opened (trace (parse_financial_reports fs workingdir))
    = path_in workingdir <$> filter (fun filename => skipped filename = false) filenames.
Proof.
  intros Hdir. split; [|intros st; by apply parse_financial_reports_opened].
  unfold parse_financial_reports, listdir.
  apply trace_bind_Forall.
  { apply trace_bind_Forall; [by repeat constructor | intros; constructor]. }
  intros filenames' Hl. rewrite outcome_bind in Hl. simpl in Hl. rewrite Hdir in Hl.
  injection Hl as <-.
  apply for_each_run_trace_Forall. intros st filename Hf.
  unfold report_file, open_csv. destruct (skipped filename) eqn:Hs; [constructor|].
  apply trace_bind_Forall; [|intros; constructor].
  apply trace_bind_Forall; [|intros; constructor].
  constructor; [|constructor]. intros path [= <-]. by exists filename.
Qed.

End Opened.

(** ** The further properties on the sample directories *)

(** X2 on the rates file with a currency that earned nothing: the division
    raises and the run ends there. *)
Lemma X2_rates_failure_stops_run_witness :
  outcome (main (L := RefLib) Example.shop_with_idle_currency ["slicer.py"; "reports"])
  = Raise ZeroDivisionError /\
  (trace (main (L := RefLib) Example.shop_with_idle_currency ["slicer.py"; "reports"])
   = [EvOpen (path_in "reports" currency_data_filename)] \/
   trace (main (L := RefLib) Example.shop_with_idle_currency ["slicer.py"; "reports"])
   = [EvOpen (path_in "reports" currency_data_filename);
      EvPrint (OutRatesMissing (path_in "reports" currency_data_filename))]).
Proof.
  apply (X2_rates_failure_stops_run (L := RefLib) Example.shop_with_idle_currency
           ["slicer.py"; "reports"] "reports" ZeroDivisionError).
  - reflexivity.
  - vm_compute. reflexivity.
Defined.

(** X3 on [shop]: the run exits with status 0. *)
Lemma X3_run_in_order_witness :
  exit_status (main (L := RefLib) Example.shop ["slicer.py"; "reports"]) = 0.
Proof.
  apply (X3_run_in_order (L := RefLib) Example.shop ["slicer.py"; "reports"] "reports"
           (Example.returned_table
              (parse_currency_data (L := RefLib) Example.shop
                 (path_in "reports" currency_data_filename)))
           (Example.returned (parse_financial_reports (L := RefLib) Example.shop "reports"))
           "01.01.2015 - 31.01.2015").
  - reflexivity.
  - vm_compute. reflexivity.
  - vm_compute. reflexivity.
  - vm_compute. reflexivity.
  - vm_compute. reflexivity.
Defined.

(** X4 on a directory that lists "old.txt", which cannot be opened. *)
Lemma X4_unreadable_report_aborts_witness :
  raises (outcome (parse_financial_reports (L := RefLib) Example.shop_with_unreadable
                     "reports")).
Proof.
  apply (X4_unreadable_report_aborts (L := RefLib) Example.shop_with_unreadable "reports"
           ["FR.txt"; "old.txt"] "old.txt").
  - reflexivity.
  - set_solver.
  - reflexivity.
  - reflexivity.
Defined.

(** X5 on a report whose data row stops after the quantity. *)
Lemma X5_short_data_row_aborts_witness :
  raises (outcome (parse_financial_reports (L := RefLib) Example.shop_with_short_row
                     "reports")).
Proof.
  apply (X5_short_data_row_aborts (L := RefLib) Example.shop_with_short_row "reports"
           ["FR.txt"] "FR.txt"
           [Example.header; ["01/01/2015"; "01/31/2015"; ""; ""; "SKU1"; "10"]]
           ["01/01/2015"; "01/31/2015"; ""; ""; "SKU1"; "10"]).
  - reflexivity.
  - set_solver.
  - reflexivity.
  - reflexivity.
  - set_solver.
  - reflexivity.
  - simpl. lia.
Defined.

(** X6 on a month without sales. *)
Lemma X6_no_sales_no_report_witness :
  outcome (parse_financial_reports (L := RefLib) Example.shop_without_sales "reports")
  = Ok (mkSales ∅ ∅ None) /\
  outcome (main (L := RefLib) Example.shop_without_sales ["slicer.py"; "reports"])
  = Raise TypeError /\
  exit_status (main (L := RefLib) Example.shop_without_sales ["slicer.py"; "reports"]) = 1 /\
  Forall (fun ev => forall o, ev <> EvPrint o)
    (trace (main (L := RefLib) Example.shop_without_sales ["slicer.py"; "reports"])).
Proof.
  apply (X6_no_sales_no_report (L := RefLib) Example.shop_without_sales
           ["slicer.py"; "reports"] "reports" ["currency_data.txt"; "FR.txt"]
           (Example.returned_table
              (parse_currency_data (L := RefLib) Example.shop_without_sales
                 (path_in "reports" currency_data_filename)))).
  - reflexivity.
  - vm_compute. reflexivity.
  - reflexivity.
  - intros filename Hf Hs.
    apply elem_of_cons in Hf as [->|Hf]; [discriminate Hs|].
    apply list_elem_of_singleton in Hf as ->.
    exists (Example.header :: Example.footer). split; [reflexivity|].
    repeat constructor; discriminate.
Defined.

(** X7 on the report with the amount of 29 digits: the quantity is exact
    where the amount is rounded. *)
Lemma X7_quantities_are_sums_witness :
  fst <$> entry (countries
                   (Example.returned
                      (parse_financial_reports (L := RefLib) Example.shop_with_long_amount
                         "reports")))
            "FR" "Slicer"
  = fst <$> tally "FR" "Slicer"
              (report_sales (L := RefLib) Example.shop_with_long_amount "reports" ["FR.txt"]).
Proof.
  apply (X7_quantities_are_sums (L := RefLib) Example.shop_with_long_amount "reports").
  - reflexivity.
  - vm_compute. reflexivity.
Defined.

(** X8 on [shop]: France and Japan in the ledger and in the currency map. *)
Lemma X8_ledger_and_currencies_agree_witness :
  let st := Example.returned (parse_financial_reports (L := RefLib) Example.shop "reports") in
  dom (countries st) = dom (currencies st) /\
  dom (countries st)
  = list_to_set
      (sale_country <$> report_sales (L := RefLib) Example.shop "reports"
                          ["currency_data.txt"; "FR.txt"; "JP.txt"; "notes.md"]) /\
  forall countrycode products,
    countries st !! countrycode = Some products -> products <> ∅.
Proof.
  apply (X8_ledger_and_currencies_agree (L := RefLib) Example.shop "reports").
  - reflexivity.
  - vm_compute. reflexivity.
Defined.

(** X9 on South Africa, sold first in a report of the rest of the world and
    then in a report in rand: the rand stay. *)
Lemma X9_last_row_sets_currency_witness :
  currencies
    (Example.returned
       (parse_financial_reports (L := RefLib) Example.shop_two_currencies "reports"))
  !! "ZA" = Some "ZAR".
Proof.
  destruct (X9_last_row_sets_currency (L := RefLib) Example.shop_two_currencies "reports"
              ["A_WW.txt"; "ZA.txt"]
              (Example.returned
                 (parse_financial_reports (L := RefLib) Example.shop_two_currencies
                    "reports"))
              [("A_WW.txt", Example.sale "01/01/2015" "3" "2.10" "USD" "Slicer" "ZA")]
              [] "ZA.txt" (Example.sale "01/01/2015" "1" "9.00" "ZAR" "Slicer" "ZA") "ZA")
    as (currency & Hcurrency & Hst).
  - reflexivity.
  - vm_compute. reflexivity.
  - reflexivity.
  - reflexivity.
  - reflexivity.
  - intros f l Hin. by apply elem_of_nil in Hin.
  - injection Hcurrency as <-. exact Hst.
Defined.


(** X11 on a rates file with the yen twice: the second rate stays. *)
Lemma X11_last_row_sets_rate_witness :
  exists factor,
    Example.returned_table
      (parse_currency_data (L := RefLib) Example.shop_with_two_rates
         "reports/currency_data.txt")
    !! "JPY" = Some ("0.00760", factor).
Proof.
  destruct (X11_last_row_sets_rate (L := RefLib) Example.shop_with_two_rates
              "reports/currency_data.txt"
              [Example.rates_row "JPY" "500.00" "-50.00" "0.00750"] []
              (Example.rates_row "JPY" "800.00" "0.00" "0.00760") "JPY"
              (Example.returned_table
                 (parse_currency_data (L := RefLib) Example.shop_with_two_rates
                    "reports/currency_data.txt")))
    as (c3 & c4 & c8 & a & b & _ & _ & H8 & _ & _ & Hd).
  - reflexivity.
  - vm_compute. reflexivity.
  - simpl. lia.
  - reflexivity.
  - intros l Hl. by apply elem_of_nil in Hl.
  - injection H8 as <-. eexists. exact Hd.
Defined.

(** X12 on the rates file of [shop]: the yen are in the table, the row
    "Earned", "Paid on" adds nothing. *)
Lemma X12_rates_table_keys_witness :
  "JPY" ∈ dom (Example.returned_table
                 (parse_currency_data (L := RefLib) Example.shop
                    "reports/currency_data.txt")) /\
  "Earned" ∉ dom (Example.returned_table
                    (parse_currency_data (L := RefLib) Example.shop
                       "reports/currency_data.txt")).
Proof.
  split.
  - apply (X12_rates_table_keys (L := RefLib) Example.shop "reports/currency_data.txt"
             Example.rates); [reflexivity | vm_compute; reflexivity |].
    exists (Example.rates_row "JPY" "500.00" "-50.00" "0.00750").
    split; [set_solver|]. split; [simpl; lia | reflexivity].
  - intros H.
    apply (X12_rates_table_keys (L := RefLib) Example.shop "reports/currency_data.txt"
             Example.rates) in H as (line & Hline & Hlen & H0);
      [|reflexivity | vm_compute; reflexivity].
    apply elem_of_cons in Hline as [->|Hline]; [simpl in Hlen; lia|].
    apply list_elem_of_singleton in Hline as ->. discriminate H0.
Defined.

(** X16 on a ledger of French sales: the line of the 10 copies sold in
    France. *)
Lemma X16_report_shows_every_entry_witness :
  exists country_currency exchange_rate amount_in_local_currency,
    Example.french_currencies !! "FR" = Some country_currency /\
    convert (L := RefLib) ∅ country_currency (mkDecimal 999 (-2))
    = Ok (exchange_rate, amount_in_local_currency) /\
    EvPrint (OutProduct 10 "Slicer" country_currency (mkDecimal 999 (-2)) exchange_rate
               amount_in_local_currency)
    ∈ trace (print_sales_by_corporation (L := RefLib) ∅ Example.french_sales
               Example.french_currencies).
Proof.
  apply (X16_report_shows_every_entry (L := RefLib) ∅ Example.french_sales
           Example.french_currencies "FR" "Slicer" {["Slicer" := (10, mkDecimal 999 (-2))]}).
  - vm_compute. reflexivity.
  - reflexivity.
  - reflexivity.
Defined.

(** X17 on [shop]: the two reports are opened, the rates file and the
    notes are not. *)
Lemma X17_reports_opened_witness :
  omap opened (trace (parse_financial_reports (L := RefLib) Example.shop "reports"))
  = ["reports/FR.txt"; "reports/JP.txt"].
Proof.
  destruct (X17_reports_opened (L := RefLib) Example.shop "reports"
              ["currency_data.txt"; "FR.txt"; "JP.txt"; "notes.md"]) as [_ H];
    [reflexivity|].
  rewrite (H (Example.returned
                (parse_financial_reports (L := RefLib) Example.shop "reports")));
    [reflexivity | vm_compute; reflexivity].
Defined.

(** ** Counting the lines of the report *)

Lemma sum_list_with_fmap {A B} (f : B -> nat) (g : A -> B) (l : list A) :
  sum_list_with f (g <$> l) = sum_list_with (fun x => f (g x)) l.
Proof. induction l as [|x l IH]; [done|]. cbn. f_equal. exact IH. Qed.

Lemma sum_list_with_ext_in {A} (f g : A -> nat) (l : list A) :
  (forall x, x ∈ l -> f x = g x) -> sum_list_with f l = sum_list_with g l.
Proof.
  induction l as [|x l IH]; intros H; [done|]. cbn.
  rewrite (H x) by (by left). f_equal. apply IH. intros y Hy. apply H. by right.
Qed.

Lemma map_sum_empty {V} (f : V -> nat) : map_sum f ∅ = 0%nat.
Proof. unfold map_sum. by rewrite map_to_list_empty. Qed.

Lemma map_sum_insert_None {V} (f : V -> nat) (m : gmap string V) (i : string) (x : V) :
  m !! i = None -> map_sum f (<[i := x]> m) = (f x + map_sum f m)%nat.
Proof. intros H. unfold map_sum. by rewrite (map_to_list_insert m i x H). Qed.

Lemma map_sum_delete {V} (f : V -> nat) (m : gmap string V) (i : string) (x : V) :
  m !! i = Some x -> map_sum f m = (f x + map_sum f (delete i m))%nat.
Proof. intros H. unfold map_sum. by rewrite <- (map_to_list_delete m i x H). Qed.

(** Putting [x] in place of what [i] holds, if anything. *)
Lemma map_sum_insert {V} (f : V -> nat) (m : gmap string V) (i : string) (x : V) :
  (map_sum f (<[i := x]> m) + from_option f 0 (m !! i) = f x + map_sum f m)%nat.
Proof.
  destruct (m !! i) as [y|] eqn:E; simpl.
  - rewrite <- insert_delete_eq, map_sum_insert_None by apply lookup_delete_eq.
    rewrite (map_sum_delete f m i y E). lia.
  - rewrite map_sum_insert_None by done. lia.
Qed.

Lemma keys_permutation {V} (m : gmap string V) : elements (dom m) ≡ₚ (map_to_list m).*1.
Proof.
  apply NoDup_Permutation; [apply NoDup_elements | apply NoDup_fst_map_to_list|].
  intros k. rewrite elem_of_elements, elem_of_dom, list_elem_of_fmap. split.
  - intros [v Hv]. exists (k, v). split; [done|]. by apply elem_of_map_to_list.
  - intros ([k' v] & -> & H). exists v. by apply elem_of_map_to_list.
Qed.

Lemma map_sum_const_one {V} (m : gmap string V) : map_sum (fun _ => 1%nat) m = size m.
Proof.
  unfold map_sum. rewrite <- length_map_to_list.
  induction (map_to_list m) as [|x l IH]; [done|]. cbn. by f_equal.
Qed.

Section Counting.
Context {L : PyLib}.

(** The sum over the keys of a dictionary, in the order a loop visits
    them, is the sum over its values. *)
Lemma map_sum_keys {V} (f : V -> nat) (m : gmap string V) :
  sum_list_with (fun k => from_option f 0%nat (m !! k)) (dict_keys (dom m)) = map_sum f m.
Proof.
  rewrite (dict_keys_perm (dom m)), keys_permutation, sum_list_with_fmap. unfold map_sum.
  apply sum_list_with_ext_in. intros [k v] H. apply elem_of_map_to_list in H.
  simpl. by rewrite H.
Qed.

Lemma product_lines_app (t1 t2 : list Event) :
  product_lines (t1 ++ t2) = (product_lines t1 + product_lines t2)%nat.
Proof. apply sum_list_with_app. Qed.

(** In a loop that returns, the product lines are those of the body at each
    element. *)
Lemma for_each_run_product_lines {A S} (body : S -> A -> Run S) (n : A -> nat)
    (l : list A) (st st' : S) :
  (forall x st0 st1,
     x ∈ l -> outcome (body st0 x) = Ok st1 -> product_lines (trace (body st0 x)) = n x) ->
  outcome (for_each_run body st l) = Ok st' ->
  product_lines (trace (for_each_run body st l)) = sum_list_with n l.
Proof.
  revert st. induction l as [|x l IH]; intros st Hbody Hrun; [done|].
  simpl in *. apply outcome_bind_Ok in Hrun as (st1 & Hx & Hrest).
  rewrite (run_bind_Ok _ _ st1 Hx). cbn [trace]. rewrite product_lines_app.
  rewrite (Hbody x st st1) by (done || by left).
  rewrite (IH st1); [done | | done]. intros y st0 st2 Hy. apply Hbody. by right.
Qed.

Lemma country_block_product_lines (currency_data : gmap string (string * float))
    (currencies : gmap string string) (sold : gmap string (gmap string (Z * Decimal)))
    (corporation_sum sum' : Decimal) (countrycode : string) :
  outcome (country_block currency_data currencies sold corporation_sum countrycode)
  = Ok sum' ->
  product_lines (trace (country_block currency_data currencies sold corporation_sum
                          countrycode))
  = from_option size 0%nat (sold !! countrycode).
Proof.
  unfold country_block. intros Hrun.
  apply outcome_bind_Ok in Hrun as (cur & Hcur & Hrun). simpl in Hcur.
  apply or_raise_Ok in Hcur. rewrite Hcur. simpl or_raise. rewrite run_bind_lift_Ok.
  apply outcome_bind_Ok in Hrun as (products & Hproducts & Hrun). simpl in Hproducts.
  apply or_raise_Ok in Hproducts. rewrite Hproducts. simpl or_raise.
  rewrite run_bind_lift_Ok.
  apply outcome_bind_Ok in Hrun as (name & Hname & Hrun). simpl in Hname.
  rewrite Hname, run_bind_lift_Ok.
  apply outcome_bind_Ok in Hrun as ([] & _ & Hrun).
  rewrite (run_bind_Ok (print (OutCountry name countrycode)) _ tt eq_refl).
  cbn [trace print emit]. rewrite product_lines_app.
  assert (Hcount := for_each_run_product_lines
            (product_line currency_data cur products) (fun _ => 1%nat)
            (dict_keys (dom products)) corporation_sum sum').
  rewrite Hcount; [|clear Hcount|done].
  - change (product_lines [EvPrint (OutCountry name countrycode)]) with 0%nat.
    cbn [from_option Nat.add].
    rewrite <- (map_sum_const_one products), <- (map_sum_keys (fun _ => 1%nat) products).
    apply sum_list_with_ext_in. intros product Hp.
    apply dict_keys_elem, elem_of_dom in Hp as [v ->]. done.
  - intros product s0 s1 _ Hline. unfold product_line in *.
    apply outcome_bind_Ok in Hline as (qa & Hqa & Hline). simpl in Hqa.
    rewrite Hqa, run_bind_lift_Ok.
    apply outcome_bind_Ok in Hline as (converted & Hconv & Hline). simpl in Hconv.
    rewrite Hconv, run_bind_lift_Ok.
    apply outcome_bind_Ok in Hline as ([] & Hamount & Hline).
    apply outcome_bind_Ok in Hline as ([] & Hlocal & _).
    cbn [outcome lift] in Hamount, Hlocal.
    rewrite Hamount, run_bind_lift_Ok, Hlocal, run_bind_lift_Ok. reflexivity.
Qed.

Lemma corporation_block_product_lines (currency_data : gmap string (string * float))
    (currencies : gmap string string)
    (corporations : gmap string (gmap string (gmap string (Z * Decimal))))
    (u u' : unit) (corporation : string) :
  outcome (corporation_block currency_data currencies corporations u corporation) = Ok u' ->
  product_lines (trace (corporation_block currency_data currencies corporations u
                          corporation))
  = from_option (map_sum size) 0%nat (corporations !! corporation).
Proof.
  unfold corporation_block. intros Hrun.
  apply outcome_bind_Ok in Hrun as (address & Haddress & Hrun). simpl in Haddress.
  rewrite Haddress, run_bind_lift_Ok.
  apply outcome_bind_Ok in Hrun as ([] & _ & Hrun).
  rewrite (run_bind_Ok (print (OutAddress address)) _ tt eq_refl).
  apply outcome_bind_Ok in Hrun as (sold & Hsold & Hrun). simpl in Hsold.
  apply or_raise_Ok in Hsold. rewrite Hsold. simpl or_raise. rewrite run_bind_lift_Ok.
  apply outcome_bind_Ok in Hrun as (sum & Hloop & Hrun).
  rewrite (run_bind_Ok _ _ sum Hloop).
  apply outcome_bind_Ok in Hrun as ([] & Htotal & _). cbn [outcome lift] in Htotal.
  rewrite Htotal, run_bind_lift_Ok.
  cbn [trace print emit]. rewrite !product_lines_app.
  change (product_lines [EvPrint (OutAddress address)]) with 0%nat.
  change (product_lines [EvPrint (OutTotal corporation sum)]) with 0%nat.
  cbn [from_option Nat.add]. rewrite Nat.add_0_r.
  rewrite <- (map_sum_keys size sold).
  apply (for_each_run_product_lines _ _ _ _ sum); [|done].
  intros countrycode s0 s1 _. apply country_block_product_lines.
Qed.

Lemma dict_keys_NoDup (s : gset string) : NoDup (dict_keys s).
Proof. rewrite (dict_keys_perm s). apply NoDup_elements. Qed.

(** Grouping files every product of the countries it has reached once. *)
Lemma group_country_entries (sales : gmap string (gmap string (Z * Decimal)))
    (todo done : list string)
    (corporations corporations' : gmap string (gmap string (gmap string (Z * Decimal)))) :
  NoDup (done ++ todo) ->
  (forall corporation sold countrycode,
     corporations !! corporation = Some sold ->
     countrycode ∈ dom sold -> countrycode ∈ done) ->
  map_sum (map_sum size) corporations
  = sum_list_with (fun c => from_option size 0%nat (sales !! c)) done ->
  for_each (group_country sales) corporations todo = Ok corporations' ->
  map_sum (map_sum size) corporations'
  = sum_list_with (fun c => from_option size 0%nat (sales !! c)) (done ++ todo).
Proof.
  revert done corporations.
  induction todo as [|k todo IH]; intros done corporations Hnd Hin Hsum Hrun; simpl in Hrun.
  - injection Hrun as <-. by rewrite app_nil_r.
  - destruct (group_country sales corporations k) as [corporations1|e] eqn:Hstep; [|done].
    simpl in Hrun.
    replace (done ++ k :: todo) with ((done ++ [k]) ++ todo) in * by by rewrite <- app_assoc.
    assert (Hk : k ∉ done).
    { apply NoDup_app in Hnd as [Hnd _]. apply NoDup_app in Hnd as (_ & Hnd & _).
      intros H. apply (Hnd k H). by left. }
    unfold group_country in Hstep.
    destruct (sales !! k) as [pm|] eqn:Hpm; [|done]. simpl in Hstep.
    destruct (apple_corporation k) as [corp|e]; [|done]. simpl in Hstep.
    injection Hstep as <-.
    apply (IH (done ++ [k])
             (<[corp := <[k := pm]> (default ∅ (corporations !! corp))]> corporations)
             Hnd); [| |done].
    + intros corporation sold c Hsold Hc. apply elem_of_app.
      destruct (decide (corp = corporation)) as [->|Hne].
      * rewrite lookup_insert_eq in Hsold. injection Hsold as <-.
        rewrite dom_insert_L in Hc. apply elem_of_union in Hc as [Hc|Hc].
        -- right. apply elem_of_singleton in Hc as ->. by left.
        -- left. destruct (corporations !! corporation) as [sold0|] eqn:E.
           ++ by apply (Hin corporation sold0).
           ++ simpl in Hc. by rewrite dom_empty_L in Hc.
      * rewrite lookup_insert_ne in Hsold by done. left. by apply (Hin corporation sold).
    + rewrite sum_list_with_app. cbn. rewrite Hpm. cbn.
      pose proof (map_sum_insert (map_sum size) corporations corp
                    (<[k := pm]> (default ∅ (corporations !! corp)))) as Hins.
      assert (Hold : default ∅ (corporations !! corp) !! k = None).
      { destruct (corporations !! corp) as [sold0|] eqn:E; simpl; [|done].
        apply not_elem_of_dom. intros Hc. apply Hk. by apply (Hin corp sold0). }
      rewrite (map_sum_insert_None size _ k pm Hold) in Hins.
      assert (from_option (map_sum size) 0%nat (corporations !! corp)
              = map_sum size (default ∅ (corporations !! corp))) as Hfrom.
      { destruct (corporations !! corp); simpl; [done | by rewrite map_sum_empty]. }
      lia.
Qed.

(** X18: a report printed to the end has as many product lines as the
    ledger has entries: since every line is an entry and every entry has
    its line, every product of every country is printed once. *)
Theorem X18_one_line_per_entry (currency_data : gmap string (string * float))
    (sales : gmap string (gmap string (Z * Decimal))) (currencies : gmap string string) :
  outcome (print_sales_by_corporation currency_data sales currencies) = Ok tt ->
  product_lines (trace (print_sales_by_corporation currency_data sales currencies))
  = entries sales.
Proof.
  intros Hrun. unfold print_sales_by_corporation in *.
  apply outcome_bind_Ok in Hrun as (corporations & Hgroup & Hrun). simpl in Hgroup.
  rewrite Hgroup, run_bind_lift_Ok.
  rewrite (for_each_run_product_lines _
             (fun corporation =>
                from_option (map_sum size) 0%nat (corporations !! corporation)) _ _ tt);
    [| |done].
  - rewrite (map_sum_keys (map_sum size) corporations).
    rewrite (group_country_entries sales (dict_keys (dom sales)) [] ∅ corporations);
      try done.
    + apply (map_sum_keys size sales).
    + apply dict_keys_NoDup.
  - intros corporation u0 u1 _. apply corporation_block_product_lines.
Qed.

End Counting.

(** X18 on the ledger of French sales: one entry, one product line. *)
Lemma X18_one_line_per_entry_witness :
  product_lines (trace (print_sales_by_corporation (L := RefLib) ∅ Example.french_sales
                          Example.french_currencies)) = 1%nat.
Proof.
  rewrite (X18_one_line_per_entry (L := RefLib) ∅ Example.french_sales
             Example.french_currencies).
  - vm_compute. reflexivity.
  - vm_compute. reflexivity.
Defined.

(** ** Reports that are printed to the end *)

Lemma map_sum_lookup_le {V} (f : V -> nat) (m : gmap string V) (i : string) (x : V) :
  m !! i = Some x -> (f x <= map_sum f m)%nat.
Proof. intros H. rewrite (map_sum_delete f m i x H). lia. Qed.

Lemma sum_list_with_one {A} (l : list A) : sum_list_with (fun _ => 1%nat) l = length l.
Proof. induction l as [|x l IH]; [done|]. cbn. by f_equal. Qed.

(** A loop whose body returns at every element as long as a count of the
    work done stays within a bound returns when the work of all the
    elements is within the bound. *)
Lemma for_each_run_counted {A S} (body : S -> A -> Run S) (w : A -> nat)
    (Inv : nat -> S -> Prop) (N : nat) (l : list A) :
  (forall x k st,
     x ∈ l -> (k + w x <= N)%nat -> Inv k st ->
     exists st', outcome (body st x) = Ok st' /\ Inv (k + w x)%nat st') ->
  forall k st,
    (k + sum_list_with w l <= N)%nat -> Inv k st ->
    exists st',
      outcome (for_each_run body st l) = Ok st' /\ Inv (k + sum_list_with w l)%nat st'.
Proof.
  induction l as [|x l IH]; intros Hbody k st Hk HInv.
  - exists st. split; [done|]. cbn. by rewrite Nat.add_0_r.
  - cbn in Hk. destruct (Hbody x k st) as (st1 & Hx & HInv1); [by left | lia | done|].
    destruct (IH (fun y k0 st0 Hy => Hbody y k0 st0 (proj2 (elem_of_cons l y x) (or_intror Hy)))
                (k + w x)%nat st1) as (st' & Hrest & HInv');
      [lia | done|].
    exists st'. simpl. rewrite outcome_bind, Hx. simpl. split; [done|].
    cbn. by rewrite Nat.add_assoc.
Qed.

Section Printable.
Context {L : PyLib}.

(** A loop over a dictionary visits as many keys as it has entries. *)
Lemma dict_keys_length {V} (m : gmap string V) : length (dict_keys (dom m)) = size m.
Proof.
  rewrite (dict_keys_perm (dom m)). change (length (elements (dom m))) with (size (dom m)).
  apply size_dom.
Qed.

(** The amount in local currency of a moderate amount, at a moderate rate
    and factor, is computed without an exception and is of a size not far
    from theirs. *)
Lemma convert_moderate (currency_data : gmap string (string * float))
    (country_currency : string) (amount : Decimal) :
  moderate amount ->
  country_currency = local_currency \/
  (exists rate factor r,
     currency_data !! country_currency = Some (rate, factor) /\
     py_Decimal rate = Some r /\
     moderate r /\
     moderate (Decimal_of_float factor)) ->
  exists converted,
    convert currency_data country_currency amount = Ok converted /\
    in_range (-300000000) 300000002 converted.2.
Proof.
  intros Hamount H. unfold convert.
  destruct (String.eqb country_currency local_currency) eqn:E; simpl.
  - eexists. split; [done|]. simpl.
    apply (in_range_weaken (-100000000) _ 100000000); [lia | lia | done].
  - destruct H as [->|(rate & factor & r & -> & Hr & Hrate & Hfactor)];
      [by rewrite String.eqb_refl in E|].
    simpl. rewrite Hr. simpl.
    destruct (dec_mul_in_range (-100000000) 100000000 (-100000000) 100000000 amount r)
      as (p & -> & Hp); [unfold Etiny, Emin, prec; lia | unfold Emax; lia | done | done|].
    simpl.
    destruct (dec_mul_in_range (-100000000 + -100000000) (100000000 + 100000000 + 1)
                (-100000000) 100000000 p (Decimal_of_float factor))
      as (q & -> & Hq); [unfold Etiny, Emin, prec; lia | unfold Emax; lia | done | done|].
    simpl. eexists. split; [done|]. simpl.
    eapply in_range_weaken; [| |exact Hq]; lia.
Qed.

(** A number in a range inside the exponents of the context is formatted
    without an exception. *)
Lemma format_currency_in_range (lo hi : Z) (d : Decimal) :
  Etiny <= lo -> hi <= Emax -> in_range lo hi d -> format_currency d = Ok tt.
Proof.
  intros Hlo Hhi Hd. destruct d as [c e| | |]; try by destruct Hd.
  unfold format_currency, dec_abs.
  destruct (dec_fix_in_range lo hi (mkDecimal (Z.abs c) e)) as (d' & -> & _); try done.
  destruct Hd as (_ & He & Hc). unfold in_range. simpl in *.
  by rewrite Z.abs_idemp.
Qed.

(** The sum of a corporation after [k] product lines. *)
Lemma product_line_counted (currency_data : gmap string (string * float))
    (country_currency : string) (products_sold : gmap string (Z * Decimal))
    (corporation_sum : Decimal) (product : string) (k : nat) :
  Z.of_nat k + 1 <= 100000000 ->
  product ∈ dom products_sold ->
  (forall quantity amount,
     products_sold !! product = Some (quantity, amount) -> moderate amount) ->
  country_currency = local_currency \/
  (exists rate factor r,
     currency_data !! country_currency = Some (rate, factor) /\
     py_Decimal rate = Some r /\
     moderate r /\
     moderate (Decimal_of_float factor)) ->
  in_range (-300000000) (300000002 + 2 * Z.of_nat k) corporation_sum ->
  exists sum',
    outcome (product_line currency_data country_currency products_sold corporation_sum
               product) = Ok sum' /\
    in_range (-300000000) (300000002 + 2 * Z.of_nat (k + 1)) sum'.
Proof.
  intros Hk Hproduct Hamount Hrate Hsum.
  apply elem_of_dom in Hproduct as [[quantity amount] Hqa].
  unfold product_line. rewrite Hqa. simpl or_raise. rewrite run_bind_lift_Ok.
  destruct (convert_moderate currency_data country_currency amount
              (Hamount _ _ Hqa) Hrate) as (converted & Hconv & Hrange).
  cbn [snd]. rewrite Hconv, run_bind_lift_Ok.
  rewrite (format_currency_in_range (-100000000) 100000000 amount);
    [|unfold Etiny, Emin, prec; lia | unfold Emax; lia | by apply (Hamount quantity)].
  rewrite run_bind_lift_Ok.
  rewrite (format_currency_in_range (-300000000) 300000002 converted.2);
    [|unfold Etiny, Emin, prec; lia | unfold Emax; lia | done].
  rewrite run_bind_lift_Ok.
  rewrite (run_bind_Ok (print _) _ tt eq_refl). cbn [outcome lift].
  destruct (dec_add_in_range (-300000000) (300000002 + 2 * Z.of_nat k)
              corporation_sum converted.2) as (sum' & Hadd & Hsum');
    [unfold Etiny, Emin, prec; lia | unfold Emax; lia | done | |].
  { eapply in_range_weaken; [| |exact Hrange]; lia. }
  exists sum'. split; [done|].
  eapply in_range_weaken; [| |exact Hsum']; lia.
Qed.

(** X15: the report of a printable ledger is printed to the end:
    [print_sales_by_corporation] returns when every country of the ledger
    has a corporation, an address, a name and a currency, every currency but
    the local one has a rate in the table that [Decimal] reads and a factor,
    and the amounts, the rates and the factors are numbers of moderate size,
    of a ledger of at most 100000000 entries. *)
Theorem X15_printable_ledger_is_printed (currency_data : gmap string (string * float))
    (sales : gmap string (gmap string (Z * Decimal))) (currencies : gmap string string) :
  printable currency_data sales currencies ->
  outcome (print_sales_by_corporation currency_data sales currencies) = Ok tt.
Proof.
  intros [Hsize Hp]. unfold print_sales_by_corporation.
  destruct (for_each_Ok (group_country sales) (dict_keys (dom sales))) with (st := ∅ : gmap string (gmap string (gmap string (Z * Decimal))))
    as [corporations Hgroup].
  { intros c st Hc. apply dict_keys_elem, elem_of_dom in Hc as [pm Hpm].
    destruct (Hp c pm Hpm) as (_ & corp & _ & _ & _ & Hcorp & _).
    unfold group_country. rewrite Hpm, Hcorp. simpl. eauto. }
  rewrite Hgroup, run_bind_lift_Ok.
  pose proof (group_country_grouped _ _ _ _ (grouped_empty sales) Hgroup) as Hg.
  assert (Hentries : map_sum (map_sum size) corporations = entries sales).
  { rewrite (group_country_entries sales (dict_keys (dom sales)) [] ∅ corporations);
      try done; [apply (map_sum_keys size sales) | apply dict_keys_NoDup]. }
  destruct (for_each_run_Ok (corporation_block currency_data currencies corporations)
              (dict_keys (dom corporations))) with (st := tt) as [[] Hrun]; [|done].
  intros corporation u Hcorp.
  apply dict_keys_elem, elem_of_dom in Hcorp as [sold Hsold].
  destruct (Hg corporation sold Hsold) as [Hne Hsound].
  destruct (map_choose sold Hne) as (c0 & pm0 & Hc0).
  destruct (Hsound c0 pm0 Hc0) as [Hsales0 Hcorp0].
  destruct (Hp c0 pm0 Hsales0) as (_ & corp & address & _ & _ & Hcorp0' & Haddress & _).
  rewrite Hcorp0 in Hcorp0'. injection Hcorp0' as <-.
  unfold corporation_block. rewrite Haddress, run_bind_lift_Ok.
  rewrite (run_bind_Ok (print (OutAddress address)) _ tt eq_refl).
  rewrite Hsold. simpl or_raise. rewrite run_bind_lift_Ok.
  pose proof (map_sum_lookup_le (map_sum size) corporations corporation sold Hsold) as Hle.
  destruct (for_each_run_counted (country_block currency_data currencies sold)
              (fun c => from_option size 0%nat (sold !! c))
              (fun k sum => in_range (-300000000) (300000002 + 2 * Z.of_nat k) sum)
              (map_sum size sold) (dict_keys (dom sold))) with (k := 0%nat) (st := Decimal_0)
    as (sum & Hloop & Hsum).
  - intros c k sum0 Hc Hk Hsum0. apply dict_keys_elem, elem_of_dom in Hc as [pm Hpm].
    rewrite Hpm in Hk |- *. cbn [from_option] in Hk |- *.
    destruct (Hsound c pm Hpm) as [Hsales _].
    destruct (Hp c pm Hsales) as (Hamounts & _ & _ & name & cur & _ & _ & Hname & Hcur & Hrate).
    unfold country_block. rewrite Hcur, Hpm, Hname. simpl or_raise.
    rewrite !run_bind_lift_Ok.
    rewrite (run_bind_Ok (print (OutCountry name c)) _ tt eq_refl). cbn [outcome].
    destruct (for_each_run_counted (product_line currency_data cur pm)
                (fun _ => 1%nat)
                (fun k sum => in_range (-300000000) (300000002 + 2 * Z.of_nat k) sum)
                (map_sum size sold) (dict_keys (dom pm))) with (k := k) (st := sum0)
      as (sum1 & Hproducts & Hsum1); [| |done|].
    + intros product k0 sum2 Hproduct Hk0 Hsum2.
      apply product_line_counted; try done; [lia | by apply dict_keys_elem in Hproduct|].
      intros quantity amount. apply Hamounts.
    + by rewrite sum_list_with_one, dict_keys_length.
    + exists sum1. split; [done|]. by rewrite sum_list_with_one, dict_keys_length in Hsum1.
  - by rewrite map_sum_keys.
  - apply in_range_Decimal_0; lia.
  - rewrite (run_bind_Ok _ _ sum Hloop). rewrite map_sum_keys in Hsum.
    rewrite (format_currency_in_range (-300000000)
               (300000002 + 2 * Z.of_nat (0 + map_sum size sold)) sum);
      [|unfold Etiny, Emin, prec; lia | unfold Emax; lia | done].
    rewrite run_bind_lift_Ok. simpl. eauto.
Qed.

End Printable.

Lemma two_sales_printable :
  printable (L := RefLib) Example.yen_table Example.two_sales Example.two_currencies.
Proof.
  split; [vm_compute; discriminate|].
  assert (Hmoderate : forall d, d = mkDecimal 999 (-2) \/ d = mkDecimal 500 0 ->
                                moderate d).
  { intros d [->| ->]; repeat split; vm_compute; discriminate. }
  intros countrycode products H. unfold Example.two_sales, Example.french_sales in H.
  apply lookup_insert_Some in H as [[<- <-]|[_ H]].
  - split.
    + intros product quantity amount H. apply lookup_singleton_Some in H as [_ [= _ <-]].
      apply Hmoderate. by right.
    + exists "iTunes K.K.", "iTunes K.K., registered office", "Japan", "JPY".
      repeat split; try reflexivity. right.
      exists "0.00750", 0x1.ccccccccccccdp-1%float, (mkDecimal 750 (-5)).
      repeat split; try reflexivity; vm_compute; discriminate.
  - apply lookup_singleton_Some in H as [<- <-]. split.
    + intros product quantity amount H. apply lookup_singleton_Some in H as [_ [= _ <-]].
      apply Hmoderate. by left.
    + exists "Apple Distribution International",
        "Apple Distribution International, registered office", "France", "EUR".
      repeat split; try reflexivity. by left.
Qed.

(** X15 on a ledger of French sales in euros and Japanese sales in yen. *)
Lemma X15_printable_ledger_is_printed_witness :
  outcome (print_sales_by_corporation (L := RefLib) Example.yen_table Example.two_sales
             Example.two_currencies) = Ok tt.
Proof.
  apply (X15_printable_ledger_is_printed (L := RefLib) Example.yen_table
           Example.two_sales Example.two_currencies).
  exact two_sales_printable.
Defined.

(** X1 on a command line without arguments. *)
Lemma X1_usage_witness :
  exit_status (main (L := RefLib) Example.shop ["slicer.py"]) = 1 /\
  main (L := RefLib) Example.shop ["slicer.py"]
  = mkRun [EvPrint OutBanner; EvPrint (OutUsage "slicer.py")] (Raise (SystemExit 1)).
Proof.
  apply (X1_usage (L := RefLib) Example.shop ["slicer.py"]). simpl. lia.
Defined.
